(** * MAAS provisioning front-end: selection, job orchestration and
      cloud-init generation

    A shallow embedding of [app.py] and [services/cloud_init_generator.py]
    and the properties of the provisioning specification checked against it.

    - [Py]        the Python string and list primitives the two files use;
    - [CloudInit] [services/cloud_init_generator.py];
    - [App]       the selection and orchestration code of [app.py].

    Strings are sequences of code points below 256; the fleet controller, the
    clock and the YAML serializer are outside the repository and enter as
    parameters. *)

From Stdlib Require Import ZArith List String Ascii Bool Lia.
From stdpp Require Import base option list strings gmap sorting pretty.

Local Open Scope string_scope.
Local Open Scope list_scope.

(* ===================================================================== *)
(** * Python primitives *)
(* ===================================================================== *)

Module Py.

(** The double quote character and the line feed, which a string literal
    of this file does not spell. *)
Definition dq : string := String (ascii_of_nat 34) EmptyString.
Definition nl_char : ascii := ascii_of_nat 10.
Definition nl : string := String nl_char EmptyString.

(** Truthiness of a [str] and of an [Optional[str]]. *)
Definition truthy (s : string) : bool :=
  match s with EmptyString => false | _ => true end.

Definition truthy_opt (o : option string) : bool :=
  match o with Some s => truthy s | None => false end.

(** [a or b] on strings where [a] may be [None]. *)
Definition or_else (o : option string) (d : string) : string :=
  match o with
  | Some s => if truthy s then s else d
  | None => d
  end.

(** [str.lower()] on code points below 256. *)
Definition lower_char (c : ascii) : ascii :=
  let n := nat_of_ascii c in
  if ((65 <=? n) && (n <=? 90))%nat then ascii_of_nat (n + 32)
  else if ((192 <=? n) && (n <=? 222) && negb (n =? 215))%nat
       then ascii_of_nat (n + 32)
  else c.

Fixpoint lower (s : string) : string :=
  match s with
  | EmptyString => EmptyString
  | String c s' => String (lower_char c) (lower s')
  end.

(** [s.startswith(p)]. *)
Definition startswith (p s : string) : bool := String.prefix p s.

(** [sub in s]. *)
Fixpoint contains (sub s : string) : bool :=
  String.prefix sub s ||
  match s with
  | EmptyString => false
  | String _ s' => contains sub s'
  end.

(** [any(x in s for x in subs)]. *)
Definition contains_any (subs : list string) (s : string) : bool :=
  existsb (fun x => contains x s) subs.

(** [x in l] on a list of strings. *)
Definition mem (x : string) (l : list string) : bool :=
  existsb (String.eqb x) l.

(** [str.isspace()] of one code point. *)
Definition is_space (c : ascii) : bool :=
  let n := nat_of_ascii c in
  ((9 <=? n) && (n <=? 13) || (28 <=? n) && (n <=? 32)
   || (n =? 133) || (n =? 160))%nat.

Fixpoint lstrip (s : string) : string :=
  match s with
  | EmptyString => EmptyString
  | String c s' => if is_space c then lstrip s' else s
  end.

Fixpoint rstrip (s : string) : string :=
  match s with
  | EmptyString => EmptyString
  | String c s' =>
      match rstrip s' with
      | EmptyString => if is_space c then EmptyString else String c EmptyString
      | r => String c r
      end
  end.

(** [s.strip()]. *)
Definition strip (s : string) : string := rstrip (lstrip s).

(** [s.split(sep)] for a separator of one code point. *)
Fixpoint split_on (sep : ascii) (s : string) : list string :=
  match s with
  | EmptyString => [EmptyString]
  | String c s' =>
      let r := split_on sep s' in
      if Ascii.eqb c sep then EmptyString :: r
      else match r with
           | h :: t => String c h :: t
           | [] => [String c EmptyString]
           end
  end.

(** [k in d] for a key that may be absent. *)
Definition has_key {A} (o : option A) : bool :=
  match o with Some _ => true | None => false end.

(** Dropping the first [n] code points: [s[n:]]. *)
Fixpoint drop_str (n : nat) (s : string) : string :=
  match n, s with
  | O, _ => s
  | S n', String _ s' => drop_str n' s'
  | S _, EmptyString => EmptyString
  end.

(** [s[:n]]. *)
Fixpoint take_str (n : nat) (s : string) : string :=
  match n, s with
  | S n', String c s' => String c (take_str n' s')
  | _, _ => EmptyString
  end.

(** [s[-n:]]. *)
Definition last_str (n : nat) (s : string) : string :=
  drop_str (String.length s - n) s.

(** [s.replace(old, new)] for a non-empty [old]: occurrences are found
    left to right and do not overlap.  [skip] counts the code points of an
    occurrence already replaced that are still to be passed over. *)
Fixpoint replace_go (old new : string) (skip : nat) (s : string) : string :=
  match s with
  | EmptyString => EmptyString
  | String c s' =>
      match skip with
      | S k => replace_go old new k s'
      | O =>
          if String.prefix old s
          then new +:+ replace_go old new (String.length old - 1) s'
          else String c (replace_go old new 0 s')
      end
  end.

(** With an empty [old], Python puts [new] before every code point and at
    the end. *)
Fixpoint intersperse_str (new s : string) : string :=
  match s with
  | EmptyString => new
  | String c s' => new +:+ String c (intersperse_str new s')
  end.

Definition replace (old new s : string) : string :=
  match old with
  | EmptyString => intersperse_str new s
  | _ => replace_go old new 0 s
  end.

(** [s.replace(old, new, 1)]: the first occurrence only. *)
Fixpoint replace_first_go (old new s : string) : string :=
  match s with
  | EmptyString => EmptyString
  | String c s' =>
      if String.prefix old s
      then new +:+ drop_str (String.length old) s
      else String c (replace_first_go old new s')
  end.

Definition replace_first (old new s : string) : string :=
  match old with
  | EmptyString => new +:+ s
  | _ => replace_first_go old new s
  end.

(** [sep.join(l)]. *)
Definition join (sep : string) (l : list string) : string :=
  String.concat sep l.

(** [str(n)] of an [int]. *)
Definition str_of_Z (n : Z) : string := pretty n.

(** [math.ceil(n / 1024)] of an [int] (true division by a power of two is
    exact on the magnitudes a memory size takes). *)
Definition ceil_div_1024 (n : Z) : Z := (- ((- n) / 1024))%Z.

(** [l[:n]] with an [int] bound that is at least zero. *)
Definition take_Z {A} (n : Z) (l : list A) : list A :=
  firstn (Z.to_nat n) l.

(** [sorted(l)] on strings: code point order. *)
Definition sorted (l : list string) : list string :=
  merge_sort String.le l.

End Py.

(* ===================================================================== *)
(** * services/cloud_init_generator.py *)
(* ===================================================================== *)

(** A machine record of the fleet controller, as the code reads it.  A key
    the code reads with [.get] may be absent ([None]); [tag_names] and
    [memory] absent are the defaults [[]] and [0] the code supplies. *)
Record Machine := {
  system_id : string;
  hostname : option string;
  fqdn : option string;
  status_name : string;
  pool_name : option string;   (* machine.get('pool', {}).get('name') *)
  tag_names : list string;
  architecture : option string;
  cpu_count : option Z;
  memory : Z
}.

(** The credential dictionary: a key is absent or holds a value of its
    type. *)
Record Credentials := {
  configured : option bool;
  username : option string;
  password : option string
}.

(** What [yaml.dump] receives. *)
#[warnings="-register-all"]
Inductive yaml : Type :=
| YStr (s : string)
| YBool (b : bool)
| YSeq (l : list yaml)
| YMap (kv : list (string * yaml)).

(** The libraries and the interpreter under the code: the YAML serializer
    called as [yaml.dump(d, default_flow_style=False, sort_keys=False)] and
    the order in which a [set] of strings is iterated.  The text of
    [datetime.now().isoformat()] is an argument of the functions that read
    the clock. *)
Class Runtime := {
  yaml_dump : yaml -> string;
  set_iter : list string -> list string
}.

Module CloudInit.
Import Py.

Record WriteFile := { content : string; path : string }.

(** The [sudo] entry of a user is a list for the RHEL family and a string
    otherwise. *)
Inductive Sudo := SudoList (l : list string) | SudoStr (s : string).

Record UserConfig := {
  name : string;
  plain_text_passwd : string;
  sudo : Sudo;
  shell : string;
  groups : list string;
  lock_passwd : bool;
  (* ssh_authorized_keys: [], system: False, create_user_group: True *)
  rocky_settings : bool
}.

(** The configuration dictionary; [users], [hostname] and [final_message]
    are keys that may be absent. *)
Record Config := {
  packages : list string;
  ssh_pwauth : bool;
  disable_root : bool;
  users : option (list UserConfig);
  write_files : list WriteFile;
  runcmd : list string;
  cfg_hostname : option string;
  final_message : option string
}.

Record Enhancements := {
  enh_packages : list string;
  enh_runcmd : list string;
  enh_write_files : list WriteFile
}.

(** A text given line by line, every line ended by a line feed. *)
Definition text_lines (l : list string) : string :=
  String.concat "" (map (fun x => x +:+ nl) l).

(** [str(x)] of an optional string inside an f-string. *)
Definition str_opt (o : option string) : string := default "None" o.

(** [any(x in os_type.lower() for x in ['rocky', 'rhel', 'centos'])]. *)
Definition is_rocky_os (os_type : string) : bool :=
  contains_any ["rocky"; "rhel"; "centos"] (lower os_type).

Definition rocky_packages : list string :=
  [ "curl"; "wget"; "git"; "htop"; "vim"; "net-tools"; "openssh-server";
    "sudo"; "tar"; "gzip"; "lldpd"; "nvme-cli"; "strace"; "ltrace";
    "crash"; "kexec-tools"; "ibverbs-utils"; "infiniband-diags"; "screen";
    "tmux"; "ipmitool"; "rdma-core"; "wireshark-cli"; "fio";
    "smartmontools"; "atop" ].

Definition ubuntu_packages : list string :=
  [ "curl"; "wget"; "git"; "htop"; "vim"; "net-tools"; "openssh-server";
    "lldpd"; "nvme-cli"; "strace"; "ltrace"; "crash"; "kdump-tools";
    "ibverbs-utils"; "ibutils"; "infiniband-diags"; "screen"; "tmux";
    "ipmitool"; "rdma-core"; "tshark"; "termshark"; "fio"; "smartmontools";
    "iozone3"; "atop" ].

(** [user_credentials.get('configured') != False]. *)
Definition not_disabled (c : Credentials) : bool :=
  match configured c with Some false => false | _ => true end.

(** A dictionary is true when it has a key. *)
Definition dict_truthy (c : Credentials) : bool :=
  has_key (configured c) || has_key (username c) || has_key (password c).

(** Line 40: the users section is written. *)
Definition has_user_section (user_credentials : option Credentials) : bool :=
  match user_credentials with
  | Some c => dict_truthy c && not_disabled c && truthy_opt (username c)
              && truthy_opt (password c)
  | None => false
  end.

(** Line 68: the user commands are written. *)
Definition has_user_commands (user_credentials : option Credentials) : bool :=
  match user_credentials with
  | Some c => dict_truthy c && not_disabled c && truthy_opt (username c)
  | None => false
  end.

Definition user_config_of (is_rocky : bool) (username password : string)
  : UserConfig :=
  {| name := username;
     plain_text_passwd := password;
     sudo := if is_rocky then SudoList ["ALL=(ALL) NOPASSWD:ALL"]
             else SudoStr "ALL=(ALL) NOPASSWD:ALL";
     shell := "/bin/bash";
     groups := if is_rocky then ["wheel"; "docker"] else ["sudo"; "docker"];
     lock_passwd := false;
     rocky_settings := is_rocky |}.

(** Lines 72-114. *)
Definition rocky_user_commands (username : string) (password : option string)
  : list string :=
    [ "# CRITICAL: Force " +:+ username +:+
      " user creation immediately (Rocky Linux compatibility)";
      "echo " +:+ dq +:+ "=== EMERGENCY USER CREATION ===" +:+ dq +:+
      " | tee -a /var/log/cloud-init-userdata.log";
      "if ! id " +:+ username +:+ " >/dev/null 2>&1; then";
      "  echo " +:+ dq +:+
      "Cloud-init user creation appears to have failed. Creating " +:+
      username +:+ " user manually NOW..." +:+ dq +:+
      " | tee -a /var/log/cloud-init-userdata.log";
      "  useradd -m -s /bin/bash " +:+ username +:+
      " 2>&1 | tee -a /var/log/cloud-init-userdata.log || echo " +:+ dq +:+
      "ERROR: useradd failed" +:+ dq +:+
      " | tee -a /var/log/cloud-init-userdata.log";
      "  echo " +:+ dq +:+ username +:+ ":" +:+ str_opt password +:+ dq +:+
      " | chpasswd 2>&1 | tee -a /var/log/cloud-init-userdata.log || echo " +:+
      dq +:+ "ERROR: chpasswd failed" +:+ dq +:+
      " | tee -a /var/log/cloud-init-userdata.log";
      "  usermod -aG wheel " +:+ username +:+
      " 2>&1 | tee -a /var/log/cloud-init-userdata.log || echo " +:+ dq +:+
      "ERROR: usermod wheel failed" +:+ dq +:+
      " | tee -a /var/log/cloud-init-userdata.log";
      "  id " +:+ username +:+
      " 2>&1 | tee -a /var/log/cloud-init-userdata.log";
      "  echo " +:+ dq +:+ "Emergency user creation completed" +:+ dq +:+
      " | tee -a /var/log/cloud-init-userdata.log";
      "else";
      "  echo " +:+ dq +:+ "GOOD: " +:+ username +:+
      " user exists, skipping emergency creation" +:+ dq +:+
      " | tee -a /var/log/cloud-init-userdata.log";
      "fi";
      "systemctl enable sshd 2>&1 | tee -a /var/log/cloud-init-userdata.log";
      "systemctl start sshd 2>&1 | tee -a /var/log/cloud-init-userdata.log";
      "# Ensure wheel group has sudo privileges for " +:+ username +:+ " user";
      "echo " +:+ dq +:+ "%wheel ALL=(ALL) NOPASSWD: ALL" +:+ dq +:+
      " | tee /etc/sudoers.d/wheel";
      "chmod 0440 /etc/sudoers.d/wheel";
      "# Enhanced " +:+ username +:+
      " user creation for Rocky Linux with comprehensive debugging";
      "echo " +:+ dq +:+ "=== User Creation Debug Information ===" +:+ dq +:+
      " | tee -a /var/log/cloud-init-userdata.log";
      "echo " +:+ dq +:+ "OS Type: Rocky/RHEL/CentOS detected" +:+ dq +:+
      " | tee -a /var/log/cloud-init-userdata.log";
      "echo " +:+ dq +:+ "Available groups:" +:+ dq +:+
      " | tee -a /var/log/cloud-init-userdata.log";
      "getent group wheel docker 2>&1 | tee -a /var/log/cloud-init-userdata.log";
      "echo " +:+ dq +:+ "Checking if " +:+ username +:+ " user exists..." +:+
      dq +:+ " | tee -a /var/log/cloud-init-userdata.log";
      "if id " +:+ username +:+ " >/dev/null 2>&1; then echo " +:+ dq +:+
      "GOOD: " +:+ username +:+ " user already exists from cloud-init" +:+ dq +:+
      " | tee -a /var/log/cloud-init-userdata.log; else echo " +:+ dq +:+
      "WARNING: " +:+ username +:+ " user not found, creating manually..." +:+
      dq +:+ " | tee -a /var/log/cloud-init-userdata.log; fi";
      "if ! id " +:+ username +:+ " >/dev/null 2>&1; then";
      "  echo " +:+ dq +:+ "Step 1: Creating " +:+ username +:+
      " user with useradd..." +:+ dq +:+
      " | tee -a /var/log/cloud-init-userdata.log";
      "  useradd -m -s /bin/bash " +:+ username +:+
      " 2>&1 | tee -a /var/log/cloud-init-userdata.log";
      "  echo " +:+ dq +:+ "Step 2: Setting password for " +:+ username +:+
      " user..." +:+ dq +:+ " | tee -a /var/log/cloud-init-userdata.log";
      "  echo " +:+ dq +:+ username +:+ ":" +:+ str_opt password +:+ dq +:+
      " | chpasswd 2>&1 | tee -a /var/log/cloud-init-userdata.log";
      "  echo " +:+ dq +:+ "Step 3: Adding " +:+ username +:+
      " to wheel group..." +:+ dq +:+
      " | tee -a /var/log/cloud-init-userdata.log";
      "  usermod -aG wheel " +:+ username +:+
      " 2>&1 | tee -a /var/log/cloud-init-userdata.log";
      "  echo " +:+ dq +:+ "Step 4: Adding " +:+ username +:+
      " to docker group (if exists)..." +:+ dq +:+
      " | tee -a /var/log/cloud-init-userdata.log";
      "  getent group docker >/dev/null && usermod -aG docker " +:+ username +:+
      " 2>&1 | tee -a /var/log/cloud-init-userdata.log || echo " +:+ dq +:+
      "Docker group not found, skipping..." +:+ dq +:+
      " | tee -a /var/log/cloud-init-userdata.log";
      "  echo " +:+ dq +:+ "Manual user creation completed" +:+ dq +:+
      " | tee -a /var/log/cloud-init-userdata.log";
      "fi";
      "# Final verification of " +:+ username +:+ " user";
      "echo " +:+ dq +:+ "=== Final User Verification ===" +:+ dq +:+
      " | tee -a /var/log/cloud-init-userdata.log";
      "id " +:+ username +:+
      " 2>&1 | tee -a /var/log/cloud-init-userdata.log || echo " +:+ dq +:+
      "ERROR: " +:+ username +:+ " user still not found!" +:+ dq +:+
      " | tee -a /var/log/cloud-init-userdata.log";
      "groups " +:+ username +:+
      " 2>&1 | tee -a /var/log/cloud-init-userdata.log || echo " +:+ dq +:+
      "ERROR: cannot check " +:+ username +:+ " user groups" +:+ dq +:+
      " | tee -a /var/log/cloud-init-userdata.log";
      "getent passwd " +:+ username +:+
      " 2>&1 | tee -a /var/log/cloud-init-userdata.log || echo " +:+ dq +:+
      "ERROR: " +:+ username +:+ " user not in passwd database" +:+ dq +:+
      " | tee -a /var/log/cloud-init-userdata.log";
      "echo " +:+ dq +:+ "Rocky Linux base configuration completed" +:+ dq +:+
      " | tee -a /var/log/cloud-init-userdata.log" ].

(** Lines 116-123. *)
Definition ubuntu_user_commands (username : string) : list string :=
  [ "systemctl enable ssh 2>&1 | tee -a /var/log/cloud-init-userdata.log";
    "systemctl start ssh 2>&1 | tee -a /var/log/cloud-init-userdata.log";
    "# Verify " +:+ username +:+ " user was created with correct groups";
    "id " +:+ username +:+
    " 2>&1 | tee -a /var/log/cloud-init-userdata.log || echo " +:+ dq +:+
    "WARNING: " +:+ username +:+ " user not found" +:+ dq +:+
    " | tee -a /var/log/cloud-init-userdata.log";
    "groups " +:+ username +:+
    " 2>&1 | tee -a /var/log/cloud-init-userdata.log || echo " +:+ dq +:+
    "WARNING: cannot check " +:+ username +:+ " user groups" +:+ dq +:+
    " | tee -a /var/log/cloud-init-userdata.log";
    "echo " +:+ dq +:+ "Ubuntu base configuration completed" +:+ dq +:+
    " | tee -a /var/log/cloud-init-userdata.log" ].

(** Lines 127-131 and 133-137. *)
Definition rocky_nouser_commands : list string :=
  [ "systemctl enable sshd 2>&1 | tee -a /var/log/cloud-init-userdata.log";
    "systemctl start sshd 2>&1 | tee -a /var/log/cloud-init-userdata.log";
    "echo " +:+ dq +:+
    "Rocky Linux base configuration completed (no user configured)" +:+ dq +:+
    " | tee -a /var/log/cloud-init-userdata.log" ].

Definition ubuntu_nouser_commands : list string :=
  [ "systemctl enable ssh 2>&1 | tee -a /var/log/cloud-init-userdata.log";
    "systemctl start ssh 2>&1 | tee -a /var/log/cloud-init-userdata.log";
    "echo " +:+ dq +:+
    "Ubuntu base configuration completed (no user configured)" +:+ dq +:+
    " | tee -a /var/log/cloud-init-userdata.log" ].

Definition user_specific_commands (is_rocky : bool)
    (user_credentials : option Credentials) : list string :=
  if has_user_commands user_credentials then
    let username := str_opt (user_credentials ≫= username) in
    let password := user_credentials ≫= password in
    if is_rocky then rocky_user_commands username password
    else ubuntu_user_commands username
  else
    if is_rocky then rocky_nouser_commands else ubuntu_nouser_commands.

Definition sysctl_file : WriteFile :=
  {| content :=
    text_lines
    [ "# installed from platform cloud-init";
      "kernel.numa_balancing=0";
      "kernel.softlockup_all_cpu_backtrace=1";
      "kernel.panic = 300";
      "net.ipv4.conf.all.arp_announce = 2";
      "net.ipv4.conf.all.arp_filter = 1";
      "net.ipv4.conf.all.arp_ignore = 1";
      "net.ipv4.conf.default.arp_announce = 2";
      "net.ipv4.conf.default.arp_filter = 1";
      "net.ipv4.conf.default.arp_ignore = 1";
      "net.ipv4.conf.all.ignore_routes_with_linkdown = 1";
      "net.ipv4.conf.default.ignore_routes_with_linkdown = 1" ];
     path := "/etc/sysctl.d/99-weka.conf" |}.

(** Lines 160-179. *)
Definition base_commands (is_rocky : bool) : list string :=
  [ "mkdir -p /var/log";
    "touch /var/log/cloud-init-userdata.log /var/log/maas-deployment.log";
    "chmod 644 /var/log/cloud-init-userdata.log /var/log/maas-deployment.log";
    "echo " +:+ dq +:+ "=== MAAS Cloud-Init Deployment Started at $(date) ===" +:+
    dq +:+ " | tee -a /var/log/cloud-init-userdata.log";
    "echo " +:+ dq +:+ "MAAS deployment started at $(date)" +:+ dq +:+
    " | tee /var/log/maas-deployment.log";
    "echo " +:+ dq +:+ "Configuring " +:+
    (if is_rocky then "Rocky Linux" else "Ubuntu") +:+ " system..." +:+ dq +:+
    " | tee -a /var/log/cloud-init-userdata.log";
    "# Enable and configure additional system services";
    "systemctl enable lldpd 2>&1 | tee -a /var/log/cloud-init-userdata.log || true";
    "systemctl start lldpd 2>&1 | tee -a /var/log/cloud-init-userdata.log || true";
    "# Configure kdump/kexec if available";
    if is_rocky then "systemctl enable kdump 2>&1 | tee -a /var/log/cloud-init-userdata.log || true" else "systemctl enable kdump-tools 2>&1 | tee -a /var/log/cloud-init-userdata.log || true";
    "# Enable SMART monitoring";
    "systemctl enable smartd 2>&1 | tee -a /var/log/cloud-init-userdata.log || true";
    "systemctl start smartd 2>&1 | tee -a /var/log/cloud-init-userdata.log || true";
    "# Apply sysctl configuration";
    "sysctl -p /etc/sysctl.d/99-weka.conf 2>&1 | tee -a /var/log/cloud-init-userdata.log";
    "echo " +:+ dq +:+ "Weka sysctl configuration applied" +:+ dq +:+
    " | tee -a /var/log/cloud-init-userdata.log";
    "echo " +:+ dq +:+ "Additional system tools configured" +:+ dq +:+
    " | tee -a /var/log/cloud-init-userdata.log" ].

Definition generate_base_cloud_init (os_type : string)
    (user_credentials : option Credentials) : Config :=
  let is_rocky := is_rocky_os os_type in
  {| packages := if is_rocky then rocky_packages else ubuntu_packages;
     ssh_pwauth := true;
     disable_root := false;
     users :=
       if has_user_section user_credentials then
         Some [user_config_of is_rocky
                 (str_opt (user_credentials ≫= username))
                 (str_opt (user_credentials ≫= password))]
       else None;
     write_files := [sysctl_file];
     runcmd := base_commands is_rocky
               ++ user_specific_commands is_rocky user_credentials;
     cfg_hostname := None;
     final_message := None |}.

(** ** Tag-based enhancements *)

(** One block of [generate_tag_based_enhancements]: when its condition
    holds its packages, commands and files are appended. *)
Record Rule := {
  rule_packages : list string;
  rule_runcmd : list string;
  rule_write_files : list WriteFile
}.

Definition doca_script : string :=
  text_lines
  [ "#!/bin/bash";
    "set -e";
    "echo " +:+ dq +:+ "Starting DOCA installation" +:+ dq +:+
    " | tee -a /var/log/cloud-init-userdata.log /var/log/maas-deployment.log";
    "cd /tmp";
    "";
    "# Detect OS";
    "echo " +:+ dq +:+ "=== OS Detection for DOCA ===" +:+ dq +:+
    " | tee -a /var/log/cloud-init-userdata.log /var/log/maas-deployment.log";
    "if [ -f /etc/os-release ]; then";
    "    source /etc/os-release";
    "    OS_NAME=$ID";
    "    OS_VERSION=$VERSION_ID";
    "    OS_MAJOR_VERSION=${VERSION_ID%%.*}";
    "    echo " +:+ dq +:+
    "Detected OS: $OS_NAME $OS_VERSION (Major: $OS_MAJOR_VERSION)" +:+ dq +:+
    " | tee -a /var/log/cloud-init-userdata.log /var/log/maas-deployment.log";
    "else";
    "    echo " +:+ dq +:+ "Cannot detect OS, defaulting to Ubuntu 22.04" +:+
    dq +:+
    " | tee -a /var/log/cloud-init-userdata.log /var/log/maas-deployment.log";
    "    OS_NAME=" +:+ dq +:+ "ubuntu" +:+ dq;
    "    OS_VERSION=" +:+ dq +:+ "22.04" +:+ dq;
    "    OS_MAJOR_VERSION=" +:+ dq +:+ "22" +:+ dq;
    "fi";
    "";
    "# Install DOCA based on OS";
    "echo " +:+ dq +:+ "Installing DOCA for $OS_NAME $OS_VERSION..." +:+ dq +:+
    " | tee -a /var/log/cloud-init-userdata.log /var/log/maas-deployment.log";
    "";
    "if [[ " +:+ dq +:+ "$OS_NAME" +:+ dq +:+ " == " +:+ dq +:+ "ubuntu" +:+
    dq +:+ " ]]; then";
    "    # Ubuntu DOCA installation";
    "    echo " +:+ dq +:+ "Setting up DOCA for Ubuntu..." +:+ dq +:+
    " | tee -a /var/log/cloud-init-userdata.log /var/log/maas-deployment.log";
    "    ";
    "    # Determine repository based on version (use 22.04 repo for 24.04 compatibility)";
    "    if [[ " +:+ dq +:+ "$OS_VERSION" +:+ dq +:+ " == " +:+ dq +:+ "20.04" +:+
    dq +:+ " ]]; then";
    "        DOCA_REPO_URL=" +:+ dq +:+
    "https://linux.mellanox.com/public/repo/doca/3.1.0/ubuntu20.04/x86_64/" +:+
    dq;
    "    else";
    "        # Use 22.04 repo for 22.04, 24.04, and unknown versions";
    "        DOCA_REPO_URL=" +:+ dq +:+
    "https://linux.mellanox.com/public/repo/doca/3.1.0/ubuntu22.04/x86_64/" +:+
    dq;
    "    fi";
    "    ";
    "    echo " +:+ dq +:+ "Using DOCA repository: $DOCA_REPO_URL" +:+ dq +:+
    " | tee -a /var/log/cloud-init-userdata.log /var/log/maas-deployment.log";
    "    ";
    "    # Install DOCA step by step";
    "    echo " +:+ dq +:+ "Step 1: Adding Mellanox GPG key..." +:+ dq +:+
    " | tee -a /var/log/cloud-init-userdata.log /var/log/maas-deployment.log";
    "    curl -fsSL https://linux.mellanox.com/public/repo/doca/GPG-KEY-Mellanox.pub | gpg --dearmor > /etc/apt/trusted.gpg.d/GPG-KEY-Mellanox.pub || exit 1";
    "    ";
    "    echo " +:+ dq +:+ "Step 2: Adding DOCA repository..." +:+ dq +:+
    " | tee -a /var/log/cloud-init-userdata.log /var/log/maas-deployment.log";
    "    echo " +:+ dq +:+
    "deb [signed-by=/etc/apt/trusted.gpg.d/GPG-KEY-Mellanox.pub] $DOCA_REPO_URL ./" +:+
    dq +:+ " > /etc/apt/sources.list.d/doca.list || exit 1";
    "    ";
    "    echo " +:+ dq +:+ "Step 3: Updating package lists..." +:+ dq +:+
    " | tee -a /var/log/cloud-init-userdata.log /var/log/maas-deployment.log";
    "    apt-get update 2>&1 | tee -a /var/log/cloud-init-userdata.log || exit 1";
    "    ";
    "    echo " +:+ dq +:+ "Step 4: Installing doca-all package..." +:+ dq +:+
    " | tee -a /var/log/cloud-init-userdata.log /var/log/maas-deployment.log";
    "    apt-get -y install doca-all 2>&1 | tee -a /var/log/cloud-init-userdata.log || exit 1";
    "    ";
    "elif [[ " +:+ dq +:+ "$OS_NAME" +:+ dq +:+ " == " +:+ dq +:+ "rocky" +:+
    dq +:+ " || " +:+ dq +:+ "$OS_NAME" +:+ dq +:+ " == " +:+ dq +:+ "rhel" +:+
    dq +:+ " || " +:+ dq +:+ "$OS_NAME" +:+ dq +:+ " == " +:+ dq +:+ "centos" +:+
    dq +:+ " ]]; then";
    "    # Rocky/RHEL DOCA installation";
    "    echo " +:+ dq +:+ "Setting up DOCA for $OS_NAME $OS_MAJOR_VERSION..." +:+
    dq +:+
    " | tee -a /var/log/cloud-init-userdata.log /var/log/maas-deployment.log";
    "    ";
    "    # Create DOCA repository configuration";
    "    cat > /etc/yum.repos.d/doca.repo << EOF";
    "[doca]";
    "name=DOCA Online Repo";
    "baseurl=https://linux.mellanox.com/public/repo/doca/3.1.0/rhel${OS_MAJOR_VERSION}.0/x86_64/";
    "enabled=1";
    "gpgcheck=0";
    "EOF";
    "    ";
    "    echo " +:+ dq +:+ "Step 1: Cleaning package cache..." +:+ dq +:+
    " | tee -a /var/log/cloud-init-userdata.log /var/log/maas-deployment.log";
    "    dnf clean all 2>&1 | tee -a /var/log/cloud-init-userdata.log || exit 1";
    "    ";
    "    echo " +:+ dq +:+ "Step 2: Installing doca-ofed package..." +:+ dq +:+
    " | tee -a /var/log/cloud-init-userdata.log /var/log/maas-deployment.log";
    "    dnf -y install doca-ofed 2>&1 | tee -a /var/log/cloud-init-userdata.log || exit 1";
    "    ";
    "else";
    "    echo " +:+ dq +:+ "OS $OS_NAME not supported for DOCA installation" +:+
    dq +:+
    " | tee -a /var/log/cloud-init-userdata.log /var/log/maas-deployment.log";
    "    exit 1";
    "fi";
    "";
    "echo " +:+ dq +:+ "DOCA installation completed successfully" +:+ dq +:+
    " | tee -a /var/log/cloud-init-userdata.log /var/log/maas-deployment.log" ].

Definition high_cpu (is_rocky : bool) : Rule :=
  {| rule_packages := if is_rocky then ["kernel-tools"]
                      else ["cpufrequtils"; "linux-tools-generic"];
     rule_runcmd :=
       [ "echo " +:+ dq +:+ "=== High-CPU Optimizations ===" +:+ dq +:+
         " | tee -a /var/log/cloud-init-userdata.log";
         "echo " +:+ dq +:+ "performance" +:+ dq +:+
         " | tee /sys/devices/system/cpu/cpu*/cpufreq/scaling_governor 2>&1 | tee -a /var/log/cloud-init-userdata.log";
         "echo " +:+ dq +:+ "High-CPU optimizations applied" +:+ dq +:+
         " | tee -a /var/log/cloud-init-userdata.log /var/log/maas-deployment.log" ];
     rule_write_files := [] |}.

Definition high_memory : Rule :=
  {| rule_packages := [];
     rule_runcmd :=
       [ "echo " +:+ dq +:+ "=== High-Memory Optimizations ===" +:+ dq +:+
         " | tee -a /var/log/cloud-init-userdata.log";
         "echo " +:+ dq +:+ "vm.swappiness=1" +:+ dq +:+
         " >> /etc/sysctl.conf 2>&1 | tee -a /var/log/cloud-init-userdata.log";
         "echo " +:+ dq +:+ "vm.vfs_cache_pressure=50" +:+ dq +:+
         " >> /etc/sysctl.conf 2>&1 | tee -a /var/log/cloud-init-userdata.log";
         "echo " +:+ dq +:+ "High-memory optimizations applied" +:+ dq +:+
         " | tee -a /var/log/cloud-init-userdata.log /var/log/maas-deployment.log" ];
     rule_write_files := [] |}.

Definition bcm57508 : Rule :=
  {| rule_packages := ["ethtool"];
     rule_runcmd :=
       [ "echo " +:+ dq +:+ "=== Broadcom BCM57508 Configuration ===" +:+ dq +:+
         " | tee -a /var/log/cloud-init-userdata.log";
         "modprobe bnxt_en 2>&1 | tee -a /var/log/cloud-init-userdata.log";
         "echo " +:+ dq +:+ "Broadcom BCM57508 network driver loaded" +:+ dq +:+
         " | tee -a /var/log/cloud-init-userdata.log /var/log/maas-deployment.log" ];
     rule_write_files := [] |}.

Definition amd64_arch : Rule :=
  {| rule_packages := ["amd64-microcode"];
     rule_runcmd :=
       [ "echo " +:+ dq +:+ "=== AMD64 Architecture Optimizations ===" +:+ dq +:+
         " | tee -a /var/log/cloud-init-userdata.log";
         "echo " +:+ dq +:+ "AMD64 microcode updates enabled" +:+ dq +:+
         " | tee -a /var/log/cloud-init-userdata.log /var/log/maas-deployment.log" ];
     rule_write_files := [] |}.

Definition virtual : Rule :=
  {| rule_packages := ["qemu-guest-agent"; "open-vm-tools"];
     rule_runcmd :=
       [ "echo " +:+ dq +:+ "=== Virtual Machine Configuration ===" +:+ dq +:+
         " | tee -a /var/log/cloud-init-userdata.log";
         "systemctl enable qemu-guest-agent 2>&1 | tee -a /var/log/cloud-init-userdata.log";
         "echo " +:+ dq +:+ "Virtual machine tools configured" +:+ dq +:+
         " | tee -a /var/log/cloud-init-userdata.log /var/log/maas-deployment.log" ];
     rule_write_files := [] |}.

Definition serial_console : Rule :=
  {| rule_packages := [];
     rule_runcmd :=
       [ "echo " +:+ dq +:+ "=== Serial Console Configuration ===" +:+ dq +:+
         " | tee -a /var/log/cloud-init-userdata.log";
         "systemctl enable serial-getty@ttyS0.service 2>&1 | tee -a /var/log/cloud-init-userdata.log";
         "systemctl start serial-getty@ttyS0.service 2>&1 | tee -a /var/log/cloud-init-userdata.log";
         "echo " +:+ dq +:+ "Serial console configured" +:+ dq +:+
         " | tee -a /var/log/cloud-init-userdata.log /var/log/maas-deployment.log" ];
     rule_write_files := [] |}.

Definition nvme_core : Rule :=
  {| rule_packages := [];
     rule_runcmd :=
       [ "echo " +:+ dq +:+ "=== NVME Configuration ===" +:+ dq +:+
         " | tee -a /var/log/cloud-init-userdata.log";
         "echo " +:+ dq +:+ "NVME multipath disabled as configured" +:+ dq +:+
         " | tee -a /var/log/cloud-init-userdata.log /var/log/maas-deployment.log" ];
     rule_write_files :=
       [ {| content := "nvme_core.multipath=N" +:+ nl;
            path := "/etc/modprobe.d/nvme.conf" |} ] |}.

Definition connectx : Rule :=
  {| rule_packages := [];
     rule_runcmd :=
       [ "echo " +:+ dq +:+ "=== ConnectX NIC Driver Loading ===" +:+ dq +:+
         " | tee -a /var/log/cloud-init-userdata.log";
         "modprobe mlx5_core 2>&1 | tee -a /var/log/cloud-init-userdata.log || true";
         "modprobe mlx5_ib 2>&1 | tee -a /var/log/cloud-init-userdata.log || true";
         "echo " +:+ dq +:+ "ConnectX NIC drivers loaded" +:+ dq +:+
         " | tee -a /var/log/cloud-init-userdata.log /var/log/maas-deployment.log" ];
     rule_write_files := [] |}.

Definition doca (is_rocky : bool) : Rule :=
  {| rule_packages :=
       if is_rocky
       then ["gcc"; "kernel-devel"; "kernel-headers"; "wget"; "python3-pip";
             "curl"; "rpm-build"]
       else ["build-essential"; "linux-headers-generic"; "wget";
             "python3-pip"; "curl"];
     rule_runcmd :=
       [ "echo " +:+ dq +:+ "=== DOCA Installation ===" +:+ dq +:+
         " | tee -a /var/log/cloud-init-userdata.log";
         "chmod +x /tmp/install_doca.sh 2>&1 | tee -a /var/log/cloud-init-userdata.log";
         "/tmp/install_doca.sh 2>&1 | tee -a /var/log/cloud-init-userdata.log" ];
     rule_write_files :=
       [ {| content := doca_script; path := "/tmp/install_doca.sh" |} ] |}.

Definition intel_nic (is_rocky : bool) : Rule :=
  {| rule_packages :=
       if is_rocky then ["gcc"; "kernel-devel"; "kernel-headers"]
       else ["build-essential"; "linux-headers-generic"];
     rule_runcmd :=
       [ "echo " +:+ dq +:+ "=== Intel NIC Drivers Installation ===" +:+ dq +:+
         " | tee -a /var/log/cloud-init-userdata.log";
         "modprobe e1000e 2>&1 | tee -a /var/log/cloud-init-userdata.log || true";
         "modprobe igb 2>&1 | tee -a /var/log/cloud-init-userdata.log || true";
         "modprobe ixgbe 2>&1 | tee -a /var/log/cloud-init-userdata.log || true";
         "modprobe i40e 2>&1 | tee -a /var/log/cloud-init-userdata.log || true";
         "modprobe ice 2>&1 | tee -a /var/log/cloud-init-userdata.log || true";
         "echo " +:+ dq +:+ "Intel NIC drivers loaded" +:+ dq +:+
         " | tee -a /var/log/cloud-init-userdata.log /var/log/maas-deployment.log" ];
     rule_write_files := [] |}.

Definition broadcom (is_rocky : bool) : Rule :=
  {| rule_packages :=
       if is_rocky then ["ethtool"; "gcc"; "kernel-devel"; "kernel-headers"]
       else ["ethtool"; "build-essential"; "linux-headers-generic"];
     rule_runcmd :=
       [ "echo " +:+ dq +:+ "=== Broadcom NIC Drivers Installation ===" +:+ dq +:+
         " | tee -a /var/log/cloud-init-userdata.log";
         "modprobe bnxt_en 2>&1 | tee -a /var/log/cloud-init-userdata.log";
         "modprobe tg3 2>&1 | tee -a /var/log/cloud-init-userdata.log || true";
         "echo " +:+ dq +:+ "Broadcom NIC drivers loaded" +:+ dq +:+
         " | tee -a /var/log/cloud-init-userdata.log /var/log/maas-deployment.log" ];
     rule_write_files := [] |}.

(** The blocks in the order of the source, each with its condition on the
    tag list. *)
Definition tag_has (sub : string) (tag : string) : bool :=
  contains sub (lower tag).

Definition rules (tags : list string) (is_rocky : bool)
  : list (bool * Rule) :=
  [ (mem "high-cpu" tags, high_cpu is_rocky);
    (mem "high-memory" tags, high_memory);
    (mem "bcm57508" tags, bcm57508);
    (mem "amd64-arch" tags, amd64_arch);
    (mem "virtual" tags, virtual);
    (mem "serial_console" tags || mem "needs_serial_console_deploy" tags,
     serial_console);
    (mem "nvme_core" tags, nvme_core);
    (existsb (fun tag => tag_has "connectx" tag || tag_has "mellanox" tag)
       tags, connectx);
    (existsb (tag_has "doca") tags, doca is_rocky);
    (existsb (fun tag => tag_has "intel" tag
                         && (tag_has "nic" tag || tag_has "ethernet" tag))
       tags, intel_nic is_rocky);
    (mem "bcm57508" tags || existsb (tag_has "broadcom") tags,
     broadcom is_rocky) ].

Definition fired (rs : list (bool * Rule)) : list Rule :=
  map snd (List.filter fst rs).

Definition generate_tag_based_enhancements (tags : list string)
    (os_type : string) : Enhancements :=
  match tags with
  | [] => {| enh_packages := []; enh_runcmd := []; enh_write_files := [] |}
  | _ =>
      let rs := fired (rules tags (is_rocky_os os_type)) in
      {| enh_packages := concat (map rule_packages rs);
         enh_runcmd := concat (map rule_runcmd rs);
         enh_write_files := concat (map rule_write_files rs) |}
  end.

(** ** Merging *)

(** Lines 437-439: the stripped non-empty lines of the snippet, and those
    of them taken as commands. *)
Definition user_lines (user_config : string) : list string :=
  List.filter truthy (map strip (split_on nl_char user_config)).

Definition safe_line (line : string) : bool :=
  startswith "- " line && negb (contains "echo" line)
  && negb (contains "systemctl" line).

Definition user_commands (user_config : string) : list string :=
  List.filter safe_line (user_lines user_config).

(** Lines 441-444.  Nothing in the guarded block raises on a string, so
    the handler of line 445 does not run. *)
Definition user_segment (user_config : string) : list string :=
  if truthy (strip user_config) then
    match user_commands user_config with
    | [] => []
    | cmds => "# User-provided commands:"
              :: map (fun cmd => replace_first "- " "" cmd) cmds
    end
  else [].

Definition merge_configurations (base_config : Config)
    (enhancements : Enhancements) (user_config : string) : Config :=
  {| packages := packages base_config ++ enh_packages enhancements;
     ssh_pwauth := ssh_pwauth base_config;
     disable_root := disable_root base_config;
     users := users base_config;
     write_files := write_files base_config ++ enh_write_files enhancements;
     runcmd := runcmd base_config ++ enh_runcmd enhancements
               ++ user_segment user_config;
     cfg_hostname := cfg_hostname base_config;
     final_message := final_message base_config |}.

(** ** One machine *)

(** [machine.get("hostname") or machine.get("fqdn") or machine["system_id"]]. *)
Definition display_name (machine : Machine) : string :=
  or_else (hostname machine) (or_else (fqdn machine) (system_id machine)).

Definition arch_str (machine : Machine) : string :=
  default "unknown" (architecture machine).

Definition cpu_str (machine : Machine) : string :=
  match cpu_count machine with
  | Some n => str_of_Z n
  | None => "unknown"
  end.

Definition mem_str (machine : Machine) : string :=
  str_of_Z (ceil_div_1024 (memory machine)).

Definition tags_str (tags : list string) : string :=
  match tags with [] => "none" | _ => join ", " tags end.

(** Lines 466-474. *)
Definition machine_specific_cmds (machine : Machine) : list string :=
  let machine_tags := tag_names machine in
    [ "echo " +:+ dq +:+ "=== Machine-Specific Configuration ===" +:+ dq +:+
      " | tee -a /var/log/cloud-init-userdata.log /var/log/maas-deployment.log";
      "echo " +:+ dq +:+ "Machine-specific deployment for " +:+
      display_name machine +:+ dq +:+
      " | tee -a /var/log/cloud-init-userdata.log /var/log/maas-deployment.log";
      "echo " +:+ dq +:+ "System ID: " +:+ system_id machine +:+ dq +:+
      " | tee -a /var/log/cloud-init-userdata.log /var/log/maas-deployment.log";
      "echo " +:+ dq +:+ "Architecture: " +:+ arch_str machine +:+ dq +:+
      " | tee -a /var/log/cloud-init-userdata.log /var/log/maas-deployment.log";
      "echo " +:+ dq +:+ "CPU Cores: " +:+ cpu_str machine +:+ dq +:+
      " | tee -a /var/log/cloud-init-userdata.log /var/log/maas-deployment.log";
      "echo " +:+ dq +:+ "Memory: " +:+ mem_str machine +:+ " GB" +:+ dq +:+
      " | tee -a /var/log/cloud-init-userdata.log /var/log/maas-deployment.log";
      "echo " +:+ dq +:+ "Machine Tags: " +:+ tags_str machine_tags +:+ dq +:+
      " | tee -a /var/log/cloud-init-userdata.log /var/log/maas-deployment.log" ].

(** Lines 482-491. *)
Definition yaml_header (machine : Machine) (now : string) : string :=
  let machine_tags := tag_names machine in
    text_lines
    [ "#cloud-config";
      "# Auto-generated configuration for MAAS deployment";
      "# Machine: " +:+ display_name machine;
      "# System ID: " +:+ system_id machine;
      "# Architecture: " +:+ arch_str machine;
      "# CPU: " +:+ cpu_str machine +:+ " cores, Memory: " +:+ mem_str machine +:+
      " GB";
      "# Machine tags: " +:+ tags_str machine_tags;
      "# Generated at: " +:+ now;
      "" ].

(** Lines 494-498. *)
Definition completion_cmds : list string :=
  [ "echo " +:+ dq +:+
    "=== MAAS Cloud-Init Deployment Completed at $(date) ===" +:+ dq +:+
    " | tee -a /var/log/cloud-init-userdata.log /var/log/maas-deployment.log";
    "echo " +:+ dq +:+
    "All user-data logs saved to /var/log/cloud-init-userdata.log" +:+ dq +:+
    " | tee -a /var/log/maas-deployment.log";
    "echo " +:+ dq +:+ "Final user verification:" +:+ dq +:+
    " | tee -a /var/log/cloud-init-userdata.log" ].

(** Lines 500-504. *)
Definition verification_cmd (us : option (list UserConfig)) : string :=
  match us with
  | Some (u :: _) =>
      let username := name u in
        "id " +:+ username +:+
          " | tee -a /var/log/cloud-init-userdata.log || echo " +:+ dq +:+
          "ERROR: " +:+ username +:+ " user not created!" +:+ dq +:+
          " | tee -a /var/log/cloud-init-userdata.log"
  | _ =>
    "echo " +:+ dq +:+ "No user configured for this deployment" +:+ dq +:+
      " | tee -a /var/log/cloud-init-userdata.log"
  end.

(** [final_config] as it stands when it is serialized (line 508). *)
Definition final_config_of (machine : Machine) (user_config os_type : string)
    (user_credentials : option Credentials) : Config :=
  let machine_tags := tag_names machine in
  let base_config := generate_base_cloud_init os_type user_credentials in
  let enhancements := generate_tag_based_enhancements machine_tags os_type in
  let merged := merge_configurations base_config enhancements user_config in
  let hn := or_else (hostname machine)
              (or_else (fqdn machine)
                 ("maas-" +:+ last_str 8 (system_id machine))) in
  let message :=
    "MAAS deployment completed successfully for " +:+ hn +:+
      " with Weka configurations" in
  {| packages := packages merged;
     ssh_pwauth := ssh_pwauth merged;
     disable_root := disable_root merged;
     users := users merged;
     write_files := write_files merged;
     runcmd := machine_specific_cmds machine ++ runcmd merged
               ++ completion_cmds ++ [verification_cmd (users merged)];
     cfg_hostname := Some hn;
     final_message := Some message |}.

(** The dictionary handed to [yaml.dump], keys in insertion order. *)
Definition yaml_strs (l : list string) : yaml := YSeq (map YStr l).

Definition yaml_of_user (u : UserConfig) : yaml :=
  YMap ([ ("name", YStr (name u));
          ("plain_text_passwd", YStr (plain_text_passwd u));
          ("sudo", match sudo u with
                   | SudoList l => yaml_strs l
                   | SudoStr s => YStr s
                   end);
          ("shell", YStr (shell u));
          ("groups", yaml_strs (groups u));
          ("lock_passwd", YBool (lock_passwd u)) ]
        ++ if rocky_settings u
           then [ ("ssh_authorized_keys", YSeq []);
                  ("system", YBool false);
                  ("create_user_group", YBool true) ]
           else []).

Definition yaml_of_file (f : WriteFile) : yaml :=
  YMap [ ("content", YStr (content f)); ("path", YStr (path f)) ].

Definition opt_key (k : string) (o : option yaml) : list (string * yaml) :=
  match o with Some v => [(k, v)] | None => [] end.

Definition yaml_of_config (c : Config) : yaml :=
  YMap ([ ("packages", yaml_strs (packages c));
          ("ssh_pwauth", YBool (ssh_pwauth c));
          ("disable_root", YBool (disable_root c)) ]
        ++ opt_key "users" ((fun us => YSeq (map yaml_of_user us)) <$> users c)
        ++ [ ("write_files", YSeq (map yaml_of_file (write_files c)));
             ("runcmd", yaml_strs (runcmd c)) ]
        ++ opt_key "hostname" (YStr <$> cfg_hostname c)
        ++ opt_key "final_message" (YStr <$> final_message c)).

Record MachineConfig := {
  mc_config : string;
  mc_machine : Machine;
  mc_tags : list string;
  mc_hasEnhancements : bool
}.

Definition nonempty {A} (l : list A) : bool :=
  match l with [] => false | _ => true end.

Section Generate.
Context `{Runtime}.

Definition generate_machine_cloud_init (machine : Machine)
    (user_config os_type : string)
    (user_credentials : option Credentials) (now : string)
  : MachineConfig :=
  let machine_tags := tag_names machine in
  let enhancements := generate_tag_based_enhancements machine_tags os_type in
  let final_config :=
    final_config_of machine user_config os_type user_credentials in
  let yaml_content := yaml_dump (yaml_of_config final_config) in
  {| mc_config := yaml_header machine now +:+ yaml_content;
     mc_machine := machine;
     mc_tags := machine_tags;
     mc_hasEnhancements :=
       nonempty (enh_packages enhancements)
       || nonempty (enh_runcmd enhancements)
       || nonempty (enh_write_files enhancements) |}.

Record Generated := {
  g_config : string;
  g_displayConfig : string;
  g_tags : list string;
  g_hasEnhancements : bool;
  g_machineConfigs : list MachineConfig
}.

(** Lines 551-580. *)
Definition summary_config (selected_machines : list Machine)
    (all_tags : list string) (user_credentials : option Credentials)
    (now : string) : string :=
      text_lines
      [ "#cloud-config";
        "# Auto-generated configuration for MAAS deployment";
        "# Multiple machines: " +:+
        str_of_Z (Z.of_nat (length selected_machines)) +:+ " machines";
        "# Machines: " +:+ join ", " (map display_name selected_machines);
        "# All tags: " +:+ tags_str all_tags;
        "# Generated at: " +:+ now;
        "";
        "# Note: Each machine will receive individualized configuration";
        "# based on its specific tags and hardware configuration";
        "" ]
  +:+ match user_credentials with
      | Some c =>
          if dict_truthy c && not_disabled c then
            text_lines
            [ "users:";
              "  - name: " +:+ default "user" (username c);
              "    plain_text_passwd: '[HIDDEN]'";
              "    sudo: 'ALL=(ALL) NOPASSWD:ALL'";
              "    shell: /bin/bash";
              "    groups: [sudo, docker]";
              "    lock_passwd: false" ]
          else
            "# No user configuration - machines will use default system access" +:+
              nl
      | None =>
        "# No user configuration - machines will use default system access" +:+
          nl
      end
  +:+
    text_lines
    [ "";
      "# Individual machine configurations will be applied during deployment";
      "# Each machine gets customized packages, drivers, and scripts based on its tags";
      "";
      "final_message: " +:+ dq +:+ "MAAS deployment completed for " +:+
      str_of_Z (Z.of_nat (length selected_machines)) +:+
      " machines with individualized configurations" +:+ dq ].

(** [generate_cloud_init].  The clock is read once for every machine
    configuration and once for the summary; [now] gives the text of the
    [i]-th reading. *)
Definition generate_cloud_init (selected_machines : list Machine)
    (user_config os_type : string)
    (user_credentials : option Credentials) (now : nat -> string)
  : Generated :=
  match selected_machines with
  | [machine] =>
      let machine_config :=
        generate_machine_cloud_init machine user_config os_type
          user_credentials (now 0%nat) in
      let sanitized_yaml_string :=
        match user_credentials with
        | Some c =>
            if dict_truthy c && truthy_opt (password c) then
              replace ("plain_text_passwd: " +:+ str_opt (password c))
                "plain_text_passwd: '[HIDDEN]'" (mc_config machine_config)
            else mc_config machine_config
        | None => mc_config machine_config
        end in
      {| g_config := mc_config machine_config;
         g_displayConfig := sanitized_yaml_string;
         g_tags := mc_tags machine_config;
         g_hasEnhancements := mc_hasEnhancements machine_config;
         g_machineConfigs := [machine_config] |}
  | _ =>
      let machine_configs :=
        imap (fun i machine =>
                generate_machine_cloud_init machine user_config os_type
                  user_credentials (now i)) selected_machines in
      let all_tags := set_iter (concat (map tag_names selected_machines)) in
      let summary :=
        summary_config selected_machines all_tags user_credentials
          (now (length selected_machines)) in
      {| g_config := summary;
         g_displayConfig := summary;
         g_tags := all_tags;
         g_hasEnhancements := existsb mc_hasEnhancements machine_configs;
         g_machineConfigs := machine_configs |}
  end.

(** [get_machine_cloud_init]. *)
Definition get_machine_cloud_init (machine : Machine)
    (user_config os_type : string)
    (user_credentials : option Credentials) (now : string) : string :=
  mc_config (generate_machine_cloud_init machine user_config os_type
               user_credentials now).
End Generate.

End CloudInit.

(* ===================================================================== *)
(** * A concrete runtime *)
(* ===================================================================== *)

(** A block-style YAML writer used where a statement is evaluated on a
    concrete input.  It keeps the key order, writes a sequence under a key
    without indentation, writes a scalar plainly when that is unambiguous,
    between single quotes otherwise, and a text of several lines as a
    literal block; it does not fold long lines. *)
Module BlockYaml.
Import Py.

Definition is_letter (c : ascii) : bool :=
  let n := nat_of_ascii c in
  ((65 <=? n) && (n <=? 90) || (97 <=? n) && (n <=? 122))%nat.

Definition reserved : list string :=
  ["true"; "false"; "null"; "yes"; "no"; "on"; "off"; "y"; "n"].

Fixpoint ends_with_any (cs : list ascii) (s : string) : bool :=
  match s with
  | EmptyString => false
  | String c EmptyString => existsb (Ascii.eqb c) cs
  | String _ s' => ends_with_any cs s'
  end.

Definition plain_ok (s : string) : bool :=
  match s with
  | EmptyString => false
  | String c _ =>
      (is_letter c || Ascii.eqb c "/")
      && negb (contains ": " s) && negb (contains " #" s)
      && negb (ends_with_any [" "; ":"]%char s)
      && negb (mem (lower s) reserved)
  end.

Definition quoted (s : string) : string :=
  "'" +:+ replace "'" "''" s +:+ "'".

(** The lines of a scalar written at indentation [ind]. *)
Definition scalar_lines (ind s : string) : list string :=
  if contains nl s then
    let body := split_on nl_char s in
    let '(mark, body) :=
      match reverse body with
      | EmptyString :: r => ("|", reverse r)
      | _ => ("|-", body)
      end in
    (ind +:+ mark) :: map (fun l => ind +:+ "  " +:+ l) body
  else [ind +:+ (if plain_ok s then s else quoted s)].

(** The first line of a block loses its indentation to the text put in
    front of it. *)
Definition lead (front : string) (width : nat) (lines : list string)
  : list string :=
  match lines with
  | first :: rest => (front +:+ drop_str width first) :: rest
  | [] => [front]
  end.

Fixpoint block (ind : string) (y : yaml) {struct y} : list string :=
  match y with
  | YStr s => scalar_lines ind s
  | YBool b => [ind +:+ (if b then "true" else "false")]
  | YSeq [] => [ind +:+ "[]"]
  | YMap [] => [ind +:+ "{}"]
  | YSeq l =>
      (fix items (l : list yaml) : list string :=
         match l with
         | [] => []
         | v :: l' =>
             lead (ind +:+ "- ") (String.length ind + 2)
               (block (ind +:+ "  ") v) ++ items l'
         end) l
  | YMap kv =>
      (fix entries (kv : list (string * yaml)) : list string :=
         match kv with
         | [] => []
         | (k, v) :: kv' =>
             match v with
             | YSeq (_ :: _) => (ind +:+ k +:+ ":") :: block ind v
             | YMap (_ :: _) =>
                 (ind +:+ k +:+ ":") :: block (ind +:+ "  ") v
             | _ => lead (ind +:+ k +:+ ": ") (String.length ind)
                      (block ind v)
             end ++ entries kv'
         end) kv
  end.

Definition dump (y : yaml) : string :=
  String.concat "" (map (fun l => l +:+ nl) (block "" y)).

(** The distinct elements in order of first occurrence: one order a set
    can be iterated in. *)
Fixpoint distinct (l : list string) : list string :=
  match l with
  | [] => []
  | x :: l' => x :: List.filter (fun y => negb (String.eqb x y)) (distinct l')
  end.

Definition runtime : Runtime :=
  {| yaml_dump := dump; set_iter := distinct |}.
End BlockYaml.

(* ===================================================================== *)
(** * app.py: selection and job orchestration *)
(* ===================================================================== *)

Module App.
Import Py.

(** ** Errors *)

(** What a call of [maas_api] raises: the [HTTPException] it builds
    itself, or any other exception; [str] is the text [str(error)] gives. *)
Inductive GatewayError :=
| GwHTTP (status : Z) (detail : string) (str : string)
| GwOther (str : string).

Definition gw_str (e : GatewayError) : string :=
  match e with GwHTTP _ _ s => s | GwOther s => s end.

(** An entry of [available_machines] in the 409 detail. *)
Record Candidate := {
  cand_system_id : string;
  cand_hostname : string;
  cand_tags : list string;
  cand_pool : string
}.

(** The [detail] of the [HTTPException]s the module raises. *)
Inductive Detail :=
| DText (s : string)
| DExample (error : string)
| DErrorDetails (error details : string)
| DUnresolved (unresolved available_hostnames available_system_ids : list string)
| DInsufficient (requested_count available_count : Z)
    (required_tags : list string) (pool_text message : string)
    (available_machines : list Candidate).

Record HTTPException := { status_code : Z; detail : Detail }.

Definition of_gateway (e : GatewayError) (fallback : string) : HTTPException :=
  match e with
  | GwHTTP st d _ => {| status_code := st; detail := DText d |}
  | GwOther s =>
      {| status_code := 500; detail := DErrorDetails fallback s |}
  end.

(** ** Requests, jobs and globals *)

Record MachineProvisionRequest := {
  machines : option (list string);
  distro_series : option string;
  user_data : option string;
  tags : option (list string);
  pool : option string;
  count : option Z;
  auto_select : option bool;
  tag_match_mode : option string
}.

(** [job["config"]]. *)
Record JobConfig := {
  c_distro_series : string;
  c_user_data : option string;
  c_tags : option (list string);
  c_pool : option string;
  c_count : option Z;
  c_auto_select : option bool;
  c_tag_match_mode : option string
}.

Inductive Outcome := deployed | skipped | failed.

Inductive JobStatus :=
| pending | running | completed | completed_with_errors | job_failed.

Global Instance Outcome_eq_dec : EqDecision Outcome.
Proof. solve_decision. Defined.
Global Instance JobStatus_eq_dec : EqDecision JobStatus.
Proof. solve_decision. Defined.

(** An entry of [job['results']]; a key an entry does not carry is
    [None]. *)
Record ResultEntry := {
  machine_id : string;
  r_hostname : string;
  r_status : Outcome;
  reason : option string;
  r_error : option string;
  r_distro_series : option string;
  os_type : option string;
  deployed_at : option string;
  maas_result : option string
}.

Record SelectionCriteria := {
  sc_tags : option (list string);
  sc_tag_match_mode : string;
  sc_pool : option string;
  sc_status : string
}.

Record ResourceValidation := {
  auto_selected : bool;
  rv_requested_count : Z;
  rv_available_count : nat;
  rv_selected_machines : nat;
  selection_criteria : SelectionCriteria
}.

Record Job := {
  j_id : string;
  status : JobStatus;
  created_at : string;
  updated_at : string;
  completed_at : option string;
  j_machines : list (string * string);
  total_machines : nat;
  successful_deployments : nat;
  failed_deployments : nat;
  results : list ResultEntry;
  resource_validation : option ResourceValidation;
  config : JobConfig;
  error : option string
}.

(** The module globals. *)
Record AppState := {
  maas_config : option (gmap string string);
  user_config : option (gmap string string);
  provisioning_jobs : gmap string Job;
  job_id_counter : Z
}.

(** The form data of a deploy call. *)
Record DeployData := {
  op : string;
  dd_distro_series : string;
  dd_user_data : option string
}.

(** What one run of a handler meets outside the process: the answer of
    [maas_api('machines/')], the answer of the [n]-th deploy call for a
    machine, the text of the [n]-th clock reading and [int(time.time())]. *)
Record World := {
  machines_api : GatewayError + list Machine;
  deploy_api : nat -> string -> DeployData -> GatewayError + string;
  clock : nat -> string;
  time_time : Z
}.

(** ** [resolve_machine_identifiers] *)

(** Lines 557-564; a machine without the [hostname] key raises
    [KeyError]. *)
Fixpoint lookup_maps (all_machines : list Machine)
    (hostname_to_id id_to_hostname : gmap string string)
  : option (gmap string string * gmap string string) :=
  match all_machines with
  | [] => Some (hostname_to_id, id_to_hostname)
  | machine :: rest =>
      match hostname machine with
      | Some h =>
          lookup_maps rest (<[h := system_id machine]> hostname_to_id)
            (<[system_id machine := h]> id_to_hostname)
      | None => None
      end
  end.

(** Lines 566-578. *)
Fixpoint resolve_loop (hostname_to_id id_to_hostname : gmap string string)
    (identifiers : list string) : list string * list string :=
  match identifiers with
  | [] => ([], [])
  | identifier :: rest =>
      let '(resolved_ids, unresolved) :=
        resolve_loop hostname_to_id id_to_hostname rest in
      match id_to_hostname !! identifier with
      | Some _ => (identifier :: resolved_ids, unresolved)
      | None =>
          match hostname_to_id !! identifier with
          | Some sid => (sid :: resolved_ids, unresolved)
          | None => (resolved_ids, identifier :: unresolved)
          end
      end
  end.

Definition keys (m : gmap string string) : list string :=
  (map_to_list m).*1.

Definition resolve_machine_identifiers (w : World)
    (identifiers : list string) : HTTPException + list string :=
  match machines_api w with
  | inl e => inl (of_gateway e "Failed to resolve machine identifiers")
  | inr all_machines =>
      match lookup_maps all_machines ∅ ∅ with
      | None =>
          inl {| status_code := 500;
                 detail := DErrorDetails
                             "Failed to resolve machine identifiers"
                             "'hostname'" |}
      | Some (hostname_to_id, id_to_hostname) =>
          let '(resolved_ids, unresolved) :=
            resolve_loop hostname_to_id id_to_hostname identifiers in
          match unresolved with
          | [] => inr resolved_ids
          | _ =>
              inl {| status_code := 400;
                     detail := DUnresolved unresolved
                                 (sorted (keys hostname_to_id))
                                 (sorted (keys id_to_hostname)) |}
          end
      end
  end.

(** ** [provision_machines] *)

Definition bool_truthy (o : option bool) : bool := default false o.

Definition list_truthy {A} (o : option (list A)) : bool :=
  match o with Some (_ :: _) => true | _ => false end.

(** [request.auto_select or (request.tags and len(request.tags) > 0 and
    not request.machines)]. *)
Definition auto_mode (request : MachineProvisionRequest) : bool :=
  bool_truthy (auto_select request)
  || (list_truthy (tags request) && negb (list_truthy (machines request))).

Definition example_detail (error : string) : HTTPException :=
  {| status_code := 400; detail := DExample error |}.

(** Lines 616-658. *)
Definition validate (request : MachineProvisionRequest)
  : option HTTPException :=
  if auto_mode request then
    if negb (list_truthy (tags request)) then
      Some (example_detail
              "tags array is required for automatic machine selection")
    else
      match count request with
      | Some n =>
          if (n =? 0)%Z || (n <? 1)%Z then
            Some (example_detail
                    "count is required and must be greater than 0 for automatic machine selection")
          else None
      | None =>
          Some (example_detail
                  "count is required and must be greater than 0 for automatic machine selection")
      end
  else
    if negb (list_truthy (machines request)) then
      Some (example_detail
              "machines array is required when not using automatic selection")
    else None.

(** Lines 675-679. *)
Definition configured_pools (st : AppState) : list string :=
  match maas_config st with
  | Some cfg =>
      match cfg !! "POOLS" with
      | Some p => if truthy p then map strip (split_on "," p) else ["default"]
      | None => ["default"]
      end
  | None => ["default"]
  end.

(** [machine.get('pool', {}).get('name', 'default')]. *)
Definition machine_pool (machine : Machine) : string :=
  default "default" (pool_name machine).

Definition pool_filtered_machines (pools : list string)
    (all_machines : list Machine) : list Machine :=
  List.filter (fun machine => mem (machine_pool machine) pools) all_machines.

(** Lines 688-691. *)
Definition available_machines_of (request : MachineProvisionRequest)
    (pool_filtered : list Machine) : list Machine :=
  match pool request with
  | Some p =>
      if truthy p
      then List.filter (fun m => String.eqb (machine_pool m) p) pool_filtered
      else pool_filtered
  | None => pool_filtered
  end.

(** [any(tag in machine_tags for tag in tags)] and
    [all(tag in machine_tags for tag in tags)]. *)
Definition any_tag (tags : list string) (machine : Machine) : bool :=
  existsb (fun tag => mem tag (tag_names machine)) tags.

Definition all_tags (tags : list string) (machine : Machine) : bool :=
  forallb (fun tag => mem tag (tag_names machine)) tags.

(** Lines 694-706. *)
Definition tag_match (match_mode : string) (tags : list string)
    (machine : Machine) : bool :=
  if String.eqb match_mode "any" then any_tag tags machine
  else all_tags tags machine.

Definition tagged_machines (match_mode : string) (tags : list string)
    (available : list Machine) : list Machine :=
  List.filter (tag_match match_mode tags) available.

(** Line 709. *)
Definition is_ready (machine : Machine) : bool :=
  String.eqb (status_name machine) "Ready".

Definition ready_machines (request : MachineProvisionRequest)
    (st : AppState) (all_machines : list Machine) : list Machine :=
  let match_mode := or_else (tag_match_mode request) "all" in
  List.filter is_ready
    (tagged_machines match_mode (default [] (tags request))
       (available_machines_of request
          (pool_filtered_machines (configured_pools st) all_machines))).

Definition candidate_of (m : Machine) : Candidate :=
  {| cand_system_id := system_id m;
     cand_hostname := default (system_id m) (hostname m);
     cand_tags := tag_names m;
     cand_pool := machine_pool m |}.

(** Lines 714-739. *)
Definition insufficient (request : MachineProvisionRequest)
    (requested : Z) (ready : list Machine) : HTTPException :=
  let available_count := Z.of_nat (length ready) in
  let requested_tags := join ", " (default [] (tags request)) in
  let pool_info :=
    if truthy_opt (pool request)
    then " in pool '" +:+ default "" (pool request) +:+ "'" else "" in
  {| status_code := 409;
     detail :=
       DInsufficient requested available_count (default [] (tags request))
         (or_else (pool request) "any configured pool")
         ("Requested " +:+ str_of_Z requested +:+ " machines with tags ["
          +:+ requested_tags +:+ "]" +:+ pool_info +:+ ", but only "
          +:+ str_of_Z available_count +:+ " ready machines available")
         (map candidate_of ready) |}.

(** Lines 669-769: the selected identifiers and the validation summary. *)
Definition auto_select_machines (w : World) (st : AppState)
    (request : MachineProvisionRequest)
  : HTTPException + (list string * ResourceValidation) :=
  match machines_api w with
  | inl e => inl (of_gateway e "Failed to auto-select machines")
  | inr all_machines =>
      let ready := ready_machines request st all_machines in
      let requested := default 0%Z (count request) in
      if (Z.of_nat (length ready) <? requested)%Z then
        inl (insufficient request requested ready)
      else
        let selected_machines := map system_id (take_Z requested ready) in
        inr (selected_machines,
             {| auto_selected := true;
                rv_requested_count := requested;
                rv_available_count := length ready;
                rv_selected_machines := length selected_machines;
                selection_criteria :=
                  {| sc_tags := tags request;
                     sc_tag_match_mode := or_else (tag_match_mode request) "all";
                     sc_pool := pool request;
                     sc_status := "Ready" |} |})
      end.

(** Lines 775-795. *)
Definition new_job (job_id : string) (created updated : string)
    (resource_validation : option ResourceValidation)
    (request : MachineProvisionRequest) : Job :=
  {| j_id := job_id;
     status := pending;
     created_at := created;
     updated_at := updated;
     completed_at := None;
     j_machines := [];
     total_machines := 0;
     successful_deployments := 0;
     failed_deployments := 0;
     results := [];
     resource_validation := resource_validation;
     config :=
       {| c_distro_series := or_else (distro_series request) "jammy";
          c_user_data := user_data request;
          c_tags := tags request;
          c_pool := pool request;
          c_count := count request;
          c_auto_select := auto_select request;
          c_tag_match_mode := tag_match_mode request |};
     error := None |}.

Record ProvisioningJobResponse := {
  job_id : string;
  resp_status : string;
  message : string;
  machines_to_deploy : nat;
  auto_selection : option ResourceValidation;
  selected_machines : option (list string)
}.

(** The background task handed to [background_tasks.add_task]. *)
Record Task := {
  task_job_id : string;
  task_machine_ids : list string;
  task_config : JobConfig
}.

(** Lines 660-769: the target identifiers of a validated request. *)
Definition select_machines (w : World) (st : AppState)
    (request : MachineProvisionRequest)
  : HTTPException + (list string * option ResourceValidation) :=
  if auto_mode request then
    match auto_select_machines w st request with
    | inl e => inl e
    | inr (ids, rv) => inr (ids, Some rv)
    end
  else
    match resolve_machine_identifiers w (default [] (machines request)) with
    | inl e => inl e
    | inr ids => inr (ids, None)
    end.

Definition provision_machines (w : World) (st : AppState)
    (request : MachineProvisionRequest)
  : (HTTPException + (ProvisioningJobResponse * Task)) * AppState :=
  match validate request with
  | Some e => (inl e, st)
  | None =>
      match select_machines w st request with
      | inl e => (inl e, st)
      | inr (selected, resource_validation) =>
          let job_id :=
            "job-" +:+ str_of_Z (time_time w) +:+ "-"
            +:+ str_of_Z (job_id_counter st) in
          let job :=
            new_job job_id (clock w 0) (clock w 1) resource_validation
              request in
          (inr ({| job_id := job_id;
                   resp_status := "pending";
                   message := "Provisioning job started. Use GET /api/provision/{job_id} to track progress.";
                   machines_to_deploy := length selected;
                   auto_selection := resource_validation;
                   selected_machines :=
                     match resource_validation with
                     | Some _ => Some selected
                     | None => None
                     end |},
                {| task_job_id := job_id;
                   task_machine_ids := selected;
                   task_config := config job |}),
           {| maas_config := maas_config st;
              user_config := user_config st;
              provisioning_jobs := <[job_id := job]> (provisioning_jobs st);
              job_id_counter := (job_id_counter st + 1)%Z |})
      end
  end.

(** ** [deploy_machines] *)

(** The running task: the job dictionary it mutates in place, the values
    the dictionary had before (latest first), the clock readings taken and
    the deploy calls made. *)
Record Exec := {
  job : Job;
  seen : list Job;
  ticks : nat;
  calls : list (string * DeployData)
}.

Definition M (A : Type) : Type := Exec -> A * Exec.

Global Instance M_ret : MRet M := fun A (a : A) s => (a, s).

Global Instance M_bind : MBind M :=
  fun A B (k : A -> M B) (m : M A) s => let '(a, s') := m s in k a s'.

(** One assignment to the job dictionary. *)
Definition mutate (f : Job -> Job) : M unit :=
  fun s => (tt, {| job := f (job s); seen := job s :: seen s;
                   ticks := ticks s; calls := calls s |}).

Definition get_job : M Job := fun s => (job s, s).

(** [datetime.now().isoformat()]. *)
Definition now (w : World) : M string :=
  fun s => (clock w (ticks s),
            {| job := job s; seen := seen s; ticks := S (ticks s);
               calls := calls s |}).

(** [maas_api(f'machines/{system_id}/', 'POST', deploy_data)]. *)
Definition post_deploy (w : World) (sid : string) (data : DeployData)
  : M (GatewayError + string) :=
  fun s => (deploy_api w (length (calls s)) sid data,
            {| job := job s; seen := seen s; ticks := ticks s;
               calls := calls s ++ [(sid, data)] |}).

Fixpoint for_each {A} (l : list A) (body : A -> M unit) : M unit :=
  match l with
  | [] => mret tt
  | x :: l' => body x;; for_each l' body
  end.

(** Field assignments on the job dictionary. *)
Definition set_status (v : JobStatus) (j : Job) : Job :=
  {| j_id := j_id j; status := v; created_at := created_at j;
     updated_at := updated_at j; completed_at := completed_at j;
     j_machines := j_machines j; total_machines := total_machines j;
     successful_deployments := successful_deployments j;
     failed_deployments := failed_deployments j; results := results j;
     resource_validation := resource_validation j; config := config j;
     error := error j |}.

Definition set_updated_at (v : string) (j : Job) : Job :=
  {| j_id := j_id j; status := status j; created_at := created_at j;
     updated_at := v; completed_at := completed_at j;
     j_machines := j_machines j; total_machines := total_machines j;
     successful_deployments := successful_deployments j;
     failed_deployments := failed_deployments j; results := results j;
     resource_validation := resource_validation j; config := config j;
     error := error j |}.

Definition set_completed_at (v : string) (j : Job) : Job :=
  {| j_id := j_id j; status := status j; created_at := created_at j;
     updated_at := updated_at j; completed_at := Some v;
     j_machines := j_machines j; total_machines := total_machines j;
     successful_deployments := successful_deployments j;
     failed_deployments := failed_deployments j; results := results j;
     resource_validation := resource_validation j; config := config j;
     error := error j |}.

Definition set_machines (v : list (string * string)) (j : Job) : Job :=
  {| j_id := j_id j; status := status j; created_at := created_at j;
     updated_at := updated_at j; completed_at := completed_at j;
     j_machines := v; total_machines := total_machines j;
     successful_deployments := successful_deployments j;
     failed_deployments := failed_deployments j; results := results j;
     resource_validation := resource_validation j; config := config j;
     error := error j |}.

Definition set_total_machines (v : nat) (j : Job) : Job :=
  {| j_id := j_id j; status := status j; created_at := created_at j;
     updated_at := updated_at j; completed_at := completed_at j;
     j_machines := j_machines j; total_machines := v;
     successful_deployments := successful_deployments j;
     failed_deployments := failed_deployments j; results := results j;
     resource_validation := resource_validation j; config := config j;
     error := error j |}.

Definition incr_successful (j : Job) : Job :=
  {| j_id := j_id j; status := status j; created_at := created_at j;
     updated_at := updated_at j; completed_at := completed_at j;
     j_machines := j_machines j; total_machines := total_machines j;
     successful_deployments := successful_deployments j + 1;
     failed_deployments := failed_deployments j; results := results j;
     resource_validation := resource_validation j; config := config j;
     error := error j |}.

Definition incr_failed (j : Job) : Job :=
  {| j_id := j_id j; status := status j; created_at := created_at j;
     updated_at := updated_at j; completed_at := completed_at j;
     j_machines := j_machines j; total_machines := total_machines j;
     successful_deployments := successful_deployments j;
     failed_deployments := failed_deployments j + 1; results := results j;
     resource_validation := resource_validation j; config := config j;
     error := error j |}.

Definition append_result (r : ResultEntry) (j : Job) : Job :=
  {| j_id := j_id j; status := status j; created_at := created_at j;
     updated_at := updated_at j; completed_at := completed_at j;
     j_machines := j_machines j; total_machines := total_machines j;
     successful_deployments := successful_deployments j;
     failed_deployments := failed_deployments j;
     results := results j ++ [r];
     resource_validation := resource_validation j; config := config j;
     error := error j |}.

Definition set_error (v : string) (j : Job) : Job :=
  {| j_id := j_id j; status := status j; created_at := created_at j;
     updated_at := updated_at j; completed_at := completed_at j;
     j_machines := j_machines j; total_machines := total_machines j;
     successful_deployments := successful_deployments j;
     failed_deployments := failed_deployments j; results := results j;
     resource_validation := resource_validation j; config := config j;
     error := Some v |}.

(** Lines 448-453, 457-462, 503-511 and 517-522. *)
Definition skipped_entry (sid : string) (machine : Machine)
  : ResultEntry :=
  {| machine_id := sid;
     r_hostname := default (system_id machine) (hostname machine);
     r_status := skipped;
     reason := Some ("Machine not in Ready state (current: "
                     +:+ status_name machine +:+ ")");
     r_error := None; r_distro_series := None; os_type := None;
     deployed_at := None; maas_result := None |}.

Definition not_found_entry (sid : string) : ResultEntry :=
  {| machine_id := sid;
     r_hostname := sid;
     r_status := failed;
     reason := Some "Machine not found";
     r_error := None; r_distro_series := None; os_type := None;
     deployed_at := None; maas_result := None |}.

(** [machine.get('hostname', machine.get('fqdn', machine['system_id']))]. *)
Definition result_hostname (machine : Machine) : string :=
  default (default (system_id machine) (fqdn machine))
    (hostname machine).

Definition deployed_entry (machine : Machine)
    (distro_series os_type at_time result : string) : ResultEntry :=
  {| machine_id := system_id machine;
     r_hostname := result_hostname machine;
     r_status := deployed;
     reason := None; r_error := None;
     r_distro_series := Some distro_series;
     os_type := Some os_type;
     deployed_at := Some at_time;
     maas_result := Some result |}.

Definition failed_entry (machine : Machine) (deploy_error : GatewayError)
  : ResultEntry :=
  {| machine_id := system_id machine;
     r_hostname := result_hostname machine;
     r_status := failed;
     reason := None;
     r_error := Some (gw_str deploy_error);
     r_distro_series := None; os_type := None;
     deployed_at := None; maas_result := None |}.

(** Lines 441-462: the machines to deploy; a machine that is missing or
    not Ready gets its result entry here. *)
Fixpoint resolve_targets (all_machines : list Machine)
    (machine_ids : list string) : M (list Machine) :=
  match machine_ids with
  | [] => mret []
  | sid :: rest =>
      match List.find (fun m => String.eqb (system_id m) sid)
              all_machines with
      | Some machine =>
          if negb (String.eqb (status_name machine) "Ready") then
            mutate (append_result (skipped_entry sid machine));;
            resolve_targets all_machines rest
          else
            target_machines ← resolve_targets all_machines rest;
            mret (machine :: target_machines)
      | None =>
          mutate (append_result (not_found_entry sid));;
          resolve_targets all_machines rest
      end
  end.

(** Lines 464-475. *)
Definition filter_tags (config : JobConfig) (targets : list Machine)
  : list Machine :=
  match c_tags config with
  | Some (t :: ts) => List.filter (any_tag (t :: ts)) targets
  | _ => targets
  end.

Definition filter_pool (config : JobConfig) (targets : list Machine)
  : list Machine :=
  match c_pool config with
  | Some p =>
      if truthy p
      then List.filter (fun m => String.eqb (machine_pool m) p) targets
      else targets
  | None => targets
  end.

Definition limit_count (config : JobConfig) (targets : list Machine)
  : list Machine :=
  match c_count config with
  | Some n => if negb (n =? 0)%Z && (n >? 0)%Z then take_Z n targets
              else targets
  | None => targets
  end.

Definition post_selection_filters (config : JobConfig)
    (targets : list Machine) : list Machine :=
  limit_count config (filter_pool config (filter_tags config targets)).

(** Line 487. *)
Definition os_type_of (distro_series : string) : string :=
  if contains_any ["rocky"; "rhel"; "centos"] (lower distro_series)
  then "rocky" else "ubuntu".

Section Deploy.
Context `{Runtime}.

(** Lines 489-499: the form data for one machine; the clock is read when
    a configuration is generated. *)
Definition deploy_data_for (w : World) (config : JobConfig)
    (machine : Machine) : M DeployData :=
  let distro_series := c_distro_series config in
  let os_type := os_type_of distro_series in
  machine_user_data ←
    (match c_user_data config with
     | Some ud =>
         if truthy ud then
           t ← now w;
           mret (Some (CloudInit.get_machine_cloud_init machine ud os_type
                        None t))
         else mret (Some ud)
     | None => mret None
     end);
  mret {| op := "deploy";
         dd_distro_series := distro_series;
         dd_user_data := if truthy_opt machine_user_data
                         then machine_user_data else None |}.

(** Lines 483-524: one turn of the deploy loop. *)
Definition deploy_one (w : World) (config : JobConfig) (machine : Machine)
  : M unit :=
  let distro_series := c_distro_series config in
  let os_type := os_type_of distro_series in
  deploy_data ← deploy_data_for w config machine;
  result ← post_deploy w (system_id machine) deploy_data;
  match result with
  | inr result =>
      t ← now w;
      mutate (append_result
                (deployed_entry machine distro_series os_type t result));;
      mutate incr_successful
  | inl deploy_error =>
      mutate (append_result (failed_entry machine deploy_error));;
      mutate incr_failed
  end.

(** Lines 432-537, with the job dictionary at hand. *)
Definition run_job (w : World) (machine_ids : list string)
    (config : JobConfig) : M unit :=
  mutate (set_status running);;
  t ← now w;
  mutate (set_updated_at t);;
  match machines_api w with
  | inr all_machines =>
      target_machines ← resolve_targets all_machines machine_ids;
      let target_machines := post_selection_filters config target_machines in
      mutate (set_total_machines (length target_machines));;
      mutate (set_machines
                (map (fun m => (system_id m, result_hostname m))
                   target_machines));;
      for_each target_machines (deploy_one w config);;
      j ← get_job;
      mutate (set_status (if (failed_deployments j =? 0)%nat then completed
                          else completed_with_errors));;
      t ← now w;
      mutate (set_completed_at t);;
      t ← now w;
      mutate (set_updated_at t)
  | inl error =>
      mutate (set_status job_failed);;
      mutate (set_error (gw_str error));;
      t ← now w;
      mutate (set_updated_at t)
  end.

(** The outcome of the background task: the globals afterwards, every
    value the job dictionary took in order, and the deploy calls. *)
Record Run := {
  final_state : AppState;
  trace : list Job;
  deploy_calls : list (string * DeployData)
}.

Definition deploy_machines (w : World) (st : AppState) (job_id : string)
    (machine_ids : list string) (config : JobConfig) : Run :=
  match provisioning_jobs st !! job_id with
  | None => {| final_state := st; trace := []; deploy_calls := [] |}
  | Some job0 =>
      let s := snd (run_job w machine_ids config
                      {| job := job0; seen := []; ticks := 0; calls := [] |}) in
      {| final_state :=
           {| maas_config := maas_config st;
              user_config := user_config st;
              provisioning_jobs := <[job_id := job s]> (provisioning_jobs st);
              job_id_counter := job_id_counter st |};
         trace := reverse (job s :: seen s);
         deploy_calls := calls s |}
  end.

(** The job a run ends with. *)
Definition final_job (r : Run) (job_id : string) : option Job :=
  provisioning_jobs (final_state r) !! job_id.
End Deploy.
End App.

(* ===================================================================== *)
(** * app.py: configuration files and the read endpoints *)
(* ===================================================================== *)

Module Files.
Import Py App.

(** [line.split('=', 1)] of a line that holds the separator: the text
    before its first occurrence and the text after it. *)
Fixpoint split_first (sep : ascii) (s : string) : option (string * string) :=
  match s with
  | EmptyString => None
  | String c s' =>
      if Ascii.eqb c sep then Some (EmptyString, s')
      else match split_first sep s' with
           | Some (a, b) => Some (String c a, b)
           | None => None
           end
  end.

(** Lines 93-98: one line of a configuration file. *)
Definition parse_line (config : gmap string string) (line : string)
  : gmap string string :=
  if contains "=" line then
    match split_first "=" line with
    | Some (key, value) =>
        let key := strip key in
        let value := strip value in
        if truthy key && truthy value then <[key := value]> config
        else config
    | None => config
    end
  else config.

(** Lines 89-98. *)
Definition parse_config (config_content : string) : gmap string string :=
  fold_left parse_line (split_on nl_char config_content) ∅.

(** What reading a configuration file gives: the file is not there, its
    text, or an exception. *)
Inductive FileRead := NoFile | Content (text : string) | ReadError.

(** [load_maas_config]: without the file, and on an exception, the global
    stays as it is. *)
Definition load_maas_config (file : FileRead) (st : AppState) : AppState :=
  match file with
  | Content text =>
      {| maas_config := Some (parse_config text);
         user_config := user_config st;
         provisioning_jobs := provisioning_jobs st;
         job_id_counter := job_id_counter st |}
  | _ => st
  end.

(** [load_user_config]: without the file, and on an exception, the global
    is reset to [None]. *)
Definition load_user_config (file : FileRead) (st : AppState) : AppState :=
  {| maas_config := maas_config st;
     user_config := match file with
                    | Content text => Some (parse_config text)
                    | _ => None
                    end;
     provisioning_jobs := provisioning_jobs st;
     job_id_counter := job_id_counter st |}.

(** [startup_event]. *)
Definition startup_event (maas_conf users_conf : FileRead) (st : AppState)
  : AppState :=
  load_user_config users_conf (load_maas_config maas_conf st).
End Files.

Module Endpoints.
Import Py App.

(** Truth of an optional dictionary: it is there and has a key. *)
Definition dict_truthy (d : option (gmap string string)) : bool :=
  match d with
  | Some m => bool_decide (m <> ∅)
  | None => false
  end.

(** [d.get(k) if d else None]. *)
Definition get_opt (d : option (gmap string string)) (k : string)
  : option string :=
  match d with Some m => m !! k | None => None end.

Record ConfigStatus := {
  cs_configured : bool;
  cs_url : option string;
  cs_pools : list string
}.

(** [get_config_status]. *)
Definition get_config_status (st : AppState) : ConfigStatus :=
  {| cs_configured :=
       dict_truthy (maas_config st)
       && truthy_opt (get_opt (maas_config st) "MAAS_URL")
       && truthy_opt (get_opt (maas_config st) "API_KEY");
     cs_url := get_opt (maas_config st) "MAAS_URL";
     cs_pools := configured_pools st |}.

Record UserConfig := {
  uc_configured : bool;
  uc_username : option string;
  hasPassword : bool
}.

(** [get_user_config]. *)
Definition get_user_config (st : AppState) : UserConfig :=
  {| uc_configured := dict_truthy (user_config st);
     uc_username := get_opt (user_config st) "USERNAME";
     hasPassword := dict_truthy (user_config st)
                    && truthy_opt (get_opt (user_config st) "PASSWORD") |}.

(** [get_user_credentials]: the dictionary the generator takes as
    [user_credentials]. *)
Definition get_user_credentials (st : AppState) : Credentials :=
  if dict_truthy (user_config st) then
    {| configured := Some true;
       username := get_opt (user_config st) "USERNAME";
       password := get_opt (user_config st) "PASSWORD" |}
  else
    {| configured := Some false; username := None; password := None |}.

(** [get_machines]: any exception, the [HTTPException] of [maas_api]
    included, becomes a 500 error with its text. *)
Definition get_machines (w : World) (st : AppState)
  : HTTPException + list Machine :=
  match machines_api w with
  | inr machines => inr (pool_filtered_machines (configured_pools st) machines)
  | inl error => inl {| status_code := 500; detail := DText (gw_str error) |}
  end.

(** [get_provisioning_job]. *)
Definition get_provisioning_job (st : AppState) (job_id : string)
  : HTTPException + Job :=
  match provisioning_jobs st !! job_id with
  | Some job => inr job
  | None => inl {| status_code := 404;
                   detail := DText "Provisioning job not found" |}
  end.

(** The text of [job['status']]. *)
Definition status_text (s : JobStatus) : string :=
  match s with
  | pending => "pending"
  | running => "running"
  | completed => "completed"
  | completed_with_errors => "completed_with_errors"
  | job_failed => "failed"
  end.

(** [l.sort(key=key, reverse=True)] with string keys.  The sort is stable:
    an element goes in front of the first element whose key is not
    greater than its own. *)
Fixpoint insert_desc {A} (key : A -> string) (x : A) (l : list A) : list A :=
  match l with
  | [] => [x]
  | y :: l' =>
      if String.ltb (key x) (key y) then y :: insert_desc key x l'
      else x :: l
  end.

Definition sort_desc {A} (key : A -> string) (l : list A) : list A :=
  foldr (insert_desc key) [] l.

(** [l[:n]] for any [int]: a negative bound counts from the end. *)
Definition slice_to {A} (n : Z) (l : list A) : list A :=
  if (n <? 0)%Z then firstn (length l - Z.to_nat (- n)) l
  else firstn (Z.to_nat n) l.

Record JobList := { jobs : list Job; total : nat }.

(** [list_provisioning_jobs]; [values] is
    [list(provisioning_jobs.values())], the jobs in the order they were
    created. *)
Definition list_provisioning_jobs (values : list Job) (status : option string)
    (limit : Z) : JobList :=
  let selected :=
    if truthy_opt status
    then List.filter
           (fun job => String.eqb (status_text (App.status job))
                         (default "" status)) values
    else values in
  {| jobs := slice_to limit (sort_desc created_at selected);
     total := length values |}.
End Endpoints.

(* ===================================================================== *)
(** * services/cloud_init_generator.py: describing the enhancements *)
(* ===================================================================== *)

Module Describe.
Import Py CloudInit.

(** The descriptions in the order of the source, each with its condition
    on the tag list (lines 604-638). *)
Definition descriptions (tags : list string) : list (bool * string) :=
  [ (mem "high-cpu" tags,
     "CPU performance optimizations (performance governor)");
    (mem "high-memory" tags,
     "Memory optimizations (swappiness, cache pressure)");
    (mem "bcm57508" tags, "Broadcom BCM57508 network driver configuration");
    (mem "amd64-arch" tags, "AMD64 microcode updates");
    (mem "virtual" tags, "Virtual machine guest tools");
    (mem "serial_console" tags || mem "needs_serial_console_deploy" tags,
     "Serial console access configuration");
    (mem "nvme_core" tags, "NVME multipath configuration");
    (existsb (fun tag => tag_has "connectx" tag || tag_has "mellanox" tag)
       tags, "ConnectX NIC driver loading (mlx5_core, mlx5_ib)");
    (existsb (tag_has "doca") tags,
     "DOCA installation (doca-all for Ubuntu, doca-ofed for Rocky/RHEL)");
    (existsb (fun tag => tag_has "intel" tag
                         && (tag_has "nic" tag || tag_has "ethernet" tag))
       tags, "Intel NIC driver optimization");
    (existsb (tag_has "broadcom") tags,
     "Enhanced Broadcom NIC driver support") ].

(** [get_enhancement_description]. *)
Definition get_enhancement_description (tags : list string) : list string :=
  match tags with
  | [] => ["Standard configuration only"]
  | _ =>
      match map snd (List.filter fst (descriptions tags)) with
      | [] => ["Standard configuration only"]
      | ds => ds
      end
  end.
End Describe.

(* ===================================================================== *)
(** * What the code is checked against *)
(* ===================================================================== *)

(** The notions the statements about explicit and automatic selection are
    written in. *)
Module SelectionSpec.
Import Py App.

Definition is_system_id (fleet : list Machine) (t : string) : Prop :=
  exists m, In m fleet /\ system_id m = t.

Definition is_hostname (fleet : list Machine) (t : string) : Prop :=
  exists m, In m fleet /\ hostname m = Some t.

(** A token stands for itself when it is a system identifier, and
    otherwise for a machine that has it as hostname. *)
Definition resolves_to (fleet : list Machine) (t r : string) : Prop :=
  (is_system_id fleet t /\ r = t)
  \/ (~ is_system_id fleet t
      /\ exists m, In m fleet /\ hostname m = Some t /\ system_id m = r).

Definition known (fleet : list Machine) (t : string) : bool :=
  existsb (fun m => String.eqb (system_id m) t
                    || bool_decide (hostname m = Some t)) fleet.

(** The pool of a machine record: the name of its pool, and the default
    pool for a record without pool data. *)
Definition pool_of (m : Machine) : string :=
  match pool_name m with Some p => p | None => "default" end.

(** The pools the installation declares: the names of the POOLS entry of
    its configuration, separated by commas and stripped; the default pool
    alone when there is no such entry. *)
Definition declared_pools (st : AppState) : list string :=
  match maas_config st ≫= (fun cfg => cfg !! "POOLS") with
  | Some (String c names) => map strip (split_on "," (String c names))
  | _ => ["default"]
  end.

(** The tags a request asks for. *)
Definition wanted_tags (request : MachineProvisionRequest) : list string :=
  match tags request with Some l => l | None => [] end.

(** The machines an automatic selection may take: in a declared pool, in
    the pool of the request when it names one, carrying one of the wanted
    tags in the mode [any] and all of them in every other mode, and
    Ready. *)
Definition Eligible (st : AppState) (request : MachineProvisionRequest)
    (m : Machine) : Prop :=
  pool_of m ∈ declared_pools st
  /\ match pool request with
     | Some (String c p) => pool_of m = String c p
     | _ => True
     end
  /\ (if decide (tag_match_mode request = Some "any")
      then Exists (fun t => t ∈ tag_names m) (wanted_tags request)
      else Forall (fun t => t ∈ tag_names m) (wanted_tags request))
  /\ status_name m = "Ready".

#[global] Instance Eligible_dec (st : AppState)
    (request : MachineProvisionRequest) (m : Machine) :
  Decision (Eligible st request m).
Proof.
  unfold Eligible.
  destruct (pool request) as [[|c p]|];
    destruct (decide (tag_match_mode request = Some "any")); apply _.
Defined.

Definition eligible (st : AppState) (request : MachineProvisionRequest)
    (m : Machine) : bool :=
  bool_decide (Eligible st request m).

(** What the error of an automatic selection shows of a machine. *)
Definition shown (m : Machine) : Candidate :=
  {| cand_system_id := system_id m;
     cand_hostname :=
       match hostname m with Some h => h | None => system_id m end;
     cand_tags := tag_names m;
     cand_pool := pool_of m |}.

Definition in_tables (H I : gmap string string) (t : string) : bool :=
  bool_decide (is_Some (I !! t)) || bool_decide (is_Some (H !! t)).
End SelectionSpec.

(** The notions the statements about a job run are written in. *)
Module JobSpec.
Import Py App.

Definition find_machine (fleet : list Machine) (sid : string)
  : option Machine :=
  List.find (fun m => String.eqb (system_id m) sid) fleet.

(** The requested machines that are present and Ready, in request
    order. *)
Fixpoint ready_targets (fleet : list Machine) (ids : list string)
  : list Machine :=
  match ids with
  | [] => []
  | sid :: rest =>
      match find_machine fleet sid with
      | Some m => if is_ready m then m :: ready_targets fleet rest
                  else ready_targets fleet rest
      | None => ready_targets fleet rest
      end
  end.

(** The entries recorded for the requested machines that are missing or
    not Ready. *)
Fixpoint resolution_entries (fleet : list Machine) (ids : list string)
  : list ResultEntry :=
  match ids with
  | [] => []
  | sid :: rest =>
      match find_machine fleet sid with
      | Some m => if is_ready m then resolution_entries fleet rest
                  else skipped_entry sid m :: resolution_entries fleet rest
      | None => not_found_entry sid :: resolution_entries fleet rest
      end
  end.

(** The identifiers that yield no target. *)
Definition undeployable (fleet : list Machine) (sid : string) : bool :=
  match find_machine fleet sid with
  | Some m => negb (is_ready m)
  | None => true
  end.

(** Two values of the job dictionary with the same counters. *)
Definition same_counts (j j' : Job) : Prop :=
  total_machines j' = total_machines j
  /\ successful_deployments j' = successful_deployments j
  /\ failed_deployments j' = failed_deployments j
  /\ status j' = status j.

(** The counters never exceed the number of targets. *)
Definition within_total (j : Job) : Prop :=
  successful_deployments j + failed_deployments j <= total_machines j.

Definition terminal (s : JobStatus) : bool :=
  match s with
  | completed | completed_with_errors | job_failed => true
  | _ => false
  end.

Definition count_outcome (o : Outcome) (rs : list ResultEntry) : nat :=
  length (List.filter (fun r => bool_decide (r_status r = o)) rs).

(** A job dictionary as [provision_machines] creates it. *)
Definition fresh (j : Job) : bool :=
  (total_machines j =? 0)%nat && (successful_deployments j =? 0)%nat
  && (failed_deployments j =? 0)%nat
  && match results j with [] => true | _ => false end.

(** The OS family of a distribution: the RHEL family, written [rocky],
    for a name that holds rocky, rhel or centos in any case, and the
    Debian family, written [ubuntu], for every other name. *)
Definition os_family (distro_series : string) : string :=
  if contains_any ["rocky"; "rhel"; "centos"] (lower distro_series)
  then "rocky" else "ubuntu".

(** The name a result entry gives a machine: its hostname, else its
    fully qualified name, else its system identifier. *)
Definition entry_name (m : Machine) : string :=
  match hostname m with
  | Some h => h
  | None => match fqdn m with Some f => f | None => system_id m end
  end.

Section Rendering.
Context `{Runtime}.

(** The form data sent for a machine when the clock reads [t]: the
    configuration is generated only for a snippet that is not empty,
    and without credentials. *)
Definition planned_data (config : JobConfig) (m : Machine) (t : string)
  : DeployData :=
  {| op := "deploy";
     dd_distro_series := c_distro_series config;
     dd_user_data :=
       match c_user_data config with
       | Some ud =>
           if truthy ud
           then Some (CloudInit.get_machine_cloud_init m ud
                        (os_family (c_distro_series config)) None t)
           else None
       | None => None
       end |}.

(** One turn of the deploy loop, seen from outside: the call [c] made
    as the [n]-th one and the entry [e] recorded for machine [m].  On
    success the entry is deployed, with the distribution, the OS family,
    a reading of the clock and the answer of the gateway; on an error it
    is failed, with the text of the error. *)
Definition step_ok (w : World) (config : JobConfig) (n : nat)
    (m : Machine) (c : string * DeployData) (e : ResultEntry) : Prop :=
  exists t,
    c = (system_id m, planned_data config m t)
    /\ match deploy_api w n (system_id m) (planned_data config m t) with
       | inr res =>
           exists k,
             e = {| machine_id := system_id m;
                    r_hostname := entry_name m;
                    r_status := deployed;
                    reason := None;
                    r_error := None;
                    r_distro_series := Some (c_distro_series config);
                    os_type := Some (os_family (c_distro_series config));
                    deployed_at := Some (clock w k);
                    maas_result := Some res |}
       | inl err =>
           e = {| machine_id := system_id m;
                  r_hostname := entry_name m;
                  r_status := failed;
                  reason := None;
                  r_error := Some (gw_str err);
                  r_distro_series := None;
                  os_type := None;
                  deployed_at := None;
                  maas_result := None |}
       end.

End Rendering.
End JobSpec.

(** The notions the statements about the generated configuration are
    written in. *)
Module GenerationSpec.
Import Py CloudInit.

Definition occurs (sub s : string) : Prop :=
  exists pre post, s = pre +:+ sub +:+ post.

(** A line that is a list item and carries neither a logging nor a
    service-control token. *)
Definition safe (line : string) : Prop :=
  (exists cmd, line = "- " +:+ cmd)
  /\ ~ occurs "echo" line /\ ~ occurs "systemctl" line.

(** A line of a text: it holds no line feed. *)
Fixpoint single_line (l : string) : bool :=
  match l with
  | EmptyString => true
  | String c l' => negb (Ascii.eqb c nl_char) && single_line l'
  end.

(** The text that has the given lines, separated by line feeds. *)
Definition text_of (ls : list string) : string := String.concat nl ls.

(** A list item without a logging or a service-control token. *)
Definition is_command (line : string) : bool :=
  startswith "- " line && negb (contains "echo" line)
  && negb (contains "systemctl" line).

(** The lines of a snippet that are taken as commands: its lines,
    stripped, that are not empty and are such list items, in the order of
    the snippet. *)
Definition taken (ls : list string) : list string :=
  List.filter is_command (List.filter truthy (map strip ls)).

Fixpoint all_space (s : string) : bool :=
  match s with
  | EmptyString => true
  | String c s' => is_space c && all_space s'
  end.


End GenerationSpec.

(** The notions the further statements are written in. *)
Module ExtraSpec.
Import Py App.

(** The identifier given to a job created at time [t] with counter [c]. *)
Definition job_name (t c : Z) : string :=
  "job-" +:+ str_of_Z t +:+ "-" +:+ str_of_Z c.

(** Every job in the store was named with a counter below the current
    one. *)
Definition named_below (st : AppState) : Prop :=
  forall k, is_Some (provisioning_jobs st !! k) ->
    exists t c, (0 <= t)%Z /\ (0 <= c < job_id_counter st)%Z
                /\ k = job_name t c.

(** A list of jobs from the newest to the oldest creation time. *)
Definition newest_first (l : list Job) : Prop :=
  Sorted (fun a b => String.le (created_at b) (created_at a)) l.

(** The fields of a job a run has no business with. *)
Definition same_identity (j0 j : Job) : Prop :=
  j_id j = j_id j0 /\ created_at j = created_at j0 /\ config j = config j0
  /\ resource_validation j = resource_validation j0.

(** A property of the job dictionary that the assignments made between the
    start and the end of a run keep. *)
Definition kept (P : Job -> Prop) : Prop :=
  forall j, P j ->
    (forall r, P (append_result r j))
    /\ (forall n, P (set_total_machines n j))
    /\ (forall l, P (set_machines l j))
    /\ P (incr_successful j) /\ P (incr_failed j)
    /\ (forall t, P (set_updated_at t j)).

(** The dictionary satisfies [P] now, and so did every value it took after
    the values [base]. *)
Definition well (P : Job -> Prop) (base : list Job) (s : Exec) : Prop :=
  P (job s)
  /\ exists mids, seen s = mids ++ base /\ Forall P mids.

Section Phases.
Context `{Runtime}.

(** The state of the task after its opening statements (lines 433-434). *)
Definition started (w : World) (s : Exec) : Exec :=
  {| job := set_updated_at (clock w (ticks s)) (set_status running (job s));
     seen := set_status running (job s) :: job s :: seen s;
     ticks := S (ticks s);
     calls := calls s |}.

(** Lines 441-524: resolution, filters and the deploy loop. *)
Definition middle (w : World) (ids : list string) (config : JobConfig)
    (fleet : list Machine) : M unit :=
  target_machines ← resolve_targets fleet ids;
  mutate (set_total_machines
            (length (post_selection_filters config target_machines)));;
  mutate (set_machines
            (map (fun m => (system_id m, result_hostname m))
               (post_selection_filters config target_machines)));;
  for_each (post_selection_filters config target_machines)
    (deploy_one w config).

(** The three values the dictionary takes in the closing statements
    (lines 527-529). *)
Definition closing (w : World) (s : Exec) : list Job :=
  let final_status :=
    if (failed_deployments (job s) =? 0)%nat then completed
    else completed_with_errors in
  [ set_status final_status (job s);
    set_completed_at (clock w (ticks s)) (set_status final_status (job s));
    set_updated_at (clock w (S (ticks s)))
      (set_completed_at (clock w (ticks s))
         (set_status final_status (job s))) ].

(** The three values the dictionary takes in the handler of the outer
    [try] (lines 535-537). *)
Definition aborting (w : World) (error : GatewayError) (s : Exec)
  : list Job :=
  [ set_status job_failed (job s);
    set_error (gw_str error) (set_status job_failed (job s));
    set_updated_at (clock w (ticks s))
      (set_error (gw_str error) (set_status job_failed (job s))) ].
End Phases.

(** The enhancements add something. *)
Definition has_enhancements (e : CloudInit.Enhancements) : bool :=
  CloudInit.nonempty (CloudInit.enh_packages e)
  || CloudInit.nonempty (CloudInit.enh_runcmd e)
  || CloudInit.nonempty (CloudInit.enh_write_files e).

(** No code point of the string is the given one. *)
Definition lacks (c : ascii) (s : string) : bool :=
  forallb (fun x => negb (Ascii.eqb x c)) (list_ascii_of_string s).
(** A text of decimal digits. *)
Definition is_digit (c : ascii) : bool :=
  let n := nat_of_ascii c in ((48 <=? n) && (n <=? 57))%nat.

Fixpoint digits (s : string) : bool :=
  match s with
  | EmptyString => true
  | String c s' => is_digit c && digits s'
  end.
End ExtraSpec.

(* ===================================================================== *)
(** * Concrete inputs *)
(* ===================================================================== *)

Module Sample.
Import Py App.

Definition machine (sid state : string) (tag_list : list string) : Machine :=
  {| system_id := sid;
     hostname := Some ("host-" +:+ sid);
     fqdn := None;
     status_name := state;
     pool_name := None;
     tag_names := tag_list;
     architecture := Some "amd64/generic";
     cpu_count := Some 8%Z;
     memory := 16384%Z |}.

(** A machine record without the key [hostname]. *)
Definition nameless : Machine :=
  {| system_id := "d4";
     hostname := None;
     fqdn := Some "d4.maas";
     status_name := "Ready";
     pool_name := None;
     tag_names := [];
     architecture := None;
     cpu_count := None;
     memory := 0%Z |}.

Definition fleet : list Machine :=
  [ machine "a1" "Ready" ["gpu"];
    machine "b2" "Deployed" ["gpu"; "nvme_core"];
    machine "c3" "Ready" ["gpu"; "nvme_core"] ].

(** A gateway that answers every deploy call, and one that refuses the
    machine [c3]. *)
Definition accept_all (n : nat) (sid : string) (d : DeployData)
  : GatewayError + string := inr "accepted".

Definition refuse_c3 (n : nat) (sid : string) (d : DeployData)
  : GatewayError + string :=
  if String.eqb sid "c3"
  then inl (GwHTTP 500 "MAAS API Error: 409 Conflict"
              "500: MAAS API Error: 409 Conflict")
  else inr "accepted".

Definition world (api : nat -> string -> DeployData -> GatewayError + string)
    (machines : list Machine) : World :=
  {| machines_api := inr machines;
     deploy_api := api;
     clock := fun n => "2024-05-01T10:00:0" +:+ pretty n;
     time_time := 1714557600 |}.

Definition manual (ids : list string) (snippet : option string)
  : MachineProvisionRequest :=
  {| machines := Some ids; distro_series := None; user_data := snippet;
     tags := None; pool := None; count := None; auto_select := None;
     tag_match_mode := Some "all" |}.

Definition automatic (tag_list : list string) (mode : option string)
    (n : Z) : MachineProvisionRequest :=
  {| machines := None; distro_series := None; user_data := None;
     tags := Some tag_list; pool := None; count := Some n;
     auto_select := Some true; tag_match_mode := mode |}.

(** Manual selection that also names tags: the job configuration carries
    them with the match mode. *)
Definition manual_tagged (ids tag_list : list string)
  : MachineProvisionRequest :=
  {| machines := Some ids; distro_series := None; user_data := None;
     tags := Some tag_list; pool := None; count := None;
     auto_select := None; tag_match_mode := Some "all" |}.

Definition credential : Credentials :=
  {| configured := Some true; username := Some "ops";
     password := Some "hunter2" |}.

(** The globals after the job ["job-1"] was created for [request]; a user
    credential is configured. *)
Definition globals (request : MachineProvisionRequest) : AppState :=
  {| maas_config := None;
     user_config := Some {[ "USERNAME" := "ops"; "PASSWORD" := "hunter2" ]};
     provisioning_jobs :=
       {[ "job-1" := new_job "job-1" "2024-05-01T09:59:58"
                       "2024-05-01T09:59:59" None request ]};
     job_id_counter := 2 |}.

Definition empty_globals : AppState :=
  {| maas_config := None; user_config := None; provisioning_jobs := ∅;
     job_id_counter := 1 |}.

Definition run (w : World) (request : MachineProvisionRequest)
    (ids : list string) : Run :=
  deploy_machines (H := BlockYaml.runtime) w (globals request) "job-1" ids
    (config (new_job "job-1" "" "" None request)).
End Sample.

(* ===================================================================== *)
(** * More concrete inputs *)
(* ===================================================================== *)

Module Scenes.
Import Py App Sample.

(** A gateway whose machine listing raises. *)
Definition broken : World :=
  {| machines_api := inl (GwOther "connection refused");
     deploy_api := accept_all;
     clock := fun n => "2024-05-01T10:00:0" +:+ pretty n;
     time_time := 1714557600 |}.

(** The globals after one manual submission was served. *)
Definition served : AppState :=
  (provision_machines (world accept_all fleet) empty_globals
     (manual ["a1"] None)).2.

(** A users.conf whose password holds an equals sign. *)
Definition users_conf : string :=
  "USERNAME=weka" +:+ nl +:+ "PASSWORD = a=b" +:+ nl.
End Scenes.

(* ===================================================================== *)
(** * Facts about the Python primitives *)
(* ===================================================================== *)

Module PyFacts.
Import Py.

Lemma append_cons (c : ascii) (a b : string) :
  String c a +:+ b = String c (a +:+ b).
Proof. reflexivity. Qed.

Lemma append_nil_l (s : string) : "" +:+ s = s.
Proof. reflexivity. Qed.

Lemma append_nil_r (s : string) : s +:+ "" = s.
Proof.
  induction s as [|c s IH]; [done |]. by rewrite append_cons, IH.
Qed.

Lemma append_assoc (a b c : string) : (a +:+ b) +:+ c = a +:+ (b +:+ c).
Proof.
  induction a as [|x a IH]; [done |]. by rewrite !append_cons, IH.
Qed.

(** [startswith] is prefix on strings. *)
Lemma prefix_spec (p s : string) :
  String.prefix p s = true <-> exists rest, s = p +:+ rest.
Proof.
  revert s. induction p as [|c p IH]; intros s.
  - split; [intros _; exists s; reflexivity | intros _; by destruct s].
  - destruct s as [|d s]; simpl.
    + split; [discriminate | intros [rest Hr]; discriminate].
    + destruct (ascii_dec c d) as [->|Hne].
      * rewrite IH. split; intros [rest Hr]; exists rest.
        -- by rewrite Hr.
        -- rewrite append_cons in Hr. by injection Hr.
      * split; [discriminate |].
        intros [rest Hr]. rewrite append_cons in Hr. congruence.
Qed.

(** [sub in s] holds exactly when [sub] occurs in [s]. *)
Lemma contains_spec (sub s : string) :
  contains sub s = true <-> exists pre post, s = pre +:+ sub +:+ post.
Proof.
  induction s as [|c s IH]; cbn [contains].
  - rewrite orb_false_r, prefix_spec. split.
    + intros [rest Hr]. by exists "", rest.
    + intros ([|x pre] & post & Hp); [by exists post | discriminate].
  - rewrite orb_true_iff, IH, prefix_spec. split.
    + intros [[rest Hr] | (pre & post & Hp)].
      * by exists "", rest.
      * exists (String c pre), post. by rewrite append_cons, Hp.
    + intros ([|x pre] & post & Hp).
      * left. by exists post.
      * right. exists pre, post. rewrite append_cons in Hp.
        by injection Hp.
Qed.

Lemma drop_str_append (p s : string) :
  drop_str (String.length p) (p +:+ s) = s.
Proof.
  induction p as [|c p IH]; [by destruct s |].
  rewrite append_cons. exact IH.
Qed.

(** Replacing the first occurrence of a prefix by the empty string removes
    the prefix. *)
Lemma replace_first_prefix (old rest : string) :
  old <> "" -> replace_first old "" (old +:+ rest) = rest.
Proof.
  intros Hne. unfold replace_first.
  destruct old as [|c old]; [done |].
  rewrite append_cons. cbn [replace_first_go].
  assert (Hp : String.prefix (String c old) (String c (old +:+ rest)) = true).
  { apply prefix_spec. by exists rest. }
  rewrite Hp, append_nil_l. apply (drop_str_append (String c old) rest).
Qed.

Lemma mem_spec (x : string) (l : list string) : mem x l = true <-> In x l.
Proof.
  unfold mem. rewrite existsb_exists. split.
  - intros (y & Hy & He). apply String.eqb_eq in He. by subst.
  - intros Hx. exists x. split; [done | apply String.eqb_refl].
Qed.

(** [sorted] returns its argument in order. *)
Lemma sorted_Sorted (l : list string) : Sorted String.le (sorted l).
Proof. apply Sorted_merge_sort, _. Qed.

Lemma sorted_In (l : list string) (x : string) : In x (sorted l) <-> In x l.
Proof.
  unfold sorted. rewrite <- !list_elem_of_In.
  by rewrite (merge_sort_Permutation String.le l).
Qed.

Lemma sorted_NoDup (l : list string) : NoDup l -> NoDup (sorted l).
Proof.
  unfold sorted. intros Hl.
  by rewrite (merge_sort_Permutation String.le l).
Qed.

Lemma filter_filter {A} (f g : A -> bool) (l : list A) :
  List.filter f (List.filter g l) = List.filter (fun x => g x && f x) l.
Proof.
  induction l as [|x l IH]; simpl; [done |].
  destruct (g x); simpl; [destruct (f x) |]; by rewrite IH.
Qed.
End PyFacts.
(* ===================================================================== *)
(** * Selection: explicit identifiers and automatic selection *)
(* ===================================================================== *)

Module Selection.
Import Py App PyFacts SelectionSpec.

(** ** The lookup tables *)

Lemma known_spec (fleet : list Machine) (t : string) :
  known fleet t = true <-> is_system_id fleet t \/ is_hostname fleet t.
Proof.
  unfold known, is_system_id, is_hostname. rewrite existsb_exists. split.
  - intros (m & Hm & Hor). apply orb_true_iff in Hor as [He | Hh].
    + left. exists m. by apply String.eqb_eq in He.
    + right. exists m. by apply bool_decide_eq_true in Hh.
  - intros [(m & Hm & He) | (m & Hm & Hh)]; exists m; split; try done.
    + apply orb_true_iff. left. by apply String.eqb_eq.
    + apply orb_true_iff. right. by apply bool_decide_eq_true.
Qed.

Lemma lookup_maps_total (all_machines : list Machine)
    (h0 i0 : gmap string string) :
  forallb (fun m => has_key (hostname m)) all_machines = true ->
  exists H I, lookup_maps all_machines h0 i0 = Some (H, I).
Proof.
  revert h0 i0. induction all_machines as [|m l IH]; intros h0 i0 Hall.
  - by exists h0, i0.
  - simpl in Hall. apply andb_true_iff in Hall as [Hm Hl]. simpl.
    destruct (hostname m) as [h|]; [by apply IH | discriminate].
Qed.

Lemma lookup_maps_inv (all_machines : list Machine) :
  forall (h0 i0 H I : gmap string string),
    lookup_maps all_machines h0 i0 = Some (H, I) ->
    (forall k, is_Some (I !! k) <->
               is_Some (i0 !! k) \/ is_system_id all_machines k)
    /\ (forall k, is_Some (H !! k) <->
                  is_Some (h0 !! k) \/ is_hostname all_machines k)
    /\ (forall k v, H !! k = Some v ->
                    h0 !! k = Some v
                    \/ exists m, In m all_machines /\ hostname m = Some k
                                 /\ system_id m = v).
Proof.
  induction all_machines as [|m l IH]; intros h0 i0 H I Hlm.
  - injection Hlm as <- <-. unfold is_system_id, is_hostname.
    split; [|split].
    + intros k. split; [by left | by intros [?|(? & [] & _)]].
    + intros k. split; [by left | by intros [?|(? & [] & _)]].
    + intros k v Hk. by left.
  - simpl in Hlm. destruct (hostname m) as [h|] eqn:Hh; [|discriminate].
    apply IH in Hlm as (HI & HH & HV). repeat split.
    + intros HS. apply HI in HS as [HS | (m' & Hm' & He)].
      * destruct (decide (system_id m = k)) as [<-|Hne].
        -- right. exists m. split; [by left | done].
        -- left. by rewrite lookup_insert_ne in HS.
      * right. exists m'. split; [by right | done].
    + intros [HS | (m' & [<-|Hm'] & He)]; apply HI.
      * left. destruct (decide (system_id m = k)) as [<-|Hne].
        -- rewrite lookup_insert_eq. by eexists.
        -- by rewrite lookup_insert_ne.
      * left. subst k. rewrite lookup_insert_eq. by eexists.
      * right. by exists m'.
    + intros HS. apply HH in HS as [HS | (m' & Hm' & He)].
      * destruct (decide (h = k)) as [<-|Hne].
        -- right. exists m. split; [by left | done].
        -- left. by rewrite lookup_insert_ne in HS.
      * right. exists m'. split; [by right | done].
    + intros [HS | (m' & [<-|Hm'] & He)]; apply HH.
      * left. destruct (decide (h = k)) as [<-|Hne].
        -- rewrite lookup_insert_eq. by eexists.
        -- by rewrite lookup_insert_ne.
      * left. rewrite Hh in He. injection He as ->.
        rewrite lookup_insert_eq. by eexists.
      * right. by exists m'.
    + intros k v Hk. apply HV in Hk as [Hk | (m' & Hm' & He & Hs)].
      * destruct (decide (h = k)) as [<-|Hne].
        -- rewrite lookup_insert_eq in Hk. injection Hk as <-.
           right. exists m. split; [by left | done].
        -- left. by rewrite lookup_insert_ne in Hk.
      * right. exists m'. split; [by right | done].
Qed.

Lemma keys_spec (m : gmap string string) (k : string) :
  In k (keys m) <-> is_Some (m !! k).
Proof.
  unfold keys. rewrite <- list_elem_of_In, list_elem_of_fmap. split.
  - intros ([k' v] & -> & Hin). apply elem_of_map_to_list in Hin.
    by exists v.
  - intros [v Hv]. exists (k, v). split; [done |].
    by apply elem_of_map_to_list.
Qed.

Lemma keys_NoDup (m : gmap string string) : NoDup (keys m).
Proof. apply NoDup_fst_map_to_list. Qed.

(** ** The resolution loop *)

Lemma resolve_loop_spec (H I : gmap string string) (identifiers : list string) :
  forall resolved unresolved,
    resolve_loop H I identifiers = (resolved, unresolved) ->
    unresolved = List.filter (fun t => negb (in_tables H I t)) identifiers
    /\ (unresolved = [] ->
        Forall2 (fun t r => (is_Some (I !! t) /\ r = t)
                            \/ (I !! t = None /\ H !! t = Some r))
          identifiers resolved).
Proof.
  induction identifiers as [|t l IH]; intros resolved unresolved Hr.
  - injection Hr as <- <-. split; [done | by constructor].
  - simpl in Hr. destruct (resolve_loop H I l) as [res' unres'] eqn:Hl.
    destruct (IH _ _ eq_refl) as [Hu HF]. simpl. unfold in_tables at 1.
    destruct (I !! t) as [h|] eqn:HIt.
    + injection Hr as <- <-.
      rewrite bool_decide_eq_true_2 by (by eexists). simpl. split; [done |].
      intros Hnil. constructor; [|by apply HF]. left. split; [by eexists | done].
    + rewrite (bool_decide_eq_false_2 (is_Some None)) by (by intros [? ?]).
      destruct (H !! t) as [sid|] eqn:HHt.
      * injection Hr as <- <-.
        rewrite bool_decide_eq_true_2 by (by eexists). simpl. split; [done |].
        intros Hnil. constructor; [|by apply HF]. by right.
      * injection Hr as <- <-.
        rewrite bool_decide_eq_false_2 by (by intros [? ?]). simpl.
        split; [by rewrite Hu | discriminate].
Qed.

(** ** Explicit selection *)

(** Against a fetched fleet snapshot whose machines all carry a
    hostname, every token is resolved by exact match on the system
    identifier first and on the hostname otherwise, in the order of the
    input.  When some token matches neither, the call fails with one 400
    error that lists the unresolved tokens, in input order, together with
    the sorted, duplicate-free lists of all known hostnames and of all
    known system identifiers; identifiers are returned only when no token
    is unresolved. *)
Lemma resolution_with_hostnames (w : World) (fleet : list Machine)
    (identifiers : list string) :
  machines_api w = inr fleet ->
  forallb (fun m => has_key (hostname m)) fleet = true ->
  match resolve_machine_identifiers w identifiers with
  | inr ids =>
      List.filter (fun t => negb (known fleet t)) identifiers = []
      /\ Forall2 (resolves_to fleet) identifiers ids
  | inl e =>
      List.filter (fun t => negb (known fleet t)) identifiers <> []
      /\ exists hs sids,
          e = {| status_code := 400;
                 detail :=
                   DUnresolved
                     (List.filter (fun t => negb (known fleet t)) identifiers)
                     hs sids |}
          /\ Sorted String.le hs /\ NoDup hs
          /\ (forall h, In h hs <-> is_hostname fleet h)
          /\ Sorted String.le sids /\ NoDup sids
          /\ (forall i, In i sids <-> is_system_id fleet i)
  end.
Proof.
  intros Hfetch Hhost. unfold resolve_machine_identifiers. rewrite Hfetch.
  destruct (lookup_maps_total fleet ∅ ∅ Hhost) as (H & I & Hlm). rewrite Hlm.
  destruct (lookup_maps_inv _ _ _ _ _ Hlm) as (HI & HH & HV).
  assert (HI' : forall k, is_Some (I !! k) <-> is_system_id fleet k).
  { intros k. rewrite HI, lookup_empty.
    split; [by intros [[? ?]|?] | by right]. }
  assert (HH' : forall k, is_Some (H !! k) <-> is_hostname fleet k).
  { intros k. rewrite HH, lookup_empty.
    split; [by intros [[? ?]|?] | by right]. }
  assert (Hknown : forall t, in_tables H I t = known fleet t).
  { intros t. apply eq_true_iff_eq. unfold in_tables.
    rewrite orb_true_iff, !bool_decide_eq_true, known_spec, HI', HH'.
    done. }
  destruct (resolve_loop H I identifiers) as [res unres] eqn:Hloop.
  destruct (resolve_loop_spec _ _ _ _ _ Hloop) as [Hu HF].
  rewrite (filter_ext _ (fun t => negb (known fleet t))) in Hu
    by (intros t; by rewrite Hknown).
  rewrite <- Hu. destruct unres as [|u us].
  - split; [done |]. eapply Forall2_impl; [by apply HF |].
    intros t r [[HS ->] | [HN HS]].
    + left. split; [by apply HI' | done].
    + right. split.
      * intros Hid. apply HI' in Hid. rewrite HN in Hid. by destruct Hid.
      * apply HV in HS as [HS | HS]; [by rewrite lookup_empty in HS | done].
  - split; [done |]. exists (sorted (keys H)), (sorted (keys I)).
    split; [done |]. repeat split.
    + apply sorted_Sorted.
    + apply sorted_NoDup, keys_NoDup.
    + intros Hin. by apply HH', keys_spec, sorted_In.
    + intros Hin. by apply sorted_In, keys_spec, HH'.
    + apply sorted_Sorted.
    + apply sorted_NoDup, keys_NoDup.
    + intros Hin. by apply HI', keys_spec, sorted_In.
    + intros Hin. by apply sorted_In, keys_spec, HI'.
Qed.

(** ** Tag matching *)

Lemma all_tags_any_tag (tags : list string) (m : Machine) :
  tags <> [] -> all_tags tags m = true -> any_tag tags m = true.
Proof.
  destruct tags as [|t ts]; [done |]. intros _. unfold all_tags, any_tag.
  simpl. intros Hall. apply andb_true_iff in Hall as [Ht _]. by rewrite Ht.
Qed.

Lemma any_tag_spec (tags : list string) (m : Machine) :
  any_tag tags m = true <-> Exists (fun t => t ∈ tag_names m) tags.
Proof.
  unfold any_tag. rewrite existsb_exists, Exists_exists.
  split; intros (t & Ht & Hm); exists t.
  - split; [by apply list_elem_of_In |]. by apply list_elem_of_In, mem_spec.
  - split; [by apply list_elem_of_In |]. by apply mem_spec, list_elem_of_In.
Qed.

Lemma all_tags_spec (tags : list string) (m : Machine) :
  all_tags tags m = true <-> Forall (fun t => t ∈ tag_names m) tags.
Proof.
  unfold all_tags. rewrite forallb_forall, Forall_forall.
  split; intros Hall t Ht.
  - apply list_elem_of_In, mem_spec, Hall. by apply list_elem_of_In.
  - apply mem_spec, list_elem_of_In, Hall. by apply list_elem_of_In.
Qed.

(** The tag list of an automatic selection that passes validation is not
    empty. *)
Lemma accepted_tags (request : MachineProvisionRequest) :
  auto_mode request = true -> validate request = None ->
  wanted_tags request <> [].
Proof.
  unfold validate, wanted_tags. intros ->.
  by destruct (tags request) as [[|t ts]|].
Qed.

(** C6.  The tag predicates run only for an automatic selection that has
    passed validation.  For the tags of such a request and every list of
    candidates, the ALL predicate accepts the candidates that carry every
    tag, the ANY predicate those that carry some tag, and every candidate
    the ALL predicate (or the predicate of any other mode) accepts is
    accepted by the ANY predicate. *)
Theorem C6_all_within_any (request : MachineProvisionRequest)
    (available : list Machine) :
  auto_mode request = true ->
  validate request = None ->
  (forall m,
     In m (tagged_machines "all" (default [] (tags request)) available)
     <-> In m available
         /\ Forall (fun t => t ∈ tag_names m) (wanted_tags request))
  /\ (forall m,
        In m (tagged_machines "any" (default [] (tags request)) available)
        <-> In m available
            /\ Exists (fun t => t ∈ tag_names m) (wanted_tags request))
  /\ (forall match_mode m,
        In m (tagged_machines match_mode (default [] (tags request))
                available) ->
        In m (tagged_machines "any" (default [] (tags request)) available)).
Proof.
  intros Hauto Hvalid.
  pose proof (accepted_tags request Hauto Hvalid) as Hne.
  change (default [] (tags request)) with (wanted_tags request).
  unfold tagged_machines. split; [|split].
  - intros m. by rewrite filter_In, <- all_tags_spec.
  - intros m. by rewrite filter_In, <- any_tag_spec.
  - intros match_mode m. rewrite !filter_In.
    intros [Hin Hm]. split; [done |]. unfold tag_match in *.
    destruct (String.eqb match_mode "any"); simpl; [done |].
    by apply all_tags_any_tag.
Qed.

(** An automatic selection without tags is rejected before any tag
    filter runs. *)
Lemma auto_select_needs_tags (request : MachineProvisionRequest) :
  auto_mode request = true -> list_truthy (tags request) = false ->
  exists e, validate request = Some e /\ status_code e = 400%Z.
Proof.
  intros Hauto Htags. unfold validate. rewrite Hauto, Htags. simpl.
  by eexists.
Qed.

(** ** Automatic selection *)

Lemma machine_pool_of (m : Machine) : machine_pool m = pool_of m.
Proof. unfold machine_pool, pool_of. by destruct (pool_name m). Qed.

Lemma configured_pools_declared (st : AppState) :
  configured_pools st = declared_pools st.
Proof.
  unfold configured_pools, declared_pools.
  destruct (maas_config st) as [cfg|]; simpl; [|done].
  by destruct (cfg !! "POOLS") as [[|c names]|].
Qed.

Lemma mode_is_any (request : MachineProvisionRequest) :
  String.eqb (or_else (tag_match_mode request) "all") "any" = true
  <-> tag_match_mode request = Some "any".
Proof.
  destruct (tag_match_mode request) as [[|c mode]|]; cbn [or_else truthy].
  - done.
  - rewrite String.eqb_eq. split; [by intros -> | by intros [= -> ->]].
  - done.
Qed.

(** The four filters of the code accept a machine exactly when it is
    eligible. *)
Lemma filters_eligible (st : AppState) (request : MachineProvisionRequest)
    (m : Machine) :
  mem (machine_pool m) (configured_pools st)
  && (if truthy_opt (pool request)
      then String.eqb (machine_pool m) (default "" (pool request))
      else true)
  && tag_match (or_else (tag_match_mode request) "all")
       (default [] (tags request)) m
  && is_ready m
  = eligible st request m.
Proof.
  unfold eligible.
  match goal with |- ?b = _ => assert (Hiff : b = true <-> Eligible st request m) end.
  { unfold Eligible. rewrite !andb_true_iff, mem_spec, <- list_elem_of_In.
    rewrite machine_pool_of, configured_pools_declared.
    change (default [] (tags request)) with (wanted_tags request).
    assert (Hpool :
      (if truthy_opt (pool request)
       then String.eqb (pool_of m) (default "" (pool request))
       else true) = true
      <-> match pool request with
          | Some (String c p) => pool_of m = String c p
          | _ => True
          end).
    { destruct (pool request) as [[|c p]|]; simpl; try done.
      by rewrite String.eqb_eq. }
    assert (Htags :
      tag_match (or_else (tag_match_mode request) "all")
        (wanted_tags request) m = true
      <-> if decide (tag_match_mode request = Some "any")
          then Exists (fun t => t ∈ tag_names m) (wanted_tags request)
          else Forall (fun t => t ∈ tag_names m) (wanted_tags request)).
    { unfold tag_match. pose proof (mode_is_any request) as Hmode.
      destruct (decide (tag_match_mode request = Some "any")) as [Ha|Ha].
      - apply Hmode in Ha. rewrite Ha. apply any_tag_spec.
      - destruct (String.eqb _ "any"); [by destruct Ha; apply Hmode |].
        apply all_tags_spec. }
    unfold is_ready. rewrite String.eqb_eq, Hpool, Htags. tauto. }
  destruct (_ && _).
  - symmetry. apply bool_decide_eq_true_2. by apply Hiff.
  - symmetry. apply bool_decide_eq_false_2. intros HE. apply Hiff in HE.
    discriminate.
Qed.

Lemma ready_machines_eligible (request : MachineProvisionRequest)
    (st : AppState) (fleet : list Machine) :
  ready_machines request st fleet = List.filter (eligible st request) fleet.
Proof.
  rewrite <- (filter_ext _ _ (filters_eligible st request)).
  unfold ready_machines, tagged_machines, available_machines_of,
    pool_filtered_machines.
  destruct (pool request) as [p|]; simpl.
  - destruct (truthy p); rewrite !filter_filter; apply filter_ext; intros m.
    + by rewrite !andb_assoc.
    + by rewrite andb_true_r, !andb_assoc.
  - rewrite !filter_filter. apply filter_ext. intros m.
    by rewrite andb_true_r, !andb_assoc.
Qed.

Lemma validate_count (request : MachineProvisionRequest) (n : Z) :
  auto_mode request = true -> validate request = None ->
  count request = Some n -> (1 <= n)%Z.
Proof.
  unfold validate. intros -> Hv Hc. rewrite Hc in Hv.
  destruct (negb (list_truthy (tags request))); [discriminate |].
  destruct ((n =? 0)%Z || (n <? 1)%Z) eqn:Hn; [discriminate |].
  apply orb_false_iff in Hn as [_ Hn]. lia.
Qed.

(** A request that is rejected leaves the globals as they were: no job
    record is created. *)
Lemma provision_error_no_job (w : World) (st : AppState)
    (request : MachineProvisionRequest) (e : HTTPException) :
  fst (provision_machines w st request) = inl e ->
  snd (provision_machines w st request) = st.
Proof.
  unfold provision_machines. destruct (validate request); [done |].
  destruct (select_machines w st request) as [e'|[ids rv]]; [done |].
  discriminate.
Qed.

(** C5.  For a valid automatic selection over a fetched snapshot, let
    [ready] be the machines of the snapshot, in snapshot order, that are
    in a declared pool, in the pool the request names, carry the wanted
    tags in the requested mode and are Ready.  With fewer of them than
    requested the call fails with the 409 error that carries the
    requested count, the available count, the tags, the pool and, for
    every ready candidate, its identifier, hostname, tags and pool, and
    the globals are unchanged; otherwise a job is created for exactly the
    first [count] of them, and every selected identifier belongs to an
    eligible machine of the snapshot. *)
Theorem C5_auto_selection (w : World) (st : AppState)
    (request : MachineProvisionRequest) (fleet : list Machine) (n : Z) :
  auto_mode request = true ->
  validate request = None ->
  machines_api w = inr fleet ->
  count request = Some n ->
  let ready := List.filter (eligible st request) fleet in
  if (Z.of_nat (length ready) <? n)%Z then
    exists message,
      provision_machines w st request =
        (inl {| status_code := 409;
                detail :=
                  DInsufficient n (Z.of_nat (length ready))
                    (default [] (tags request))
                    (or_else (pool request) "any configured pool")
                    message (map shown ready) |}, st)
  else
    exists resp task st',
      provision_machines w st request = (inr (resp, task), st')
      /\ task_machine_ids task = map system_id (firstn (Z.to_nat n) ready)
      /\ length (task_machine_ids task) = Z.to_nat n
      /\ selected_machines resp = Some (task_machine_ids task)
      /\ machines_to_deploy resp = Z.to_nat n
      /\ (forall sid, In sid (task_machine_ids task) ->
            exists m, In m fleet /\ system_id m = sid
                      /\ Eligible st request m)
      /\ (exists j, provisioning_jobs st' !! job_id resp = Some j
                    /\ status j = pending /\ results j = []
                    /\ config j = task_config task).
Proof.
  intros Hauto Hvalid Hfetch Hcount ready.
  pose proof (validate_count _ _ Hauto Hvalid Hcount) as Hn.
  unfold provision_machines, select_machines, auto_select_machines.
  rewrite Hvalid, Hauto, Hfetch, Hcount, ready_machines_eligible.
  fold ready. simpl default.
  destruct (Z.of_nat (length ready) <? n)%Z eqn:Hlt.
  - eexists. reflexivity.
  - apply Z.ltb_ge in Hlt.
    assert (Hlen : length (map system_id (take_Z n ready)) = Z.to_nat n).
    { unfold take_Z. rewrite length_map, length_firstn. lia. }
    eexists _, _, _. split; [reflexivity |]. simpl.
    repeat split; try done.
    + intros sid Hsid. apply in_map_iff in Hsid as (m & <- & Hm).
      unfold take_Z in Hm. apply list_elem_of_In, subseteq_take in Hm.
      apply list_elem_of_In in Hm.
      apply filter_In in Hm as [Hin Hel].
      apply bool_decide_eq_true in Hel. by exists m.
    + eexists. rewrite lookup_insert_eq. by repeat split.
Qed.

(** The tag re-check of the deploy task is the ANY filter, whatever match
    mode the job configuration carries. *)
Lemma tag_recheck_is_any (config : JobConfig) (t : string) (ts : list string)
    (targets : list Machine) :
  c_tags config = Some (t :: ts) ->
  filter_tags config targets = tagged_machines "any" (t :: ts) targets.
Proof. intros Ht. unfold filter_tags. by rewrite Ht. Qed.
End Selection.
(* ===================================================================== *)
(** * Job orchestration *)
(* ===================================================================== *)

Module Orchestration.
Import Py App PyFacts JobSpec.

(** ** The steps of the task *)

Ltac run :=
  unfold mbind, M_bind, mret, M_ret, mutate, now, post_deploy, get_job in *;
  simpl in *.

Ltac setters :=
  unfold set_status, set_updated_at, set_completed_at, set_machines,
    set_total_machines, set_error, incr_successful, incr_failed,
    append_result in *;
  simpl in *.

Lemma same_counts_refl (j : Job) : same_counts j j.
Proof. by repeat split. Qed.

Lemma same_counts_trans (a b c : Job) :
  same_counts a b -> same_counts b c -> same_counts a c.
Proof.
  unfold same_counts. intros (? & ? & ? & ?) (? & ? & ? & ?).
  repeat split; congruence.
Qed.

Lemma resolution_entries_length (fleet : list Machine) (ids : list string) :
  length (resolution_entries fleet ids)
  = length (List.filter (undeployable fleet) ids).
Proof.
  induction ids as [|sid rest IH]; simpl; [done |].
  unfold undeployable at 1.
  destruct (find_machine fleet sid) as [m|]; simpl.
  - destruct (is_ready m); simpl; by rewrite IH.
  - by rewrite IH.
Qed.

(** The resolution loop returns the present and Ready machines and
    records one entry for each of the others; it touches neither the
    counters, nor the clock, nor the gateway. *)
Lemma resolve_targets_spec (fleet : list Machine) (ids : list string) :
  forall s : Exec,
    (resolve_targets fleet ids s).1 = ready_targets fleet ids
    /\ results (job (resolve_targets fleet ids s).2)
       = results (job s) ++ resolution_entries fleet ids
    /\ same_counts (job s) (job (resolve_targets fleet ids s).2)
    /\ ticks (resolve_targets fleet ids s).2 = ticks s
    /\ calls (resolve_targets fleet ids s).2 = calls s
    /\ exists news,
        seen (resolve_targets fleet ids s).2 = news ++ seen s
        /\ Forall (same_counts (job s)) news.
Proof.
  induction ids as [|sid rest IH]; intros s.
  - simpl. rewrite app_nil_r. repeat split; try done. by exists [].
  - simpl. fold (find_machine fleet sid).
    destruct (find_machine fleet sid) as [m|] eqn:Hfind.
    + unfold is_ready. destruct (String.eqb (status_name m) "Ready"); simpl.
      * run. specialize (IH s).
        destruct (resolve_targets fleet rest s) as [ts s'] eqn:Hr.
        simpl in *. destruct IH as (-> & ? & ? & ? & ? & ?). done.
      * run.
        match goal with
        | |- context [resolve_targets fleet rest ?s1] =>
            specialize (IH s1); destruct (resolve_targets fleet rest s1)
              as [ts s'] eqn:Hr
        end.
        simpl in *. destruct IH as (-> & Hres & Hc & Ht & Hcalls & news & Hs & HF).
        repeat split; try done.
        -- by rewrite Hres, <- app_assoc.
        -- apply Hc.
        -- apply Hc.
        -- apply Hc.
        -- apply Hc.
        -- exists (news ++ [job s]). rewrite <- app_assoc. split; [done |].
           apply Forall_app. split.
           ++ eapply Forall_impl; [exact HF |]. intros j Hj.
              eapply same_counts_trans; [|exact Hj]. by repeat split.
           ++ constructor; [apply same_counts_refl | constructor].
    + run.
      match goal with
      | |- context [resolve_targets fleet rest ?s1] =>
          specialize (IH s1); destruct (resolve_targets fleet rest s1)
            as [ts s'] eqn:Hr
      end.
      simpl in *. destruct IH as (-> & Hres & Hc & Ht & Hcalls & news & Hs & HF).
      repeat split; try done.
      * by rewrite Hres, <- app_assoc.
      * apply Hc.
      * apply Hc.
      * apply Hc.
      * apply Hc.
      * exists (news ++ [job s]). rewrite <- app_assoc. split; [done |].
        apply Forall_app. split.
        -- eapply Forall_impl; [exact HF |]. intros j Hj.
           eapply same_counts_trans; [|exact Hj]. by repeat split.
        -- constructor; [apply same_counts_refl | constructor].
Qed.

Section Run.
Context `{Runtime}.

Lemma rendering_truthy (m : Machine) (ud os : string)
    (c : option Credentials) (t : string) :
  truthy (CloudInit.get_machine_cloud_init m ud os c t) = true.
Proof. reflexivity. Qed.

Lemma deploy_data_for_spec (w : World) (config : JobConfig) (m : Machine)
    (s : Exec) :
  exists k,
    deploy_data_for w config m s
    = (planned_data config m (clock w (ticks s)),
       {| job := job s; seen := seen s; ticks := k; calls := calls s |}).
Proof.
  unfold deploy_data_for, planned_data. run. destruct s as [j sn tk cs].
  destruct (c_user_data config) as [ud|]; [destruct (truthy ud) eqn:Hud |];
    simpl; rewrite ?Hud; eexists; reflexivity.
Qed.

Lemma deploy_one_spec (w : World) (config : JobConfig) (m : Machine)
    (s : Exec) :
  exists c e,
    step_ok w config (length (calls s)) m c e
    /\ calls (deploy_one w config m s).2 = calls s ++ [c]
    /\ seen (deploy_one w config m s).2
       = append_result e (job s) :: job s :: seen s
    /\ ((job (deploy_one w config m s).2
         = incr_successful (append_result e (job s))
         /\ r_status e = deployed)
        \/ (job (deploy_one w config m s).2
            = incr_failed (append_result e (job s))
            /\ r_status e = failed)).
Proof.
  destruct (deploy_data_for_spec w config m s) as [k Hd].
  unfold deploy_one, step_ok. run. rewrite !Hd. simpl.
  set (d := planned_data config m (clock w (ticks s))) in *.
  destruct (deploy_api w (length (calls s)) (system_id m) d)
    as [err|res] eqn:Hapi; simpl.
  - exists (system_id m, d), (failed_entry m err).
    split; [exists (clock w (ticks s)); fold d; by rewrite Hapi |].
    repeat split. by right.
  - exists (system_id m, d),
      (deployed_entry m (c_distro_series config)
         (os_type_of (c_distro_series config)) (clock w k) res).
    split.
    { exists (clock w (ticks s)). fold d. rewrite Hapi.
      split; [done | by eexists]. }
    repeat split. by left.
Qed.

(** The deploy loop makes one call and records one entry for every
    target, in order, and moves one counter at every turn. *)
Lemma deploy_loop_spec (w : World) (config : JobConfig)
    (targets : list Machine) :
  forall s : Exec,
    exists cs es news,
      calls (for_each targets (deploy_one w config) s).2 = calls s ++ cs
      /\ results (job (for_each targets (deploy_one w config) s).2)
         = results (job s) ++ es
      /\ length cs = length targets /\ length es = length targets
      /\ (forall i m, targets !! i = Some m ->
            exists c e, cs !! i = Some c /\ es !! i = Some e
                        /\ step_ok w config (length (calls s) + i) m c e)
      /\ total_machines (job (for_each targets (deploy_one w config) s).2)
         = total_machines (job s)
      /\ status (job (for_each targets (deploy_one w config) s).2)
         = status (job s)
      /\ successful_deployments
           (job (for_each targets (deploy_one w config) s).2)
         = successful_deployments (job s) + count_outcome deployed es
      /\ failed_deployments
           (job (for_each targets (deploy_one w config) s).2)
         = failed_deployments (job s) + count_outcome failed es
      /\ count_outcome deployed es + count_outcome failed es
         = length targets
      /\ seen (for_each targets (deploy_one w config) s).2 = news ++ seen s
      /\ Forall (fun j =>
                   total_machines j = total_machines (job s)
                   /\ successful_deployments j + failed_deployments j
                      <= successful_deployments (job s)
                         + failed_deployments (job s) + length targets)
           news.
Proof.
  induction targets as [|m rest IH]; intros s.
  - exists [], [], []. simpl. rewrite !app_nil_r.
    unfold count_outcome. simpl. repeat split; try done; try lia.
  - cbn [for_each]. unfold mbind, M_bind.
    destruct (deploy_one_spec w config m s)
      as (c & e & Hstep & Hcalls & Hseen & Hjob).
    destruct (deploy_one w config m s) as [[] s1] eqn:Hs1. simpl in *.
    destruct (IH s1)
      as (cs & es & news & Hc & Hr & Hlc & Hle & Hidx & Ht & Hst & Hsu
          & Hfa & Hcnt & Hsn & HF).
    set (s' := (for_each rest (deploy_one w config) s1).2) in *.
    assert (Hlen1 : length (calls s1) = S (length (calls s)))
      by (rewrite Hcalls, length_app; simpl; lia).
    assert (Hbase :
      total_machines (job s1) = total_machines (job s)
      /\ status (job s1) = status (job s)
      /\ results (job s1) = results (job s) ++ [e]
      /\ successful_deployments (job s1)
         = successful_deployments (job s) + count_outcome deployed [e]
      /\ failed_deployments (job s1)
         = failed_deployments (job s) + count_outcome failed [e]
      /\ count_outcome deployed [e] + count_outcome failed [e] = 1).
    { unfold count_outcome.
      destruct Hjob as [[-> He] | [-> He]]; simpl; rewrite He; simpl;
        repeat split; lia. }
    destruct Hbase as (Hb1 & Hb2 & Hb3 & Hb4 & Hb5 & Hb6).
    assert (Happ : forall o, count_outcome o (e :: es)
                             = count_outcome o [e] + count_outcome o es).
    { intros o. unfold count_outcome. simpl.
      destruct (bool_decide (r_status e = o)); simpl; lia. }
    exists (c :: cs), (e :: es), (news ++ [append_result e (job s); job s]).
    repeat split.
    + rewrite Hc, Hcalls, <- app_assoc. done.
    + rewrite Hr, Hb3, <- app_assoc. done.
    + simpl. lia.
    + simpl. lia.
    + intros [|i] m' Hm'; simpl in Hm'.
      * injection Hm' as <-. exists c, e. rewrite Nat.add_0_r. done.
      * destruct (Hidx i m' Hm') as (c' & e' & ? & ? & Hs).
        exists c', e'. repeat split; try done.
        rewrite Hlen1 in Hs.
        by replace (length (calls s) + S i) with (S (length (calls s)) + i)
          by lia.
    + congruence.
    + congruence.
    + rewrite Hsu, Hb4, (Happ deployed). lia.
    + rewrite Hfa, Hb5, (Happ failed). lia.
    + rewrite (Happ deployed), (Happ failed). simpl. lia.
    + rewrite Hsn, Hseen, <- app_assoc. done.
    + apply Forall_app. split.
      * eapply Forall_impl; [exact HF |]. intros j [Hj1 Hj2].
        split; [congruence |]. simpl. lia.
      * constructor; [simpl; split; [done | lia] |].
        constructor; [simpl; split; [done | lia] | constructor].
Qed.
End Run.

Section Job.
Context `{Runtime}.

(** The whole task, when the snapshot is fetched. *)
Lemma run_job_fetched (w : World) (ids : list string) (config : JobConfig)
    (fleet : list Machine) (s0 : Exec) :
  machines_api w = inr fleet ->
  exists cs es,
    calls (run_job w ids config s0).2 = calls s0 ++ cs
    /\ results (job (run_job w ids config s0).2)
       = results (job s0) ++ resolution_entries fleet ids ++ es
    /\ length cs
       = length (post_selection_filters config (ready_targets fleet ids))
    /\ length es
       = length (post_selection_filters config (ready_targets fleet ids))
    /\ (forall i m,
          post_selection_filters config (ready_targets fleet ids) !! i
          = Some m ->
          exists c e, cs !! i = Some c /\ es !! i = Some e
                      /\ step_ok w config (length (calls s0) + i) m c e)
    /\ total_machines (job (run_job w ids config s0).2)
       = length (post_selection_filters config (ready_targets fleet ids))
    /\ successful_deployments (job (run_job w ids config s0).2)
       = successful_deployments (job s0) + count_outcome deployed es
    /\ failed_deployments (job (run_job w ids config s0).2)
       = failed_deployments (job s0) + count_outcome failed es
    /\ count_outcome deployed es + count_outcome failed es
       = length (post_selection_filters config (ready_targets fleet ids))
    /\ status (job (run_job w ids config s0).2)
       = (if (failed_deployments (job (run_job w ids config s0).2) =? 0)%nat
          then completed else completed_with_errors)
    /\ (successful_deployments (job s0) = 0 ->
        failed_deployments (job s0) = 0 ->
        Forall within_total (seen s0) ->
        Forall within_total
          (job (run_job w ids config s0).2
           :: seen (run_job w ids config s0).2)).
Proof.
  intros Hfetch. unfold run_job. rewrite Hfetch. run.
  match goal with
  | |- context [resolve_targets fleet ids ?s] => set (s1 := s)
  end.
  destruct (resolve_targets_spec fleet ids s1)
    as (Htargets & Hres2 & Hcnt2 & _ & Hcalls2 & news2 & Hseen2 & HF2).
  destruct (resolve_targets fleet ids s1) as [targets0 s2] eqn:Hr.
  simpl in *. subst targets0.
  set (targets := post_selection_filters config (ready_targets fleet ids))
    in *.
  match goal with
  | |- context [for_each targets (deploy_one w config) ?s] => set (s3 := s)
  end.
  destruct (deploy_loop_spec w config targets s3)
    as (cs & es & news & Hc & Hr4 & Hlc & Hle & Hidx & Ht & Hst & Hsu
        & Hfa & Hcount & Hsn & HF4).
  destruct (for_each targets (deploy_one w config) s3) as [[] s4] eqn:Hloop.
  simpl in *. destruct Hcnt2 as (Ht2 & Hs2 & Hf2 & Hst2).
  clear s1 Hr s3 Hloop. setters.
  exists cs, es. repeat split.
  - by rewrite Hc, Hcalls2.
  - by rewrite Hr4, Hres2, <- app_assoc.
  - done.
  - done.
  - intros i m Hm. destruct (Hidx i m Hm) as (c & e & ? & ? & Hs).
    exists c, e. by rewrite Hcalls2 in Hs.
  - done.
  - by rewrite Hsu, Hs2.
  - by rewrite Hfa, Hf2.
  - done.
  - intros Hz Hz' Hseen0.
    assert (Hsum : successful_deployments (job s4)
                   + failed_deployments (job s4) = length targets)
      by (rewrite Hsu, Hfa, Hs2, Hf2, Hz, Hz'; lia).
    assert (Hfin : within_total (job s4))
      by (unfold within_total; rewrite Ht; lia).
    repeat (constructor; [exact Hfin |]).
    rewrite Hsn. apply Forall_app. split.
    + eapply Forall_impl; [exact HF4 |]. intros j [Hj1 Hj2].
      unfold within_total. rewrite Hj1.
      rewrite Hs2, Hf2, Hz, Hz' in Hj2. lia.
    + assert (Hzero : forall j,
                successful_deployments j = successful_deployments (job s0) ->
                failed_deployments j = failed_deployments (job s0) ->
                within_total j).
      { intros j Hb Hd. unfold within_total. rewrite Hb, Hd. lia. }
      constructor; [unfold within_total; simpl; rewrite Hs2, Hf2; lia |].
      constructor; [by apply Hzero |].
      rewrite Hseen2. apply Forall_app. split.
      * eapply Forall_impl; [exact HF2 |].
        intros j (_ & Hb & Hd & _). by apply Hzero.
      * repeat (constructor; [by apply Hzero |]). exact Hseen0.
Qed.

End Job.

(** ** Counting result entries *)



Lemma resolution_entries_not_deployed (fleet : list Machine)
    (ids : list string) :
  count_outcome deployed (resolution_entries fleet ids) = 0.
Proof.
  unfold count_outcome. induction ids as [|sid rest IH]; simpl; [done |].
  destruct (find_machine fleet sid) as [m|]; simpl; [|done].
  destruct (is_ready m); simpl; done.
Qed.

Lemma fresh_inv (j : Job) :
  fresh j = true ->
  total_machines j = 0 /\ successful_deployments j = 0
  /\ failed_deployments j = 0 /\ results j = [].
Proof.
  unfold fresh. rewrite !andb_true_iff, !Nat.eqb_eq.
  intros [[[? ?] ?] Hr]. destruct (results j); [done | discriminate].
Qed.

Section Claims.
Context `{Runtime}.


(** C9, as the code has it.  The machines handed to the deploy loop are
    the requested ones that are present and Ready and pass the tag, pool
    and count filters of the job configuration.  For each of them, in
    order, one deploy call is made and one entry recorded: the call
    carries the rendered configuration when the job configuration has a
    user snippet that is not empty, and no configuration otherwise; on
    success the entry is deployed with the distribution, the OS family
    and a timestamp, on an error it is failed with the error text, and
    the loop goes on. *)
Theorem C9_deploy_each_target (w : World) (st : AppState)
    (job_id : string) (ids : list string) (config : JobConfig)
    (job0 : Job) (fleet : list Machine) :
  provisioning_jobs st !! job_id = Some job0 ->
  machines_api w = inr fleet ->
  exists j es,
    final_job (deploy_machines w st job_id ids config) job_id = Some j
    /\ results j = results job0 ++ resolution_entries fleet ids ++ es
    /\ length (deploy_calls (deploy_machines w st job_id ids config))
       = length (post_selection_filters config (ready_targets fleet ids))
    /\ length es
       = length (post_selection_filters config (ready_targets fleet ids))
    /\ forall i m,
        post_selection_filters config (ready_targets fleet ids) !! i
        = Some m ->
        exists c e,
          deploy_calls (deploy_machines w st job_id ids config) !! i
          = Some c
          /\ es !! i = Some e
          /\ step_ok w config i m c e.
Proof.
  intros Hjob Hfetch. unfold deploy_machines, final_job. rewrite Hjob.
  cbn [deploy_calls final_state provisioning_jobs].
  rewrite lookup_insert_eq.
  set (s0 := {| job := job0; seen := []; ticks := 0; calls := [] |}).
  destruct (run_job_fetched w ids config fleet s0 Hfetch)
    as (cs & es & Hc & Hres & Hlc & Hle & Hidx & _).
  cbn [job calls s0] in *. simpl in Hc, Hidx.
  eexists _, es. split; [done |]. rewrite Hc. repeat split; try done.
Qed.
End Claims.
End Orchestration.
(* ===================================================================== *)
(** * Configuration generation *)
(* ===================================================================== *)

Module Generation.
Import Py CloudInit PyFacts GenerationSpec.

(** ** The user snippet *)

Lemma safe_line_spec (line : string) : safe_line line = true <-> safe line.
Proof.
  unfold safe_line, safe, startswith, occurs.
  rewrite !andb_true_iff, !negb_true_iff, prefix_spec.
  rewrite <- !not_true_iff_false, !contains_spec. tauto.
Qed.

Lemma lstrip_all_space (s : string) : all_space s = true -> lstrip s = "".
Proof.
  induction s as [|c s IH]; simpl; [done |].
  intros Hs. apply andb_true_iff in Hs as [Hc Hs]. rewrite Hc. by apply IH.
Qed.

Lemma lstrip_cases (s : string) :
  (lstrip s = "" /\ all_space s = true)
  \/ exists c r, lstrip s = String c r /\ is_space c = false.
Proof.
  induction s as [|c s IH]; simpl; [by left |].
  destruct (is_space c) eqn:Hc; simpl; [done |]. right. by exists c, s.
Qed.

Lemma rstrip_nil (s : string) : rstrip s = "" -> all_space s = true.
Proof.
  induction s as [|c s IH]; simpl; [done |].
  destruct (rstrip s) as [|d r]; [|discriminate].
  destruct (is_space c); [|discriminate]. intros _. by apply IH.
Qed.

Lemma strip_nil (s : string) : strip s = "" <-> all_space s = true.
Proof.
  unfold strip. split.
  - intros Hs. apply rstrip_nil in Hs.
    destruct (lstrip_cases s) as [[_ Ha] | (c & r & Hl & Hc)]; [done |].
    rewrite Hl in Hs. simpl in Hs. by rewrite Hc in Hs.
  - intros Hs. by rewrite (lstrip_all_space s Hs).
Qed.

Lemma split_on_all_space (sep : ascii) (s : string) :
  all_space s = true -> Forall (fun l => all_space l = true) (split_on sep s).
Proof.
  induction s as [|c s IH]; simpl.
  - intros _. by repeat constructor.
  - intros Hs. apply andb_true_iff in Hs as [Hc Hs]. specialize (IH Hs).
    destruct (Ascii.eqb c sep); [by constructor |].
    destruct (split_on sep s) as [|h t].
    { constructor; [|constructor]. simpl. by rewrite Hc. }
    inversion IH as [|? ? Hh Ht]; subst. constructor; [|done].
    simpl. by rewrite Hc.
Qed.

(** A snippet of white space only has no lines to take. *)
Lemma user_lines_blank (user_config : string) :
  truthy (strip user_config) = false -> user_lines user_config = [].
Proof.
  intros Hs. assert (Ha : all_space user_config = true).
  { apply strip_nil. by destruct (strip user_config). }
  unfold user_lines.
  pose proof (split_on_all_space nl_char user_config Ha) as HF.
  induction HF as [|l ls Hl _ IH]; simpl; [done |].
  apply strip_nil in Hl. by rewrite Hl.
Qed.

(** ** The lines of a text *)

Lemma split_on_single (l : string) :
  single_line l = true -> split_on nl_char l = [l].
Proof.
  induction l as [|c l IH]; simpl; [done |].
  intros Hl. apply andb_true_iff in Hl as [Hc Hl].
  apply negb_true_iff in Hc. rewrite Hc. by rewrite (IH Hl).
Qed.

Lemma split_on_line (l rest : string) :
  single_line l = true ->
  split_on nl_char (l +:+ String nl_char rest) = l :: split_on nl_char rest.
Proof.
  induction l as [|c l IH]; intros Hl.
  - by rewrite append_nil_l.
  - simpl in Hl. apply andb_true_iff in Hl as [Hc Hl].
    apply negb_true_iff in Hc. rewrite append_cons. simpl.
    by rewrite Hc, (IH Hl).
Qed.

Lemma text_of_cons (l l' : string) (ls : list string) :
  text_of (l :: l' :: ls) = l +:+ String nl_char (text_of (l' :: ls)).
Proof. reflexivity. Qed.

(** A text has exactly the lines it is made of. *)
Lemma split_on_text (ls : list string) :
  ls <> [] -> forallb single_line ls = true ->
  split_on nl_char (text_of ls) = ls.
Proof.
  induction ls as [|l ls IH]; [done |]. intros _ Hs.
  cbn [forallb] in Hs. apply andb_true_iff in Hs as [Hl Hls].
  destruct ls as [|l' ls'].
  - by apply split_on_single.
  - rewrite text_of_cons, (split_on_line _ _ Hl). by rewrite IH.
Qed.

(** Every text is made of its lines. *)
Lemma text_of_split_on (text : string) :
  forallb single_line (split_on nl_char text) = true
  /\ text_of (split_on nl_char text) = text.
Proof.
  induction text as [|c text [IH1 IH2]]; [done |]. simpl.
  destruct (Ascii.eqb c nl_char) eqn:Hc.
  - apply Ascii.eqb_eq in Hc. subst c. split; [done |].
    destruct (split_on nl_char text) as [|h t] eqn:Hs; [by destruct text |].
    rewrite text_of_cons, append_nil_l. by rewrite IH2.
  - destruct (split_on nl_char text) as [|h t] eqn:Hs; [by destruct text |].
    cbn [forallb] in *. apply andb_true_iff in IH1 as [Hh Ht]. split.
    + simpl. by rewrite Hc, Hh, Ht.
    + destruct t as [|h' t'].
      * change (h = text) in IH2. by subst text.
      * rewrite text_of_cons, append_cons. rewrite text_of_cons in IH2.
        by rewrite IH2.
Qed.

Lemma user_lines_text (ls : list string) :
  forallb single_line ls = true ->
  user_lines (text_of ls) = List.filter truthy (map strip ls).
Proof.
  intros Hs. unfold user_lines. destruct ls as [|l ls]; [done |].
  by rewrite split_on_text.
Qed.

(** C8, as the code has it.  For a snippet given by its lines, the merge
    appends after all base and enhancement commands the header comment
    followed, in the order of the snippet, by every line that, stripped,
    is not empty, is a list item and holds no logging or service-control
    token, each without its list-item prefix; when no line qualifies
    nothing is appended.  Every other line of the snippet is dropped, and
    no comment stands for it. *)
Theorem C8_user_commands_appended (base_config : Config)
    (enhancements : Enhancements) (user_config : string)
    (ls : list string) :
  forallb single_line ls = true ->
  user_config = text_of ls ->
  runcmd (merge_configurations base_config enhancements user_config)
  = runcmd base_config ++ enh_runcmd enhancements
    ++ match taken ls with
       | [] => []
       | kept => "# User-provided commands:" :: map (drop_str 2) kept
       end
  /\ (forall line,
        In line (taken ls)
        <-> (exists raw, In raw ls /\ line = strip raw)
            /\ line <> "" /\ safe line)
  /\ Forall (fun line => line = "- " +:+ drop_str 2 line) (taken ls).
Proof.
  intros Hs ->.
  assert (Hsafe : forall line, In line (taken ls) -> safe_line line = true).
  { intros line Hl. unfold taken in Hl. by apply filter_In in Hl as [_ Hl]. }
  assert (Hdrop : forall line,
            In line (taken ls) ->
            line = "- " +:+ drop_str 2 line
            /\ replace_first "- " "" line = drop_str 2 line).
  { intros line Hl. apply Hsafe, safe_line_spec in Hl as [[cmd ->] _].
    rewrite replace_first_prefix by done. split; reflexivity. }
  split; [|split].
  - unfold merge_configurations. cbn [runcmd]. do 2 f_equal.
    unfold user_segment, user_commands. rewrite (user_lines_text ls Hs).
    change (List.filter safe_line (List.filter truthy (map strip ls)))
      with (taken ls).
    destruct (truthy (strip (text_of ls))) eqn:Ht.
    + destruct (taken ls) as [|l kept] eqn:Hk; [done |]. f_equal.
      apply map_ext_in. intros line Hl. by apply Hdrop.
    + apply user_lines_blank in Ht. rewrite (user_lines_text ls Hs) in Ht.
      unfold taken. by rewrite Ht.
  - intros line. unfold taken.
    rewrite !filter_In, in_map_iff, safe_line_spec.
    split.
    + intros [[(raw & <- & Hraw) Ht] Hl]. split; [by exists raw |].
      split; [|done]. by destruct (strip raw).
    + intros [(raw & Hraw & ->) [Hne Hl]]. split; [|done].
      split; [by exists raw |]. by destruct (strip raw).
  - apply Forall_forall. intros line Hl. by apply Hdrop, list_elem_of_In.
Qed.

(** ** Renderings without credentials *)





End Generation.
(* ===================================================================== *)
(** * The batch flow and the generator together *)
(* ===================================================================== *)

Module Batch.
Import Py PyFacts JobSpec Orchestration.

Section Claims.
Context `{Runtime}.



(** The display text of a single machine is the deploy text with every
    occurrence of [plain_text_passwd: <password>] replaced, and nothing
    else changed. *)
Lemma display_is_replacement (machine : Machine)
    (user_config os_type : string) (c : Credentials)
    (clock : nat -> string) :
  CloudInit.dict_truthy c = true -> truthy_opt (password c) = true ->
  CloudInit.g_displayConfig
    (CloudInit.generate_cloud_init [machine] user_config os_type (Some c)
       clock)
  = replace ("plain_text_passwd: " +:+ default "None" (password c))
      "plain_text_passwd: '[HIDDEN]'"
      (CloudInit.g_config
         (CloudInit.generate_cloud_init [machine] user_config os_type
            (Some c) clock)).
Proof.
  intros Hd Hp. unfold CloudInit.generate_cloud_init.
  cbn [CloudInit.g_displayConfig CloudInit.g_config].
  by rewrite Hd, Hp.
Qed.

(** For the RHEL family the document serialized for a credential holds
    the password in two account-creation commands as well. *)
Lemma rocky_commands_hold_password (machine : Machine)
    (user_config os_type u p : string) (c : Credentials) :
  CloudInit.is_rocky_os os_type = true ->
  CloudInit.has_user_commands (Some c) = true ->
  username c = Some u -> password c = Some p ->
  In ("  echo " +:+ dq +:+ u +:+ ":" +:+ p +:+ dq
      +:+ " | chpasswd 2>&1 | tee -a /var/log/cloud-init-userdata.log")
    (CloudInit.runcmd
       (CloudInit.final_config_of machine user_config os_type (Some c))).
Proof.
  intros Hr Hc Hu Hp. unfold CloudInit.final_config_of.
  cbn [CloudInit.runcmd]. apply in_or_app. right. apply in_or_app. left.
  unfold CloudInit.merge_configurations, CloudInit.generate_base_cloud_init.
  cbn [CloudInit.runcmd]. rewrite Hr. apply in_or_app. left.
  apply in_or_app. right. unfold CloudInit.user_specific_commands.
  rewrite Hc. cbn [mbind option_bind]. rewrite Hu, Hp.
  unfold CloudInit.rocky_user_commands, CloudInit.str_opt. cbn [default].
  do 28 right. by left.
Qed.
End Claims.
End Batch.

(* ===================================================================== *)
(** * Concrete runs *)
(* ===================================================================== *)

Module Examples.
Import Py App Sample.

(** ** Witnesses *)

Lemma C5_auto_selection_witness :
  exists resp task st',
    provision_machines (world accept_all fleet) empty_globals
      (automatic ["gpu"] None 2) = (inr (resp, task), st')
    /\ task_machine_ids task = ["a1"; "c3"]
    /\ length (task_machine_ids task) = 2.
Proof.
  pose proof (Selection.C5_auto_selection (world accept_all fleet)
                empty_globals (automatic ["gpu"] None 2) fleet 2
                eq_refl eq_refl eq_refl eq_refl) as Hsel.
  cbv zeta in Hsel.
  change (Z.of_nat _ <? 2)%Z with false in Hsel. cbv iota in Hsel.
  destruct Hsel as (resp & task & st' & Hp & Hids & Hlen & _).
  exists resp, task, st'. split; [exact Hp |]. split; [exact Hids |].
  exact Hlen.
Defined.

Lemma C6_all_within_any_witness :
  In (machine "c3" "Ready" ["gpu"; "nvme_core"])
    (tagged_machines "any" ["gpu"; "nvme_core"] fleet).
Proof.
  apply (proj2 (proj2
           (Selection.C6_all_within_any
              (automatic ["gpu"; "nvme_core"] (Some "all") 1) fleet
              eq_refl eq_refl)) "all").
  vm_compute. right. left. reflexivity.
Defined.

Lemma C8_user_commands_appended_witness :
  CloudInit.runcmd
    (CloudInit.merge_configurations
       (CloudInit.generate_base_cloud_init "ubuntu" None)
       (CloudInit.generate_tag_based_enhancements ["nvme_core"] "ubuntu")
       (GenerationSpec.text_of
          ["- apt-get install -y jq"; "echo hello"; "   - ls -la /opt  ";
           ""; "- systemctl restart lldpd"]))
  = CloudInit.runcmd (CloudInit.generate_base_cloud_init "ubuntu" None)
    ++ CloudInit.enh_runcmd
         (CloudInit.generate_tag_based_enhancements ["nvme_core"] "ubuntu")
    ++ ["# User-provided commands:"; "apt-get install -y jq";
        "ls -la /opt"].
Proof.
  apply (Generation.C8_user_commands_appended
           (CloudInit.generate_base_cloud_init "ubuntu" None)
           (CloudInit.generate_tag_based_enhancements ["nvme_core"] "ubuntu")
           _
           ["- apt-get install -y jq"; "echo hello"; "   - ls -la /opt  ";
            ""; "- systemctl restart lldpd"]); reflexivity.
Defined.


Lemma C9_deploy_each_target_witness :
  exists j es,
    final_job (run (world refuse_c3 fleet) (manual ["a1"; "c3"] (Some "- ls"))
                 ["a1"; "c3"]) "job-1" = Some j
    /\ results j
       = [] ++ JobSpec.resolution_entries fleet ["a1"; "c3"] ++ es
    /\ length es = 2.
Proof.
  destruct (Orchestration.C9_deploy_each_target (H := BlockYaml.runtime)
              (world refuse_c3 fleet)
              (globals (manual ["a1"; "c3"] (Some "- ls"))) "job-1"
              ["a1"; "c3"]
              (config (new_job "job-1" "" "" None
                         (manual ["a1"; "c3"] (Some "- ls"))))
              (new_job "job-1" "2024-05-01T09:59:58" "2024-05-01T09:59:59"
                 None (manual ["a1"; "c3"] (Some "- ls")))
              fleet eq_refl eq_refl)
    as (j & es & Hj & Hres & _ & Hlen & _).
  exists j, es. split; [exact Hj |]. split; [exact Hres |]. exact Hlen.
Defined.

(** ** Counterexamples *)


(** C8 as stated fails: a snippet line that is not a list item is dropped
    and nothing is put in its place. *)
Lemma C8_counterexample :
  strip "rm -rf /tmp/scratch" = "rm -rf /tmp/scratch"
  /\ ~ GenerationSpec.safe "rm -rf /tmp/scratch"
  /\ forall base_config enhancements,
      CloudInit.runcmd
        (CloudInit.merge_configurations base_config enhancements
           "rm -rf /tmp/scratch")
      = CloudInit.runcmd base_config ++ CloudInit.enh_runcmd enhancements.
Proof.
  split; [reflexivity |]. split; [by intros [[cmd Hcmd] _] |].
  intros base_config enhancements.
  unfold CloudInit.merge_configurations. cbn [CloudInit.runcmd].
  change (CloudInit.user_segment "rm -rf /tmp/scratch") with (@nil string).
  by rewrite app_nil_r.
Qed.

(** C9 as stated fails: without a user snippet in the job configuration
    the generator is not called and the deploy call of a present, Ready
    machine carries no configuration. *)
Lemma C9_counterexample :
  JobSpec.ready_targets fleet ["a1"] = [machine "a1" "Ready" ["gpu"]]
  /\ deploy_calls (run (world accept_all fleet) (manual ["a1"] None) ["a1"])
     = [("a1", {| op := "deploy"; dd_distro_series := "jammy";
                  dd_user_data := None |})].
Proof. split; vm_compute; reflexivity. Qed.


(** ** Runs on which the code departs from its own intent *)

(** C4: a snapshot in which one record has no hostname.  The token [a1]
    is the system identifier of a machine of the snapshot, which the claim
    resolves to itself; the code raises on the record without hostname
    while it builds its tables, and the request fails with a 500 error. *)
Theorem C4_missing_hostname_fails_resolution :
  let snapshot := [machine "a1" "Ready" ["gpu"]; nameless] in
  SelectionSpec.resolves_to snapshot "a1" "a1"
  /\ hostname nameless = None
  /\ resolve_machine_identifiers (world accept_all snapshot) ["a1"]
     = inl {| status_code := 500;
              detail := DErrorDetails "Failed to resolve machine identifiers"
                          "'hostname'" |}
  /\ provision_machines (world accept_all snapshot) empty_globals
       (manual ["a1"] None)
     = (inl {| status_code := 500;
               detail := DErrorDetails "Failed to resolve machine identifiers"
                           "'hostname'" |}, empty_globals).
Proof.
  split; [|by repeat split].
  left. split; [|done]. eexists. split; [by left | done].
Qed.

(** C2: a requested machine missing from the snapshot is recorded with
    outcome failed, but [failed_deployments] is not raised for it and the
    job ends completed. *)
Theorem C2_missing_machine_ends_completed :
  exists j,
    final_job (run (world accept_all fleet) (manual ["ghost"; "a1"] None)
                 ["ghost"; "a1"]) "job-1" = Some j
    /\ map r_status (results j) = [failed; deployed]
    /\ map reason (results j) = [Some "Machine not found"; None]
    /\ failed_deployments j = 0
    /\ status j = completed.
Proof. eexists. split; [vm_compute; reflexivity |]. by repeat split. Qed.

(** C7: with tags [gpu, nvme_core] and match mode all, the selection
    predicate rejects a machine tagged [gpu] only, while the re-check at
    execution time keeps it and the machine is deployed. *)
Theorem C7_tag_recheck_ignores_match_mode :
  let request := manual_tagged ["a1"] ["gpu"; "nvme_core"] in
  let cfg := config (new_job "job-1" "" "" None request) in
  c_tag_match_mode cfg = Some "all"
  /\ tag_match "all" ["gpu"; "nvme_core"] (machine "a1" "Ready" ["gpu"])
     = false
  /\ post_selection_filters cfg [machine "a1" "Ready" ["gpu"]]
     = [machine "a1" "Ready" ["gpu"]]
  /\ exists j,
      final_job (run (world accept_all fleet) request ["a1"]) "job-1"
      = Some j
      /\ map r_status (results j) = [deployed].
Proof.
  repeat split. eexists. split; [vm_compute; reflexivity |]. done.
Qed.

(** C3: for a RHEL-family machine the display text is the deploy text
    with [plain_text_passwd: hunter2] replaced, and still shows the
    password in the account-creation commands. *)
Theorem C3_display_keeps_password_in_commands :
  let g := CloudInit.generate_cloud_init (H := BlockYaml.runtime)
             [machine "a1" "Ready" ["gpu"]] "" "rocky" (Some credential)
             (fun _ => "2024-05-01T10:00:00") in
  CloudInit.g_displayConfig g
  = replace "plain_text_passwd: hunter2" "plain_text_passwd: '[HIDDEN]'"
      (CloudInit.g_config g)
  /\ contains "plain_text_passwd: hunter2" (CloudInit.g_displayConfig g)
     = false
  /\ contains "plain_text_passwd: '[HIDDEN]'" (CloudInit.g_displayConfig g)
     = true
  /\ contains "ops:hunter2" (CloudInit.g_displayConfig g) = true.
Proof. repeat split; vm_compute; reflexivity. Qed.
End Examples.

(* ===================================================================== *)
(** * Submission, job identifiers and the read endpoints *)
(* ===================================================================== *)

Module Submission.
Import Py App PyFacts SelectionSpec ExtraSpec Endpoints.

(** ** Resolution *)

Lemma resolve_loop_ids (H I : gmap string string) (l : list string) :
  Forall (fun r => is_Some (I !! r)) l -> resolve_loop H I l = (l, []).
Proof.
  induction 1 as [|r l [h Hr] _ IH]; simpl; [done |]. by rewrite IH, Hr.
Qed.

Lemma lookup_maps_none (all_machines : list Machine)
    (h0 i0 : gmap string string) :
  forallb (fun m => has_key (hostname m)) all_machines = false ->
  lookup_maps all_machines h0 i0 = None.
Proof.
  revert h0 i0. induction all_machines as [|m l IH]; intros h0 i0 Hall;
    simpl in *; [discriminate |].
  destruct (hostname m) as [h|]; [|done]. simpl in Hall. by apply IH.
Qed.

(** X1.  The identifiers a successful resolution returns are system
    identifiers of the snapshot, one for every token, and resolving them
    again returns them unchanged. *)
Theorem resolution_is_idempotent (w : World) (fleet : list Machine)
    (identifiers resolved : list string) :
  machines_api w = inr fleet ->
  resolve_machine_identifiers w identifiers = inr resolved ->
  length resolved = length identifiers
  /\ Forall (is_system_id fleet) resolved
  /\ resolve_machine_identifiers w resolved = inr resolved.
Proof.
  intros Hfetch. unfold resolve_machine_identifiers. rewrite Hfetch.
  destruct (lookup_maps fleet ∅ ∅) as [[H I]|] eqn:Hlm; [|discriminate].
  destruct (Selection.lookup_maps_inv _ _ _ _ _ Hlm) as (HI & HH & HV).
  destruct (resolve_loop H I identifiers) as [res unres] eqn:Hloop.
  destruct (Selection.resolve_loop_spec _ _ _ _ _ Hloop) as [Hu HF].
  destruct unres as [|u us]; [|discriminate]. intros [= <-].
  specialize (HF eq_refl).
  assert (Hids : Forall (fun r => is_Some (I !! r)) res).
  { clear Hloop Hu. induction HF as [|t r ts rs Htr _ IH]; constructor; [|done].
    destruct Htr as [[HS ->] | [_ HS]]; [done |].
    apply HV in HS as [HS | (m & Hm & _ & Hsid)];
      [by rewrite lookup_empty in HS |].
    apply HI. right. by exists m. }
  split; [symmetry; by eapply Forall2_length |]. split.
  - eapply Forall_impl; [exact Hids |]. intros r Hr.
    apply HI in Hr as [Hr | Hr]; [|done].
    rewrite lookup_empty in Hr. by destruct Hr.
  - by rewrite (resolve_loop_ids H I res Hids).
Qed.

(** X2.  When a machine record of the snapshot has no hostname key, the
    resolution fails with the 500 error of the generic handler, whatever
    the tokens are, the empty list included. *)
Theorem resolution_needs_hostnames (w : World) (fleet : list Machine)
    (identifiers : list string) :
  machines_api w = inr fleet ->
  forallb (fun m => has_key (hostname m)) fleet = false ->
  resolve_machine_identifiers w identifiers
  = inl {| status_code := 500;
           detail := DErrorDetails "Failed to resolve machine identifiers"
                       "'hostname'" |}.
Proof.
  intros Hfetch Hh. unfold resolve_machine_identifiers.
  by rewrite Hfetch, (lookup_maps_none fleet ∅ ∅ Hh).
Qed.

(** ** Submission *)

(** X3.  When the gateway raises while a valid request is being served,
    the submission fails and no job is created: an HTTP error of the gateway
    keeps its status and text, any other exception becomes a 500 error that
    names the failed step and carries the exception text. *)
Theorem submission_gateway_failure (w : World) (st : AppState)
    (request : MachineProvisionRequest) (e : GatewayError) :
  validate request = None ->
  machines_api w = inl e ->
  exists err,
    provision_machines w st request = (inl err, st)
    /\ match e with
       | GwHTTP status text _ =>
           err = {| status_code := status; detail := DText text |}
       | GwOther text =>
           err = {| status_code := 500;
                    detail :=
                      DErrorDetails
                        (if auto_mode request
                         then "Failed to auto-select machines"
                         else "Failed to resolve machine identifiers")
                        text |}
       end.
Proof.
  intros Hv Hfetch.
  unfold provision_machines, select_machines, auto_select_machines,
    resolve_machine_identifiers.
  rewrite Hv, Hfetch. destruct (auto_mode request), e; by eexists.
Qed.

(** X4.  After a successful submission the job can be read back under
    the identifier of the response: it is pending, has nothing recorded and
    carries the configuration handed to the background task; the task is
    for that job and for as many machines as the response announces; the
    counter has moved by one and every other job is as before. *)
Theorem submission_then_query (w : World) (st st' : AppState)
    (request : MachineProvisionRequest) (resp : ProvisioningJobResponse)
    (task : Task) :
  provision_machines w st request = (inr (resp, task), st') ->
  (exists j,
     get_provisioning_job st' (job_id resp) = inr j
     /\ j_id j = job_id resp /\ status j = pending /\ results j = []
     /\ total_machines j = 0 /\ successful_deployments j = 0
     /\ failed_deployments j = 0 /\ config j = task_config task)
  /\ task_job_id task = job_id resp
  /\ machines_to_deploy resp = length (task_machine_ids task)
  /\ job_id_counter st' = (job_id_counter st + 1)%Z
  /\ (forall k, k <> job_id resp ->
        provisioning_jobs st' !! k = provisioning_jobs st !! k).
Proof.
  unfold provision_machines. destruct (validate request); [discriminate |].
  destruct (select_machines w st request) as [e|[ids rv]]; [discriminate |].
  intros [= <- <- <-]. cbn [job_id task_job_id machines_to_deploy
    task_machine_ids job_id_counter provisioning_jobs task_config].
  unfold get_provisioning_job. cbn [provisioning_jobs].
  rewrite lookup_insert_eq. repeat split; try done.
  - by eexists.
  - intros k Hk. by rewrite lookup_insert_ne.
Qed.

(** ** Job identifiers *)

Lemma pretty_N_char_digit (x : N) : is_digit (pretty_N_char x) = true.
Proof. unfold pretty_N_char. by repeat case_match. Qed.

Lemma pretty_N_go_digits (x : N) (s : string) :
  digits s = true -> digits (pretty_N_go x s) = true.
Proof.
  revert s. induction (N.lt_wf_0 x) as [x _ IH]; intros s Hs.
  destruct (decide (0 < x)%N) as [Hx|Hx].
  - rewrite pretty_N_go_step by done. apply IH.
    + by apply N.div_lt.
    + simpl. by rewrite pretty_N_char_digit.
  - assert (x = 0%N) as -> by lia. by rewrite pretty_N_go_0.
Qed.

Lemma str_of_Z_digits (n : Z) : (0 <= n)%Z -> digits (str_of_Z n) = true.
Proof.
  intros Hn. unfold str_of_Z, pretty, pretty_Z.
  destruct n as [|x|x]; [done | | lia].
  unfold pretty, pretty_positive, pretty, pretty_N.
  destruct (decide _); [done |]. by apply pretty_N_go_digits.
Qed.

Lemma str_of_Z_inj (a b : Z) : str_of_Z a = str_of_Z b -> a = b.
Proof. unfold str_of_Z. apply (inj pretty). Qed.

(** Two texts of digits joined to what follows by a dash are told apart
    at the dash. *)
Lemma dash_split (a a' b b' : string) :
  digits a = true -> digits a' = true ->
  a +:+ "-" +:+ b = a' +:+ "-" +:+ b' -> a = a' /\ b = b'.
Proof.
  revert a'. induction a as [|c a IH]; intros [|c' a'] Ha Ha' Heq.
  - rewrite !append_nil_l in Heq. by injection Heq.
  - rewrite append_nil_l, append_cons in Heq. injection Heq as <- _.
    simpl in Ha'. discriminate.
  - rewrite append_nil_l, append_cons in Heq. injection Heq as -> _.
    simpl in Ha. discriminate.
  - rewrite !append_cons in Heq. injection Heq as -> Heq.
    simpl in Ha, Ha'. apply andb_true_iff in Ha as [_ Ha].
    apply andb_true_iff in Ha' as [_ Ha'].
    destruct (IH a' Ha Ha' Heq) as [-> ->]. done.
Qed.

Lemma job_name_inj (t c t' c' : Z) :
  (0 <= t)%Z -> (0 <= t')%Z ->
  job_name t c = job_name t' c' -> t = t' /\ c = c'.
Proof.
  intros Ht Ht'. unfold job_name. intros Heq.
  apply (inj (String.app "job-")) in Heq.
  apply dash_split in Heq as [Ha Hb]; try by apply str_of_Z_digits.
  split; by apply str_of_Z_inj.
Qed.

(** X5.  Job identifiers do not collide.  When every job in the store
    was named with a counter below the current one, a successful submission
    at a time that is not negative stores its job under an identifier that
    was free, leaves every stored job as it was, and the store is again
    named below the new counter. *)
Theorem submission_never_overwrites (w : World) (st st' : AppState)
    (request : MachineProvisionRequest) (resp : ProvisioningJobResponse)
    (task : Task) :
  named_below st ->
  (0 <= time_time w)%Z -> (0 <= job_id_counter st)%Z ->
  provision_machines w st request = (inr (resp, task), st') ->
  provisioning_jobs st !! job_id resp = None
  /\ (forall k j, provisioning_jobs st !! k = Some j ->
        provisioning_jobs st' !! k = Some j)
  /\ named_below st'.
Proof.
  intros Hbelow Ht Hc. unfold provision_machines.
  destruct (validate request); [discriminate |].
  destruct (select_machines w st request) as [e|[ids rv]]; [discriminate |].
  intros [= <- <- <-]. cbn [job_id provisioning_jobs].
  fold (job_name (time_time w) (job_id_counter st)).
  assert (Hfree : provisioning_jobs st
                    !! job_name (time_time w) (job_id_counter st) = None).
  { destruct (provisioning_jobs st
                !! job_name (time_time w) (job_id_counter st)) as [j|] eqn:Hj;
      [|done].
    destruct (Hbelow _ (mk_is_Some _ _ Hj)) as (t & c & Ht' & Hc' & Heq).
    apply job_name_inj in Heq as [_ Hcc]; [lia | done..]. }
  split; [done |]. split.
  - intros k j Hk. rewrite lookup_insert_ne; [done |]. intros <-.
    by rewrite Hfree in Hk.
  - intros k. unfold named_below in Hbelow.
    cbn [provisioning_jobs job_id_counter].
    destruct (decide (job_name (time_time w) (job_id_counter st) = k))
      as [<-|Hne].
    + intros _. exists (time_time w), (job_id_counter st). split; [done |].
      split; [lia | done].
    + rewrite lookup_insert_ne by done. intros Hk.
      destruct (Hbelow k Hk) as (t & c & ? & ? & ?). exists t, c.
      split; [done |]. split; [lia | done].
Qed.

(** ** The machine list and the selection *)

(** X6.  Every machine an automatic selection takes is Ready and is one of
    the machines the machine list endpoint shows for the same snapshot and
    globals. *)
Theorem selected_machines_are_listed (w : World) (st : AppState)
    (request : MachineProvisionRequest) (ids : list string)
    (rv : ResourceValidation) :
  auto_select_machines w st request = inr (ids, rv) ->
  exists listed,
    get_machines w st = inr listed
    /\ forall sid, In sid ids ->
         exists m, In m listed /\ system_id m = sid
                   /\ status_name m = "Ready".
Proof.
  unfold auto_select_machines, get_machines.
  destruct (machines_api w) as [e|fleet]; [discriminate |].
  destruct (_ <? _)%Z; [discriminate |]. intros [= <- _].
  eexists. split; [reflexivity |]. intros sid Hsid.
  apply in_map_iff in Hsid as (m & <- & Hm). unfold take_Z in Hm.
  apply list_elem_of_In, subseteq_take, list_elem_of_In in Hm.
  unfold ready_machines in Hm. apply filter_In in Hm as [Hm Hready].
  unfold tagged_machines in Hm. apply filter_In in Hm as [Hm _].
  exists m. split; [|split; [done | by apply String.eqb_eq]].
  unfold available_machines_of in Hm.
  destruct (pool request) as [p|]; [|done].
  destruct (truthy p); [|done]. by apply filter_In in Hm as [Hm _].
Qed.

(** ** The job list *)

Lemma insert_desc_perm {A} (key : A -> string) (x : A) (l : list A) :
  insert_desc key x l ≡ₚ x :: l.
Proof.
  induction l as [|y l IH]; simpl; [done |].
  destruct (String.ltb (key x) (key y)); [|done].
  by rewrite IH, Permutation_swap.
Qed.

Lemma sort_desc_perm {A} (key : A -> string) (l : list A) :
  sort_desc key l ≡ₚ l.
Proof.
  induction l as [|x l IH]; simpl; [done |].
  by rewrite insert_desc_perm, IH.
Qed.

Lemma ltb_false_le (a b : string) : String.ltb a b = false -> String.le b a.
Proof.
  unfold String.ltb, String.le, String.leb. rewrite String.compare_antisym.
  destruct (b ?= a)%string; simpl; done.
Qed.

Lemma ltb_true_le (a b : string) : String.ltb a b = true -> String.le a b.
Proof.
  unfold String.ltb, String.le, String.leb.
  destruct (a ?= b)%string; simpl; done.
Qed.

Lemma insert_desc_sorted {A} (key : A -> string) (x : A) (l : list A) :
  Sorted (fun a b => String.le (key b) (key a)) l ->
  Sorted (fun a b => String.le (key b) (key a)) (insert_desc key x l).
Proof.
  induction 1 as [|y l Hl IH Hhd]; simpl; [by repeat constructor |].
  destruct (String.ltb (key x) (key y)) eqn:Hlt.
  - constructor; [done |].
    destruct Hhd as [|z l' Hz]; simpl.
    + constructor. by apply ltb_true_le.
    + destruct (String.ltb (key x) (key z)); constructor;
        [done | by apply ltb_true_le].
  - constructor; [by constructor |]. constructor. by apply ltb_false_le.
Qed.

Lemma sort_desc_sorted {A} (key : A -> string) (l : list A) :
  Sorted (fun a b => String.le (key b) (key a)) (sort_desc key l).
Proof.
  induction l as [|x l IH]; simpl; [constructor |].
  by apply insert_desc_sorted.
Qed.

Lemma slice_to_sublist {A} (n : Z) (l : list A) : sublist (slice_to n l) l.
Proof. unfold slice_to. destruct (n <? 0)%Z; apply sublist_take. Qed.

Lemma sorted_sublist {A} (R : relation A) (k l : list A) :
  Transitive R -> sublist k l -> Sorted R l -> Sorted R k.
Proof.
  intros HR Hsub Hl. apply Sorted_StronglySorted in Hl; [|done].
  apply StronglySorted_Sorted.
  induction Hsub as [|x k l Hkl IH|x k l Hkl IH]; [constructor | |].
  - apply StronglySorted_inv in Hl as [Hl Hx]. constructor; [by apply IH |].
    apply Forall_forall. intros y Hy. rewrite Forall_forall in Hx.
    apply Hx. by eapply sublist_subseteq; [exact Hkl |].
  - apply StronglySorted_inv in Hl as [Hl _]. by apply IH.
Qed.

(** X7.  The job list comes newest first.  Every job in it is one of the
    stored jobs and, when a status is asked for, has that status; a limit
    that is not negative bounds its length, and a limit that reaches the
    number of matching jobs returns them all; [total] is the number of
    stored jobs whatever the filter. *)
Theorem job_list_is_newest_first (values : list Job) (status : option string)
    (limit : Z) :
  newest_first (jobs (list_provisioning_jobs values status limit))
  /\ (forall j, In j (jobs (list_provisioning_jobs values status limit)) ->
        In j values
        /\ (truthy_opt status = true ->
            Some (status_text (App.status j)) = status))
  /\ ((0 <= limit)%Z ->
      (length (jobs (list_provisioning_jobs values status limit))
       <= Z.to_nat limit)%nat)
  /\ ((Z.of_nat (length values) <= limit)%Z ->
      jobs (list_provisioning_jobs values status limit)
      ≡ₚ (if truthy_opt status
          then List.filter
                 (fun job => String.eqb (status_text (App.status job))
                               (default "" status)) values
          else values))
  /\ total (list_provisioning_jobs values status limit) = length values.
Proof.
  unfold list_provisioning_jobs. cbn [jobs total].
  set (selected := if truthy_opt status then _ else values).
  assert (Hsel : forall j, In j selected ->
            In j values
            /\ (truthy_opt status = true ->
                Some (status_text (App.status j)) = status)).
  { intros j Hj. subst selected. destruct status as [s|]; simpl in *; [|done].
    destruct (truthy s); [|done]. apply filter_In in Hj as [Hj He].
    apply String.eqb_eq in He. split; [done |]. intros _. by rewrite He. }
  assert (Hlen : (length selected <= length values)%nat).
  { subst selected. destruct (truthy_opt status); [|done].
    apply filter_length_le. }
  split; [|split; [|split; [|split]]].
  - unfold newest_first.
    apply (sorted_sublist _ _ (sort_desc created_at selected)).
    + intros a b c Hab Hbc. by etrans.
    + apply slice_to_sublist.
    + apply sort_desc_sorted.
  - intros j Hj. apply Hsel.
    apply list_elem_of_In in Hj. apply list_elem_of_In.
    rewrite <- (sort_desc_perm created_at selected).
    by eapply sublist_subseteq; [apply slice_to_sublist |].
  - intros Hl. unfold slice_to.
    destruct (limit <? 0)%Z eqn:Hn; [lia |]. rewrite length_take. lia.
  - intros Hl. unfold slice_to.
    destruct (limit <? 0)%Z eqn:Hn; [lia |].
    rewrite firstn_all2; [apply sort_desc_perm |].
    rewrite (Permutation_length (sort_desc_perm created_at selected)). lia.
  - done.
Qed.
End Submission.

(* ===================================================================== *)
(** * The course of a run *)
(* ===================================================================== *)

Module Runs.
Import Py App PyFacts JobSpec ExtraSpec.

Ltac run :=
  unfold mbind, M_bind, mret, M_ret, mutate, now, post_deploy, get_job in *;
  simpl in *.

Section Course.
Context `{Runtime}.

(** ** The shape of the task *)

Lemma run_job_fetched_shape (w : World) (ids : list string)
    (config : JobConfig) (fleet : list Machine) (s0 : Exec) :
  machines_api w = inr fleet ->
  job (run_job w ids config s0).2
  = default (job s0)
      (last (closing w (middle w ids config fleet (started w s0)).2))
  /\ seen (run_job w ids config s0).2
     = [ set_completed_at
           (clock w (ticks (middle w ids config fleet (started w s0)).2))
           (set_status
              (if (failed_deployments
                     (job (middle w ids config fleet (started w s0)).2)
                   =? 0)%nat
               then completed else completed_with_errors)
              (job (middle w ids config fleet (started w s0)).2));
         set_status
           (if (failed_deployments
                  (job (middle w ids config fleet (started w s0)).2)
                =? 0)%nat
            then completed else completed_with_errors)
           (job (middle w ids config fleet (started w s0)).2);
         job (middle w ids config fleet (started w s0)).2 ]
       ++ seen (middle w ids config fleet (started w s0)).2.
Proof.
  intros Hfetch. unfold run_job, middle, started, closing. rewrite Hfetch.
  run.
  match goal with
  | |- context [resolve_targets fleet ids ?s] =>
      destruct (resolve_targets fleet ids s) as [ts s2]
  end.
  simpl.
  match goal with
  | |- context [for_each ?l ?b ?s] => destruct (for_each l b s) as [[] s4]
  end.
  done.
Qed.

Lemma run_job_aborted_shape (w : World) (ids : list string)
    (config : JobConfig) (error : GatewayError) (s0 : Exec) :
  machines_api w = inl error ->
  reverse (job (run_job w ids config s0).2 :: seen (run_job w ids config s0).2)
  = reverse (job (started w s0) :: seen (started w s0))
    ++ aborting w error (started w s0)
  /\ calls (run_job w ids config s0).2 = calls s0.
Proof.
  intros Hfetch. unfold run_job, started, aborting. rewrite Hfetch. run.
  split; [|done]. rewrite !reverse_cons. by rewrite <- !app_assoc.
Qed.

(** ** What the assignments of the middle of a run keep *)

Lemma mutate_well (P : Job -> Prop) (base : list Job) (f : Job -> Job)
    (s : Exec) :
  (P (job s) -> P (f (job s))) -> well P base s ->
  well P base (mutate f s).2.
Proof.
  intros Hf [Hj (mids & Hs & HF)]. split; [by apply Hf |].
  exists (job s :: mids). simpl. rewrite Hs. split; [done |].
  by constructor.
Qed.

Lemma resolve_targets_well (P : Job -> Prop) (base : list Job)
    (fleet : list Machine) (ids : list string) :
  kept P -> forall s, well P base s ->
  well P base (resolve_targets fleet ids s).2.
Proof.
  intros HP. induction ids as [|sid rest IH]; intros s Hs; [done |].
  simpl. destruct (List.find _ fleet) as [m|].
  - destruct (negb _).
    + unfold mbind, M_bind.
      pose proof (mutate_well P base (append_result (skipped_entry sid m)) s
                    (fun Hj => proj1 (HP _ Hj) _) Hs) as Hs1.
      destruct (mutate _ s) as [[] s1]. by apply IH.
    + unfold mbind, M_bind, mret, M_ret. specialize (IH s Hs).
      by destruct (resolve_targets fleet rest s).
  - unfold mbind, M_bind.
    pose proof (mutate_well P base (append_result (not_found_entry sid)) s
                  (fun Hj => proj1 (HP _ Hj) _) Hs) as Hs1.
    destruct (mutate _ s) as [[] s1]. by apply IH.
Qed.

Lemma deploy_one_well (P : Job -> Prop) (base : list Job) (w : World)
    (config : JobConfig) (m : Machine) (s : Exec) :
  kept P -> well P base s -> well P base (deploy_one w config m s).2.
Proof.
  intros HP [Hj (mids & Hs & HF)].
  destruct (Orchestration.deploy_one_spec w config m s)
    as (c & e & _ & _ & Hseen & Hjob).
  destruct (HP _ Hj) as (Happ & _).
  destruct (HP _ (Happ e)) as (_ & _ & _ & Hsu & Hfa & _).
  split.
  - by destruct Hjob as [[-> _] | [-> _]].
  - exists (append_result e (job s) :: job s :: mids). rewrite Hseen, Hs.
    split; [done |]. by repeat constructor.
Qed.

Lemma for_each_well (P : Job -> Prop) (base : list Job) (w : World)
    (config : JobConfig) (targets : list Machine) :
  kept P -> forall s, well P base s ->
  well P base (for_each targets (deploy_one w config) s).2.
Proof.
  intros HP. induction targets as [|m rest IH]; intros s Hs; [done |].
  cbn [for_each]. unfold mbind, M_bind.
  pose proof (deploy_one_well P base w config m s HP Hs) as Hs1.
  destruct (deploy_one w config m s) as [[] s1]. by apply IH.
Qed.

Lemma middle_well (P : Job -> Prop) (base : list Job) (w : World)
    (ids : list string) (config : JobConfig) (fleet : list Machine)
    (s : Exec) :
  kept P -> well P base s -> well P base (middle w ids config fleet s).2.
Proof.
  intros HP Hs. unfold middle. unfold mbind, M_bind.
  pose proof (resolve_targets_well P base fleet ids HP s Hs) as Hs2.
  destruct (resolve_targets fleet ids s) as [ts s2]. simpl in Hs2.
  set (targets := post_selection_filters config ts).
  pose proof (mutate_well P base (set_total_machines (length targets)) s2
                (fun Hj => proj1 (proj2 (HP _ Hj)) _) Hs2) as Hs3.
  destruct (mutate (set_total_machines _) s2) as [[] s3]. simpl in Hs3.
  pose proof (mutate_well P base
                (set_machines
                   (map (fun m => (system_id m, result_hostname m)) targets))
                s3 (fun Hj => proj1 (proj2 (proj2 (HP _ Hj))) _) Hs3) as Hs4.
  destruct (mutate (set_machines _) s3) as [[] s4]. simpl in Hs4.
  by apply for_each_well.
Qed.

Lemma running_kept : kept (fun j => status j = running).
Proof. intros j Hj. by repeat split. Qed.

Lemma same_identity_kept (job0 : Job) : kept (same_identity job0).
Proof. intros j Hj. by repeat split; apply Hj. Qed.

(** ** The run as a whole *)

(** X8.  A run goes from the status it finds to running and from running
    to one terminal status, and never back: its trace is the job as found,
    then values with status running, then three values that all have the
    same terminal status. *)
Theorem run_follows_the_state_machine (w : World) (st : AppState)
    (job_id : string) (ids : list string) (config : JobConfig) (job0 : Job) :
  provisioning_jobs st !! job_id = Some job0 ->
  exists mids ends final_status,
    trace (deploy_machines w st job_id ids config) = job0 :: mids ++ ends
    /\ mids <> [] /\ Forall (fun j => status j = running) mids
    /\ length ends = 3 /\ terminal final_status = true
    /\ Forall (fun j => status j = final_status) ends
    /\ (final_status = job_failed <-> exists e, machines_api w = inl e).
Proof.
  intros Hjob. unfold deploy_machines. rewrite Hjob. cbn [trace].
  set (s0 := {| job := job0; seen := []; ticks := 0; calls := [] |}).
  destruct (machines_api w) as [err|fleet] eqn:Hfetch.
  - destruct (run_job_aborted_shape w ids config err s0 Hfetch) as [-> _].
    exists [set_status running job0;
            set_updated_at (clock w 0) (set_status running job0)],
      (aborting w err (started w s0)), job_failed.
    repeat split; first [done | by repeat constructor | by eexists].
  - destruct (run_job_fetched_shape w ids config fleet s0 Hfetch)
      as [Hj Hs].
    assert (Hw : well (fun j => status j = running) [job0] (started w s0)).
    { split; [done |]. exists [set_status running job0]. by repeat constructor. }
    apply (middle_well _ _ w ids config fleet _ running_kept) in Hw.
    set (s4 := (middle w ids config fleet (started w s0)).2) in *.
    destruct Hw as [Hrun (mids & Hseen & HF)].
    exists (reverse mids ++ [job s4]), (closing w s4),
      (if (failed_deployments (job s4) =? 0)%nat then completed
       else completed_with_errors).
    repeat split.
    + rewrite Hj, Hs, Hseen. unfold closing. cbn [last default].
      unfold id. cbn [app].
      rewrite !reverse_cons, reverse_app, reverse_singleton.
      by rewrite <- !app_assoc.
    + by destruct (reverse mids).
    + apply Forall_app. split; [by apply Forall_reverse | by constructor].
    + by destruct (_ =? _)%nat.
    + by repeat constructor.
    + by destruct (_ =? _)%nat.
    + by intros [e He].
Qed.

(** X9.  A run never changes the identifier, the creation time, the
    configuration or the validation summary of its job: every value the
    job takes has them as found.  It leaves the other globals and every
    other job as they were. *)
Theorem run_keeps_identity (w : World) (st : AppState) (job_id : string)
    (ids : list string) (config : JobConfig) (job0 : Job) :
  provisioning_jobs st !! job_id = Some job0 ->
  Forall (same_identity job0) (trace (deploy_machines w st job_id ids config))
  /\ maas_config (final_state (deploy_machines w st job_id ids config))
     = maas_config st
  /\ user_config (final_state (deploy_machines w st job_id ids config))
     = user_config st
  /\ job_id_counter (final_state (deploy_machines w st job_id ids config))
     = job_id_counter st
  /\ (forall k, k <> job_id ->
        final_job (deploy_machines w st job_id ids config) k
        = provisioning_jobs st !! k).
Proof.
  intros Hjob. unfold deploy_machines, final_job. rewrite Hjob.
  cbn [trace final_state maas_config user_config job_id_counter
       provisioning_jobs].
  split; [|repeat split; try done; intros k Hk; by rewrite lookup_insert_ne].
  set (s0 := {| job := job0; seen := []; ticks := 0; calls := [] |}).
  destruct (machines_api w) as [err|fleet] eqn:Hfetch.
  - destruct (run_job_aborted_shape w ids config err s0 Hfetch) as [-> _].
    by repeat constructor.
  - destruct (run_job_fetched_shape w ids config fleet s0 Hfetch)
      as [Hj Hs].
    assert (Hw : well (same_identity job0) [] (started w s0)).
    { split; [done |]. exists [set_status running job0; job0].
      by repeat constructor. }
    apply (middle_well _ _ w ids config fleet _ (same_identity_kept job0))
      in Hw.
    set (s4 := (middle w ids config fleet (started w s0)).2) in *.
    destruct Hw as [Hid (mids & Hseen & HF)].
    apply Forall_reverse. rewrite Hj, Hs, Hseen, app_nil_r.
    unfold closing. cbn [last default].
    repeat (constructor; [by repeat split; apply Hid |]).
    exact HF.
Qed.

(** X10.  When fetching the snapshot raises, the job ends failed with the
    text of the error; nothing is recorded, no deploy call is made, and the
    counters, the total and the completion time stay as found. *)
Theorem run_aborts_on_fetch_failure (w : World) (st : AppState)
    (job_id : string) (ids : list string) (config : JobConfig) (job0 : Job)
    (e : GatewayError) :
  provisioning_jobs st !! job_id = Some job0 ->
  machines_api w = inl e ->
  deploy_calls (deploy_machines w st job_id ids config) = []
  /\ exists j,
      final_job (deploy_machines w st job_id ids config) job_id = Some j
      /\ status j = job_failed /\ error j = Some (gw_str e)
      /\ results j = results job0
      /\ total_machines j = total_machines job0
      /\ successful_deployments j = successful_deployments job0
      /\ failed_deployments j = failed_deployments job0
      /\ completed_at j = completed_at job0.
Proof.
  intros Hjob Hfetch. unfold deploy_machines, final_job. rewrite Hjob.
  cbn [deploy_calls final_state provisioning_jobs]. rewrite lookup_insert_eq.
  unfold run_job. rewrite Hfetch. run. split; [done |]. by eexists.
Qed.

Lemma count_outcome_zero (o : Outcome) (es : list ResultEntry) :
  count_outcome o es = 0 <-> Forall (fun e => r_status e <> o) es.
Proof.
  unfold count_outcome. induction es as [|e es IH]; simpl.
  - split; [by constructor | done].
  - destruct (decide (r_status e = o)) as [He|He].
    + rewrite bool_decide_eq_true_2 by done. simpl. split; [done |].
      intros HF. by inversion HF.
    + rewrite bool_decide_eq_false_2 by done. rewrite IH. split.
      * by constructor.
      * intros HF. by inversion HF.
Qed.

(** X11.  After a fetched snapshot a run on a job as created ends
    completed or completed with errors and stamps the completion time; it
    ends completed exactly when none of its deploy calls raised.  The
    entries recorded before the deploy loop, those for missing machines
    included, do not count. *)
Theorem final_status_follows_deploy_calls (w : World) (st : AppState)
    (job_id : string) (ids : list string) (config : JobConfig) (job0 : Job)
    (fleet : list Machine) :
  provisioning_jobs st !! job_id = Some job0 ->
  fresh job0 = true ->
  machines_api w = inr fleet ->
  exists j,
    final_job (deploy_machines w st job_id ids config) job_id = Some j
    /\ is_Some (completed_at j)
    /\ (status j = completed \/ status j = completed_with_errors)
    /\ (status j = completed <->
        forall i c,
          deploy_calls (deploy_machines w st job_id ids config) !! i = Some c ->
          exists res, deploy_api w i c.1 c.2 = inr res).
Proof.
  intros Hjob Hfresh Hfetch.
  apply Orchestration.fresh_inv in Hfresh as (_ & _ & Hf0 & _).
  unfold deploy_machines, final_job. rewrite Hjob.
  cbn [deploy_calls final_state provisioning_jobs]. rewrite lookup_insert_eq.
  set (s0 := {| job := job0; seen := []; ticks := 0; calls := [] |}).
  destruct (Orchestration.run_job_fetched w ids config fleet s0 Hfetch)
    as (cs & es & Hc & _ & Hlc & Hle & Hidx & _ & _ & Hfa & _ & Hst & _).
  destruct (run_job_fetched_shape w ids config fleet s0 Hfetch) as [Hj _].
  cbn [job calls s0 app] in *. rewrite Hf0 in Hfa. simpl in Hfa, Hidx.
  eexists. split; [done |]. split; [|split].
  - rewrite Hj. unfold closing. cbn [last default]. by eexists.
  - rewrite Hst. destruct (_ =? _)%nat; auto.
  - rewrite Hst, Hc, Hfa.
    destruct (count_outcome failed es =? 0)%nat eqn:Hz.
    + apply Nat.eqb_eq, count_outcome_zero in Hz. split; [|done].
      intros _ i c Hi.
      assert (Hlt : i < length cs) by (by eapply lookup_lt_Some).
      rewrite Hlc in Hlt. apply lookup_lt_is_Some in Hlt as [m Hm].
      destruct (Hidx i m Hm) as (c' & e & Hc' & He & (t & -> & Hapi)).
      rewrite Hi in Hc'. injection Hc' as ->. cbn [fst snd].
      destruct (deploy_api w i (system_id m) (planned_data config m t))
        as [err|res]; [|by eexists].
      subst e. rewrite Forall_lookup in Hz. by destruct (Hz _ _ He).
    + split; [discriminate |]. intros Hall. exfalso.
      apply Nat.eqb_neq in Hz. apply Hz, count_outcome_zero.
      apply Forall_lookup. intros i e He.
      assert (Hlt : i < length es) by (by eapply lookup_lt_Some).
      rewrite Hle in Hlt. apply lookup_lt_is_Some in Hlt as [m Hm].
      destruct (Hidx i m Hm) as (c & e' & Hc' & He' & (t & -> & Hapi)).
      rewrite He in He'. injection He' as <-.
      destruct (Hall i _ Hc') as [res Hres]. cbn [fst snd] in Hres.
      rewrite Hres in Hapi. destruct Hapi as [t' ->]. done.
Qed.

Lemma ready_targets_none (fleet : list Machine) (ids : list string) :
  forallb (undeployable fleet) ids = true -> ready_targets fleet ids = [].
Proof.
  induction ids as [|sid rest IH]; simpl; [done |].
  intros Hall. apply andb_true_iff in Hall as [Hsid Hrest].
  unfold undeployable in Hsid.
  destruct (find_machine fleet sid) as [m|]; [|by apply IH].
  destruct (is_ready m); [discriminate | by apply IH].
Qed.

Lemma filters_nil (config : JobConfig) : post_selection_filters config [] = [].
Proof.
  unfold post_selection_filters, limit_count, filter_pool, filter_tags, take_Z.
  destruct (c_tags config) as [[|? ?]|], (c_pool config) as [p|],
    (c_count config) as [n|]; simpl;
    repeat (match goal with
            | |- context [if ?b then _ else _] => destruct b; simpl
            end);
    by rewrite ?firstn_nil.
Qed.

(** X12.  When none of the requested machines is present and Ready, the
    empty request included, a run on a job as created makes no deploy call
    and ends completed with all counters zero; one entry is recorded for
    every requested identifier, none of them deployed. *)
Theorem run_without_deployable_machine (w : World) (st : AppState)
    (job_id : string) (ids : list string) (config : JobConfig) (job0 : Job)
    (fleet : list Machine) :
  provisioning_jobs st !! job_id = Some job0 ->
  fresh job0 = true ->
  machines_api w = inr fleet ->
  forallb (undeployable fleet) ids = true ->
  deploy_calls (deploy_machines w st job_id ids config) = []
  /\ exists j,
      final_job (deploy_machines w st job_id ids config) job_id = Some j
      /\ status j = completed
      /\ total_machines j = 0 /\ successful_deployments j = 0
      /\ failed_deployments j = 0
      /\ length (results j) = length ids
      /\ Forall (fun e => r_status e <> deployed) (results j).
Proof.
  intros Hjob Hfresh Hfetch Hnone.
  apply Orchestration.fresh_inv in Hfresh as (_ & Hs0 & Hf0 & Hr0).
  unfold deploy_machines, final_job. rewrite Hjob.
  cbn [deploy_calls final_state provisioning_jobs]. rewrite lookup_insert_eq.
  set (s0 := {| job := job0; seen := []; ticks := 0; calls := [] |}).
  destruct (Orchestration.run_job_fetched w ids config fleet s0 Hfetch)
    as (cs & es & Hc & Hres & Hlc & Hle & _ & Ht & Hsu & Hfa & _ & Hst & _).
  rewrite (ready_targets_none fleet ids Hnone), filters_nil in *.
  cbn [job calls s0 app length] in *.
  destruct cs; [|discriminate]. destruct es; [|discriminate].
  rewrite Hs0 in Hsu. rewrite Hf0 in Hfa. rewrite Hr0, app_nil_r in Hres.
  unfold count_outcome in *. simpl in *.
  split; [done |]. eexists. split; [done |].
  rewrite Hst, Hfa, Hsu, Ht, Hres. repeat split.
  - rewrite Orchestration.resolution_entries_length.
    clear -Hnone. induction ids as [|sid rest IH]; simpl in *; [done |].
    apply andb_true_iff in Hnone as [-> Hrest]. simpl. by rewrite IH.
  - apply count_outcome_zero, Orchestration.resolution_entries_not_deployed.
Qed.
End Course.
End Runs.

(* ===================================================================== *)
(** * Tags, rules and descriptions *)
(* ===================================================================== *)

Module Enhancing.
Import Py CloudInit Describe PyFacts ExtraSpec.

Lemma rules_have_commands (tags : list string) (is_rocky : bool) :
  Forall (fun x => rule_runcmd x.2 <> []) (rules tags is_rocky).
Proof.
  unfold rules. repeat constructor; cbn [snd]; destruct is_rocky; discriminate.
Qed.

Lemma fired_nil (rs : list (bool * Rule)) :
  existsb fst rs = false -> fired rs = [].
Proof.
  unfold fired. induction rs as [|[b r] rs IH]; simpl; [done |].
  destruct b; [done |]. exact IH.
Qed.

Lemma fired_commands (rs : list (bool * Rule)) :
  Forall (fun x => rule_runcmd x.2 <> []) rs ->
  existsb fst rs = true ->
  nonempty (concat (map rule_runcmd (fired rs))) = true.
Proof.
  unfold fired. induction 1 as [|[b r] rs Hr _ IH]; simpl; [done |].
  simpl in Hr. destruct b; simpl; [|exact IH].
  intros _. by destruct (rule_runcmd r).
Qed.

Lemma enhancements_fire (tags : list string) (os_type : string) :
  has_enhancements (generate_tag_based_enhancements tags os_type)
  = match tags with
    | [] => false
    | _ => existsb fst (rules tags (is_rocky_os os_type))
    end.
Proof.
  unfold has_enhancements, generate_tag_based_enhancements.
  destruct tags as [|t tags]; [done |].
  cbn [enh_packages enh_runcmd enh_write_files].
  destruct (existsb fst _) eqn:Hany.
  - rewrite (fired_commands _ (rules_have_commands _ _) Hany).
    by rewrite orb_true_r.
  - by rewrite (fired_nil _ Hany).
Qed.

Lemma rules_descriptions (tags : list string) (is_rocky : bool) :
  existsb fst (rules tags is_rocky) = existsb fst (descriptions tags).
Proof.
  unfold rules, descriptions. cbn [existsb fst].
  destruct (mem "bcm57508" tags); cbn [orb]; by rewrite ?orb_true_r.
Qed.

Lemma descriptions_not_standard (tags : list string) :
  Forall (fun x => x.2 <> "Standard configuration only")
    (descriptions tags).
Proof. unfold descriptions. by repeat constructor. Qed.

Lemma described_head (ds : list (bool * string)) :
  Forall (fun x => x.2 <> "Standard configuration only") ds ->
  map snd (List.filter fst ds) <> ["Standard configuration only"]
  /\ (map snd (List.filter fst ds) = [] <-> existsb fst ds = false).
Proof.
  induction 1 as [|[b d] ds Hd _ [IH1 IH2]]; simpl; [done |].
  destruct b; simpl; [|done]. split; [|done].
  intros Heq. by injection Heq.
Qed.

Section Flag.
Context `{Runtime}.

(** X13.  The description of a tag list and the flag of a generated
    configuration agree: the description is the single line
    [Standard configuration only] exactly when the configuration of a
    machine with these tags reports no enhancements.  The description is
    never empty. *)
Theorem description_agrees_with_flag (machine : Machine)
    (user_config os_type : string) (user_credentials : option Credentials)
    (now : string) :
  (mc_hasEnhancements
     (generate_machine_cloud_init machine user_config os_type
        user_credentials now) = false
   <-> get_enhancement_description (tag_names machine)
       = ["Standard configuration only"])
  /\ get_enhancement_description (tag_names machine) <> [].
Proof.
  unfold generate_machine_cloud_init. cbn [mc_hasEnhancements].
  fold (has_enhancements
          (generate_tag_based_enhancements (tag_names machine) os_type)).
  rewrite enhancements_fire. unfold get_enhancement_description.
  destruct (tag_names machine) as [|t tags]; [done |].
  rewrite rules_descriptions.
  destruct (described_head _ (descriptions_not_standard (t :: tags)))
    as [Hne Hnil].
  destruct (map snd (List.filter fst (descriptions (t :: tags))))
    as [|d ds] eqn:Hds.
  - split; [|done]. split; [done |]. intros _. by apply Hnil.
  - split; [|done]. split.
    + intros Hf. apply Hnil in Hf. discriminate.
    + intros Heq. by destruct Hne.
Qed.
End Flag.

(** ** More tags, more enhancements *)

Lemma mem_mono (x : string) (tags tags' : list string) :
  tags ⊆ tags' -> mem x tags = true -> mem x tags' = true.
Proof.
  intros Hsub. rewrite !mem_spec, <- !list_elem_of_In. apply Hsub.
Qed.

Lemma existsb_mono (f : string -> bool) (tags tags' : list string) :
  tags ⊆ tags' -> existsb f tags = true -> existsb f tags' = true.
Proof.
  intros Hsub. rewrite !existsb_exists. intros (x & Hx & Hf).
  exists x. split; [|done]. apply list_elem_of_In, Hsub.
  by apply list_elem_of_In.
Qed.

Lemma rules_mono (tags tags' : list string) (is_rocky : bool) :
  tags ⊆ tags' ->
  Forall2 (fun a b => (a.1 = true -> b.1 = true) /\ a.2 = b.2)
    (rules tags is_rocky) (rules tags' is_rocky).
Proof.
  intros Hsub. unfold rules.
  repeat (constructor; [split; [cbn [fst] | done] |]); [..| constructor];
    rewrite ?orb_true_iff;
    intros; repeat match goal with
            | Hd : _ \/ _ |- _ => destruct Hd
            end;
    eauto using mem_mono, existsb_mono.
Qed.

Lemma fired_sublist (rs rs' : list (bool * Rule)) :
  Forall2 (fun a b => (a.1 = true -> b.1 = true) /\ a.2 = b.2) rs rs' ->
  fired rs `sublist_of` fired rs'.
Proof.
  unfold fired. induction 1 as [|[b r] [b' r'] rs rs' [Hb Hr] _ IH]; simpl;
    [done |].
  simpl in *. subst r'. destruct b.
  - rewrite Hb by done. simpl. by apply sublist_skip.
  - destruct b'; simpl; [by apply sublist_cons | done].
Qed.

Lemma concat_map_sublist {A B} (f : A -> list B) (l l' : list A) :
  l `sublist_of` l' -> concat (map f l) `sublist_of` concat (map f l').
Proof.
  induction 1 as [|x l l' _ IH|x l l' _ IH]; simpl.
  - done.
  - by apply sublist_app.
  - by apply sublist_inserts_l.
Qed.

(** X14.  Enhancements only grow with the tags: when every tag of one
    list is in another, the packages, the commands and the files added for
    the first list are, in the same order, among those added for the
    second. *)
Theorem enhancements_grow_with_tags (tags tags' : list string)
    (os_type : string) :
  tags ⊆ tags' ->
  enh_packages (generate_tag_based_enhancements tags os_type)
    `sublist_of` enh_packages (generate_tag_based_enhancements tags' os_type)
  /\ enh_runcmd (generate_tag_based_enhancements tags os_type)
       `sublist_of` enh_runcmd (generate_tag_based_enhancements tags' os_type)
  /\ enh_write_files (generate_tag_based_enhancements tags os_type)
       `sublist_of`
       enh_write_files (generate_tag_based_enhancements tags' os_type).
Proof.
  intros Hsub. unfold generate_tag_based_enhancements.
  destruct tags as [|t tags].
  { repeat split; apply sublist_nil_l. }
  destruct tags' as [|t' tags'].
  { exfalso. eapply not_elem_of_nil. apply Hsub. by left. }
  cbn [enh_packages enh_runcmd enh_write_files].
  pose proof (fired_sublist _ _
                (rules_mono _ _ (is_rocky_os os_type) Hsub)) as Hf.
  repeat split; by apply concat_map_sublist.
Qed.

(** ** The OS type *)

Lemma family_of_os_type (distro_series : string) :
  is_rocky_os (App.os_type_of distro_series) = is_rocky_os distro_series.
Proof.
  unfold App.os_type_of, is_rocky_os at 2.
  by destruct (contains_any _ (lower distro_series)).
Qed.

Lemma final_config_family (machine : Machine) (user_config : string)
    (os_type os_type' : string) (user_credentials : option Credentials) :
  is_rocky_os os_type = is_rocky_os os_type' ->
  final_config_of machine user_config os_type user_credentials
  = final_config_of machine user_config os_type' user_credentials.
Proof.
  intros Hos.
  unfold final_config_of, generate_base_cloud_init,
    generate_tag_based_enhancements.
  by rewrite Hos.
Qed.

Section Family.
Context `{Runtime}.

(** X15.  The generator looks at the OS type only for its family: two OS
    types of the same family give the same configuration.  So the
    [rocky] or [ubuntu] the deploy loop passes on gives what the distro
    series itself would give. *)
Theorem os_type_matters_by_family (machine : Machine)
    (user_config : string) (user_credentials : option Credentials)
    (now : string) :
  (forall os_type os_type',
     is_rocky_os os_type = is_rocky_os os_type' ->
     generate_machine_cloud_init machine user_config os_type
       user_credentials now
     = generate_machine_cloud_init machine user_config os_type'
         user_credentials now)
  /\ (forall distro_series,
        get_machine_cloud_init machine user_config
          (App.os_type_of distro_series) user_credentials now
        = get_machine_cloud_init machine user_config distro_series
            user_credentials now).
Proof.
  assert (Hfam : forall os_type os_type',
     is_rocky_os os_type = is_rocky_os os_type' ->
     generate_machine_cloud_init machine user_config os_type
       user_credentials now
     = generate_machine_cloud_init machine user_config os_type'
         user_credentials now).
  { intros os_type os_type' Hos. unfold generate_machine_cloud_init.
    rewrite (final_config_family _ _ _ _ _ Hos).
    unfold generate_tag_based_enhancements. by rewrite Hos. }
  split; [exact Hfam |].
  intros distro_series. unfold get_machine_cloud_init.
  by rewrite (Hfam _ distro_series (family_of_os_type distro_series)).
Qed.

Lemma flag_of_machine (machine : Machine) (user_config os_type : string)
    (user_credentials : option Credentials) (now : string) :
  mc_hasEnhancements
    (generate_machine_cloud_init machine user_config os_type
       user_credentials now)
  = has_enhancements
      (generate_tag_based_enhancements (tag_names machine) os_type).
Proof. done. Qed.

Lemma flags_of_machines (user_config os_type : string)
    (user_credentials : option Credentials) (l : list Machine) :
  forall now : nat -> string,
  existsb mc_hasEnhancements
    (imap (fun i machine =>
             generate_machine_cloud_init machine user_config os_type
               user_credentials (now i)) l)
  = existsb (fun m => has_enhancements
                        (generate_tag_based_enhancements (tag_names m)
                           os_type)) l.
Proof.
  induction l as [|m l IH]; intros now; [done |].
  cbn [imap existsb]. rewrite flag_of_machine. f_equal.
  apply (IH (now ∘ S)).
Qed.

(** X16.  A batch gets one configuration for every selected machine, in
    the order of the selection: the one generated for that machine alone
    at the reading of the clock of its position.  The batch reports
    enhancements exactly when the tags of one of its machines add
    something. *)
Theorem machine_configs_follow_selection (selected_machines : list Machine)
    (user_config os_type : string) (user_credentials : option Credentials)
    (now : nat -> string) :
  (forall i,
     g_machineConfigs
       (generate_cloud_init selected_machines user_config os_type
          user_credentials now) !! i
     = (fun machine =>
          generate_machine_cloud_init machine user_config os_type
            user_credentials (now i)) <$> selected_machines !! i)
  /\ g_hasEnhancements
       (generate_cloud_init selected_machines user_config os_type
          user_credentials now)
     = existsb (fun m => has_enhancements
                           (generate_tag_based_enhancements (tag_names m)
                              os_type)) selected_machines.
Proof.
  unfold generate_cloud_init.
  destruct selected_machines as [|m [|m' rest]];
    cbn [g_machineConfigs g_hasEnhancements].
  - by split.
  - split; [by intros [|i] |]. cbn [existsb]. by rewrite orb_false_r.
  - split; [intros i; apply list_lookup_imap |]. apply flags_of_machines.
Qed.
End Family.
End Enhancing.

(* ===================================================================== *)
(** * The configuration files *)
(* ===================================================================== *)

Module Configuration.
Import Py App Files Endpoints PyFacts ExtraSpec.

Lemma split_first_spec (sep : ascii) (s a b : string) :
  split_first sep s = Some (a, b) ->
  s = a +:+ String sep b /\ lacks sep a = true.
Proof.
  revert a. induction s as [|c s IH]; intros a; simpl; [done |].
  destruct (Ascii.eqb c sep) eqn:Hc.
  - intros [= <- <-]. apply Ascii.eqb_eq in Hc. by subst c.
  - destruct (split_first sep s) as [[a' b']|]; [|done].
    intros [= <- <-]. destruct (IH a' eq_refl) as [-> Hl].
    split; [done |]. unfold lacks. simpl. rewrite Hc. exact Hl.
Qed.

Lemma truthy_spec (s : string) : truthy s = true <-> s <> "".
Proof. by destruct s. Qed.

(** One line adds at most the entry it spells. *)
Lemma parse_line_entry (config : gmap string string) (line k v : string) :
  parse_line config line !! k = Some v ->
  config !! k = Some v
  \/ exists a b,
       line = a +:+ "=" +:+ b /\ lacks "=" a = true
       /\ k = strip a /\ v = strip b /\ k <> "" /\ v <> "".
Proof.
  unfold parse_line.
  destruct (contains "=" line); [|by left].
  destruct (split_first "=" line) as [[a b]|] eqn:Hsplit; [|by left].
  destruct (truthy (strip a) && truthy (strip b)) eqn:Ht; [|by left].
  apply andb_true_iff in Ht as [Ha Hb].
  destruct (decide (k = strip a)) as [->|Hne].
  - rewrite lookup_insert_eq. intros [= <-]. right.
    apply split_first_spec in Hsplit as [Hline Hlacks].
    exists a, b. repeat split; try done; by apply truthy_spec.
  - rewrite lookup_insert_ne by done. by left.
Qed.

(** What holds of the entries a line can add holds of every entry of the
    dictionary built from the lines. *)
Lemma parse_lines_ind (P : string -> string -> Prop) (ls : list string) :
  forall config : gmap string string,
  (forall k v, config !! k = Some v -> P k v) ->
  (forall line a b,
     In line ls -> line = a +:+ "=" +:+ b -> lacks "=" a = true ->
     strip a <> "" -> strip b <> "" -> P (strip a) (strip b)) ->
  forall k v, fold_left parse_line ls config !! k = Some v -> P k v.
Proof.
  induction ls as [|line ls IH]; intros config Hconfig Hlines k v; simpl.
  - apply Hconfig.
  - apply IH.
    + intros k' v' Hk'.
      apply parse_line_entry in Hk'
        as [Hk' | (a & b & Hline & Hlacks & -> & -> & Ha & Hb)].
      * by apply Hconfig.
      * apply (Hlines line a b); try done. by left.
    + intros l a b Hl. apply Hlines. by right.
Qed.

(** X17.  Every entry of a parsed configuration file comes from one of
    its lines: the line holds an equals sign, the key is the stripped text
    before the first one and the value the stripped text after it, and
    neither is empty. *)
Theorem parsed_entries_come_from_lines (text : string) (k v : string) :
  parse_config text !! k = Some v ->
  exists line a b,
    In line (split_on nl_char text)
    /\ line = a +:+ "=" +:+ b /\ lacks "=" a = true
    /\ k = strip a /\ v = strip b /\ k <> "" /\ v <> "".
Proof.
  unfold parse_config.
  apply (parse_lines_ind
           (fun k v =>
              exists line a b,
                In line (split_on nl_char text)
                /\ line = a +:+ "=" +:+ b /\ lacks "=" a = true
                /\ k = strip a /\ v = strip b /\ k <> "" /\ v <> "")).
  - intros k' v' Hk'. by rewrite lookup_empty in Hk'.
  - intros line a b Hin Hline Hlacks Ha Hb. by exists line, a, b.
Qed.

Lemma parsed_truthy (text k v : string) :
  parse_config text !! k = Some v -> truthy v = true.
Proof.
  unfold parse_config.
  apply (parse_lines_ind (fun _ v => truthy v = true)).
  - intros k' v' Hk'. by rewrite lookup_empty in Hk'.
  - intros line a b _ _ _ _ Hb. by apply truthy_spec.
Qed.

Lemma parsed_dict_truthy (text k v : string) :
  parse_config text !! k = Some v ->
  Endpoints.dict_truthy (Some (parse_config text)) = true.
Proof.
  intros Hk. unfold Endpoints.dict_truthy. apply bool_decide_eq_true_2.
  intros He. by rewrite He, lookup_empty in Hk.
Qed.

(** X18.  The account of a generated configuration is the one of
    users.conf as read at startup: with a USERNAME and a PASSWORD entry
    the credentials endpoint gives them and the generator writes one user
    with this name and password; with an entry missing, or the file
    missing or unreadable, no users section is written. *)
Theorem account_comes_from_users_conf (maas_conf users_conf : FileRead)
    (st : AppState) (machine : Machine) (user_config os_type : string) :
  CloudInit.users
    (CloudInit.final_config_of machine user_config os_type
       (Some (get_user_credentials
                (startup_event maas_conf users_conf st))))
  = match users_conf with
    | Content text =>
        match parse_config text !! "USERNAME",
              parse_config text !! "PASSWORD" with
        | Some u, Some p =>
            Some [ {| CloudInit.name := u;
                      CloudInit.plain_text_passwd := p;
                      CloudInit.sudo :=
                        if CloudInit.is_rocky_os os_type
                        then CloudInit.SudoList ["ALL=(ALL) NOPASSWD:ALL"]
                        else CloudInit.SudoStr "ALL=(ALL) NOPASSWD:ALL";
                      CloudInit.shell := "/bin/bash";
                      CloudInit.groups :=
                        if CloudInit.is_rocky_os os_type
                        then ["wheel"; "docker"] else ["sudo"; "docker"];
                      CloudInit.lock_passwd := false;
                      CloudInit.rocky_settings :=
                        CloudInit.is_rocky_os os_type |} ]
        | _, _ => None
        end
    | _ => None
    end.
Proof.
  unfold CloudInit.final_config_of, CloudInit.merge_configurations,
    CloudInit.generate_base_cloud_init.
  cbn [CloudInit.users]. unfold get_user_credentials, startup_event,
    load_user_config. cbn [App.user_config].
  destruct users_conf as [|text|]; try done.
  destruct (parse_config text !! "USERNAME") as [u|] eqn:Hu.
  - rewrite (parsed_dict_truthy _ _ _ Hu).
    unfold CloudInit.has_user_section, get_opt.
    cbn [username password].
    rewrite Hu.
    unfold CloudInit.dict_truthy, CloudInit.not_disabled.
    cbn [configured has_key orb andb truthy_opt].
    rewrite (parsed_truthy _ _ _ Hu).
    destruct (parse_config text !! "PASSWORD") as [p|] eqn:Hp; [|done].
    cbn [truthy_opt]. by rewrite (parsed_truthy _ _ _ Hp).
  - destruct (Endpoints.dict_truthy (Some (parse_config text)));
      unfold CloudInit.has_user_section, get_opt;
      cbn [username password configured]; [by rewrite Hu |].
    done.
Qed.
(** ** The endpoints that report the user configuration *)

(** X20.  The user status endpoint and the credentials endpoint agree:
    the status reports configured, the user name and hasPassword exactly
    as the credentials carry them, and a generated configuration has a
    users section only when the status reports a password and a non-empty
    user name. *)
Theorem user_status_agrees_with_credentials (st : AppState) :
  configured (get_user_credentials st)
  = Some (uc_configured (get_user_config st))
  /\ username (get_user_credentials st) = uc_username (get_user_config st)
  /\ truthy_opt (password (get_user_credentials st))
     = hasPassword (get_user_config st)
  /\ forall machine user_config os_type,
       CloudInit.users
         (CloudInit.final_config_of machine user_config os_type
            (Some (get_user_credentials st))) <> None ->
       hasPassword (get_user_config st) = true
       /\ truthy_opt (uc_username (get_user_config st)) = true.
Proof.
  unfold get_user_credentials, get_user_config.
  cbn [uc_configured uc_username hasPassword].
  destruct (Endpoints.dict_truthy (App.user_config st)) eqn:Hd;
    cbn [configured username password truthy_opt andb].
  - split; [done |]. split; [done |]. split; [done |].
    intros machine user_config os_type.
    unfold CloudInit.final_config_of, CloudInit.merge_configurations,
      CloudInit.generate_base_cloud_init, CloudInit.has_user_section.
    cbn [CloudInit.users username password].
    destruct (truthy_opt (get_opt (App.user_config st) "USERNAME")),
      (truthy_opt (get_opt (App.user_config st) "PASSWORD"));
      rewrite ?andb_false_r; done.
  - split; [done |]. split; [|split; [done |]].
    + unfold get_opt. destruct (App.user_config st) as [d|]; [|done].
      unfold Endpoints.dict_truthy in Hd. apply bool_decide_eq_false in Hd.
      destruct (d !! "USERNAME") eqn:Hu; [|done].
      exfalso. apply Hd. intros He. by rewrite He, lookup_empty in Hu.
    + intros machine user_config os_type Hne. by destruct Hne.
Qed.
End Configuration.

(* ===================================================================== *)
(** * The further properties on concrete inputs *)
(* ===================================================================== *)

Module Checks.
Import Py App Sample Scenes.

Lemma resolution_is_idempotent_witness :
  length ["c3"; "a1"] = length ["c3"; "host-a1"]
  /\ Forall (SelectionSpec.is_system_id fleet) ["c3"; "a1"]
  /\ resolve_machine_identifiers (world accept_all fleet) ["c3"; "a1"]
     = inr ["c3"; "a1"].
Proof.
  apply (Submission.resolution_is_idempotent (world accept_all fleet) fleet
           ["c3"; "host-a1"] ["c3"; "a1"]); reflexivity.
Defined.

Lemma resolution_needs_hostnames_witness :
  resolve_machine_identifiers (world accept_all [machine "a1" "Ready" []; nameless])
    ["a1"]
  = inl {| status_code := 500;
           detail := DErrorDetails "Failed to resolve machine identifiers"
                       "'hostname'" |}.
Proof.
  apply (Submission.resolution_needs_hostnames
           (world accept_all [machine "a1" "Ready" []; nameless])
           [machine "a1" "Ready" []; nameless] ["a1"]); reflexivity.
Defined.

Lemma submission_gateway_failure_witness :
  exists err,
    provision_machines broken empty_globals (manual ["a1"] None)
    = (inl err, empty_globals)
    /\ err = {| status_code := 500;
                detail := DErrorDetails
                            "Failed to resolve machine identifiers"
                            "connection refused" |}.
Proof.
  apply (Submission.submission_gateway_failure broken empty_globals
           (manual ["a1"] None) (GwOther "connection refused"));
    reflexivity.
Defined.

Lemma submission_then_query_witness :
  exists resp task j,
    provision_machines (world accept_all fleet) empty_globals
      (manual ["a1"] None) = (inr (resp, task), served)
    /\ Endpoints.get_provisioning_job served (job_id resp) = inr j
    /\ status j = pending /\ results j = []
    /\ job_id_counter served = 2%Z.
Proof.
  destruct (Submission.submission_then_query (world accept_all fleet)
              empty_globals served (manual ["a1"] None) _ _ eq_refl)
    as ((j & Hget & _ & Hstatus & Hresults & _) & _ & _ & Hcounter & _).
  eexists _, _, j. split; [reflexivity |]. split; [exact Hget |].
  split; [exact Hstatus |]. split; [exact Hresults |]. exact Hcounter.
Defined.

Lemma submission_never_overwrites_witness :
  exists resp task st',
    provision_machines (world accept_all fleet) served
      (manual ["c3"] None) = (inr (resp, task), st')
    /\ provisioning_jobs served !! job_id resp = None
    /\ ExtraSpec.named_below st'.
Proof.
  assert (Hbelow : ExtraSpec.named_below served).
  { intros k Hk. exists 1714557600%Z, 1%Z.
    split; [lia |]. split; [by vm_compute |].
    change (provisioning_jobs served)
      with (<[ExtraSpec.job_name 1714557600 1 :=
                new_job (ExtraSpec.job_name 1714557600 1)
                  (clock (world accept_all fleet) 0)
                  (clock (world accept_all fleet) 1) None
                  (manual ["a1"] None)]>
              (provisioning_jobs empty_globals)) in Hk.
    apply lookup_insert_is_Some in Hk as [<- | [_ Hk]]; [reflexivity |].
    destruct Hk as [j Hj]. discriminate Hj. }
  destruct (Submission.submission_never_overwrites (world accept_all fleet)
              served _ (manual ["c3"] None) _ _ Hbelow
              ltac:(by vm_compute) ltac:(by vm_compute) eq_refl)
    as (Hfree & _ & Hbelow').
  eexists _, _, _. split; [reflexivity |]. split; [exact Hfree |].
  exact Hbelow'.
Defined.

Lemma selected_machines_are_listed_witness :
  exists listed,
    Endpoints.get_machines (world accept_all fleet) empty_globals = inr listed
    /\ forall sid, In sid ["a1"; "c3"] ->
         exists m, In m listed /\ system_id m = sid
                   /\ status_name m = "Ready".
Proof.
  exact (Submission.selected_machines_are_listed (world accept_all fleet)
           empty_globals (automatic ["gpu"] None 2) ["a1"; "c3"] _ eq_refl).
Defined.

Lemma run_follows_the_state_machine_witness :
  exists mids ends final_status,
    trace (run (world refuse_c3 fleet) (manual ["a1"; "b2"; "c3"] None)
             ["a1"; "b2"; "c3"])
    = new_job "job-1" "2024-05-01T09:59:58" "2024-05-01T09:59:59" None
        (manual ["a1"; "b2"; "c3"] None) :: mids ++ ends
    /\ mids <> [] /\ Forall (fun j => status j = running) mids
    /\ length ends = 3 /\ JobSpec.terminal final_status = true
    /\ Forall (fun j => status j = final_status) ends
    /\ (final_status = job_failed
        <-> exists e, machines_api (world refuse_c3 fleet) = inl e).
Proof.
  apply (Runs.run_follows_the_state_machine (H := BlockYaml.runtime)
           (world refuse_c3 fleet)
           (globals (manual ["a1"; "b2"; "c3"] None)) "job-1"
           ["a1"; "b2"; "c3"] _
           (new_job "job-1" "2024-05-01T09:59:58" "2024-05-01T09:59:59"
              None (manual ["a1"; "b2"; "c3"] None))); reflexivity.
Defined.

Lemma run_keeps_identity_witness :
  Forall (ExtraSpec.same_identity
            (new_job "job-1" "2024-05-01T09:59:58" "2024-05-01T09:59:59"
               None (manual ["a1"; "c3"] None)))
    (trace (run (world refuse_c3 fleet) (manual ["a1"; "c3"] None)
              ["a1"; "c3"])).
Proof.
  apply (Runs.run_keeps_identity (H := BlockYaml.runtime)
           (world refuse_c3 fleet) (globals (manual ["a1"; "c3"] None))
           "job-1" ["a1"; "c3"] _
           (new_job "job-1" "2024-05-01T09:59:58" "2024-05-01T09:59:59"
              None (manual ["a1"; "c3"] None))); reflexivity.
Defined.

Lemma run_aborts_on_fetch_failure_witness :
  deploy_calls (deploy_machines (H := BlockYaml.runtime) broken
                  (globals (manual ["a1"] None)) "job-1" ["a1"]
                  (config (new_job "job-1" "" "" None (manual ["a1"] None))))
  = []
  /\ exists j,
      final_job (deploy_machines (H := BlockYaml.runtime) broken
                   (globals (manual ["a1"] None)) "job-1" ["a1"]
                   (config (new_job "job-1" "" "" None
                              (manual ["a1"] None)))) "job-1" = Some j
      /\ status j = job_failed /\ error j = Some "connection refused"
      /\ results j = [].
Proof.
  destruct (Runs.run_aborts_on_fetch_failure (H := BlockYaml.runtime) broken
              (globals (manual ["a1"] None)) "job-1" ["a1"]
              (config (new_job "job-1" "" "" None (manual ["a1"] None)))
              (new_job "job-1" "2024-05-01T09:59:58" "2024-05-01T09:59:59"
                 None (manual ["a1"] None))
              (GwOther "connection refused") eq_refl eq_refl)
    as (Hcalls & j & Hj & Hstatus & Herror & Hresults & _).
  split; [exact Hcalls |]. exists j. split; [exact Hj |].
  split; [exact Hstatus |]. split; [exact Herror |]. exact Hresults.
Defined.

Lemma final_status_follows_deploy_calls_witness :
  exists j,
    final_job (run (world refuse_c3 fleet) (manual ["a1"; "c3"] None)
                 ["a1"; "c3"]) "job-1" = Some j
    /\ is_Some (completed_at j)
    /\ (status j = completed \/ status j = completed_with_errors)
    /\ (status j = completed <->
        forall i c,
          deploy_calls (run (world refuse_c3 fleet)
                          (manual ["a1"; "c3"] None) ["a1"; "c3"]) !! i
          = Some c ->
          exists res, refuse_c3 i c.1 c.2 = inr res).
Proof.
  apply (Runs.final_status_follows_deploy_calls (H := BlockYaml.runtime)
           (world refuse_c3 fleet) (globals (manual ["a1"; "c3"] None))
           "job-1" ["a1"; "c3"] _
           (new_job "job-1" "2024-05-01T09:59:58" "2024-05-01T09:59:59"
              None (manual ["a1"; "c3"] None)) fleet); reflexivity.
Defined.

Lemma run_without_deployable_machine_witness :
  deploy_calls (run (world accept_all fleet) (manual ["b2"; "zz"] None)
                  ["b2"; "zz"]) = []
  /\ exists j,
      final_job (run (world accept_all fleet) (manual ["b2"; "zz"] None)
                   ["b2"; "zz"]) "job-1" = Some j
      /\ status j = completed
      /\ total_machines j = 0 /\ successful_deployments j = 0
      /\ failed_deployments j = 0
      /\ length (results j) = length ["b2"; "zz"]
      /\ Forall (fun e => r_status e <> deployed) (results j).
Proof.
  apply (Runs.run_without_deployable_machine (H := BlockYaml.runtime)
           (world accept_all fleet) (globals (manual ["b2"; "zz"] None))
           "job-1" ["b2"; "zz"] _
           (new_job "job-1" "2024-05-01T09:59:58" "2024-05-01T09:59:59"
              None (manual ["b2"; "zz"] None)) fleet); reflexivity.
Defined.

Lemma enhancements_grow_with_tags_witness :
  CloudInit.enh_packages
    (CloudInit.generate_tag_based_enhancements ["doca"] "rocky")
    `sublist_of`
    CloudInit.enh_packages
      (CloudInit.generate_tag_based_enhancements ["high-cpu"; "doca"] "rocky")
  /\ CloudInit.enh_runcmd
       (CloudInit.generate_tag_based_enhancements ["doca"] "rocky")
       `sublist_of`
       CloudInit.enh_runcmd
         (CloudInit.generate_tag_based_enhancements ["high-cpu"; "doca"]
            "rocky")
  /\ CloudInit.enh_write_files
       (CloudInit.generate_tag_based_enhancements ["doca"] "rocky")
       `sublist_of`
       CloudInit.enh_write_files
         (CloudInit.generate_tag_based_enhancements ["high-cpu"; "doca"]
            "rocky").
Proof.
  apply (Enhancing.enhancements_grow_with_tags ["doca"] ["high-cpu"; "doca"]
           "rocky").
  intros x Hx. apply list_elem_of_singleton in Hx. subst x.
  right. left.
Defined.

Lemma parsed_entries_come_from_lines_witness :
  exists line a b,
    In line (split_on nl_char users_conf)
    /\ line = a +:+ "=" +:+ b
    /\ ExtraSpec.lacks "=" a = true
    /\ "PASSWORD" = strip a /\ "a=b" = strip b
    /\ "PASSWORD" <> "" /\ "a=b" <> "".
Proof.
  apply (Configuration.parsed_entries_come_from_lines users_conf
           "PASSWORD" "a=b").
  by vm_compute.
Defined.
End Checks.

Module PyTests.
Import Py.

Example lower_ex : lower "Rocky-9 RHEL" = "rocky-9 rhel".
Proof. reflexivity. Qed.

Example contains_ex :
  contains "echo" "- run echo" = true /\ contains "echo" "- ls -l" = false
  /\ contains "" "" = true.
Proof. repeat split. Qed.

Example strip_ex : strip ("  - a b " +:+ nl) = "- a b" /\ strip "   " = "".
Proof. split; reflexivity. Qed.

Example split_ex :
  split_on nl_char ("a" +:+ nl +:+ nl +:+ "b") = ["a"; ""; "b"]
  /\ split_on nl_char "" = [""] /\ split_on "," "a, b" = ["a"; " b"].
Proof. repeat split. Qed.

Example replace_ex :
  replace "aa" "b" "aaaaa" = "bba" /\ replace "x: p" "x: H" "x: p; y: p" = "x: H; y: p"
  /\ replace "" "-" "ab" = "-a-b-".
Proof. repeat split. Qed.

Example replace_first_ex :
  replace_first "- " "" "- a - b" = "a - b" /\ replace_first "- " "" "x- a- b" = "xa- b".
Proof. repeat split. Qed.

Example str_ex :
  str_of_Z 0 = "0" /\ str_of_Z 1024 = "1024" /\ str_of_Z (-3) = "-3".
Proof. repeat split. Qed.

Example ceil_ex :
  ceil_div_1024 0 = 0%Z /\ ceil_div_1024 1 = 1%Z /\ ceil_div_1024 2048 = 2%Z
  /\ ceil_div_1024 2049 = 3%Z.
Proof. repeat split. Qed.

Example sorted_ex : sorted ["b"; "a"; "B"; "ab"] = ["B"; "a"; "ab"; "b"].
Proof. reflexivity. Qed.

Example last_ex : last_str 8 "abcdefghij" = "cdefghij" /\ last_str 8 "abc" = "abc".
Proof. split; reflexivity. Qed.
End PyTests.
